(** * SundAI front end: the conversational command-execution core of app.js

    A shallow embedding of [src/app.js]: the [Database] wrapper around the
    persistence collaborator [window.db], the view loaders that refresh
    [DataCache], the [ToolExecutor] dispatcher with its action handlers,
    [linkifyEntityMentions], [formatMarkdown], the four table loaders and
    the month grid of the calendar.

    Conventions.
    - A JavaScript string is a [string] of code units below 128 (ASCII text);
      literals of the source that carry emoji are kept as their UTF-8 bytes.
    - A JavaScript object used as a record or parameter bag is a finite map
      [gmap string JsVal]; a missing key reads as [JUndefined].
    - Numbers are integers ([JNum]) or [JNaN].
    - Asynchronous code is run to completion in program order: a call into
      the collaborator is answered at the point where it is issued. *)

From Stdlib Require Import ZArith Ascii String Sorted.
From stdpp Require Import gmap strings list pretty.

Local Open Scope Z_scope.

(** ** JavaScript strings *)

Definition nl : string := String "010"%char EmptyString.

(** The double quote character, as a one-character string. *)
Definition dq : string := String (ascii_of_nat 34) EmptyString.

Definition isUpperChar (c : ascii) : bool :=
  (65 <=? nat_of_ascii c)%nat && (nat_of_ascii c <=? 90)%nat.

Definition lowerChar (c : ascii) : ascii :=
  if isUpperChar c then ascii_of_nat (nat_of_ascii c + 32) else c.

(** [String.prototype.toLowerCase] on ASCII text. *)
Fixpoint toLowerCase (s : string) : string :=
  match s with
  | EmptyString => EmptyString
  | String c s' => String (lowerChar c) (toLowerCase s')
  end.

(** [s.startsWith(p)]. *)
Fixpoint startsWith (p s : string) : bool :=
  match p, s with
  | EmptyString, _ => true
  | String a p', String b s' => Ascii.eqb a b && startsWith p' s'
  | String _ _, EmptyString => false
  end.

(** [s.includes(needle)]. *)
Fixpoint includes (s needle : string) : bool :=
  startsWith needle s ||
  match s with
  | EmptyString => false
  | String _ s' => includes s' needle
  end.

(** [s.split(sep)] for a one-character separator. *)
Fixpoint split (sep : ascii) (s : string) : list string :=
  match s with
  | EmptyString => [EmptyString]
  | String c s' =>
      if Ascii.eqb c sep then EmptyString :: split sep s'
      else match split sep s' with
           | [] => [String c EmptyString]
           | p :: ps => String c p :: ps
           end
  end.

Fixpoint repeatChar (n : nat) (c : ascii) : string :=
  match n with
  | O => EmptyString
  | S n' => String c (repeatChar n' c)
  end.

(** [s.padStart(n, c)] for a one-character filler. *)
Definition padStart (n : nat) (c : ascii) (s : string) : string :=
  repeatChar (n - String.length s) c +:+ s.

(** [lines.join('\n')]. *)
Fixpoint join (sep : string) (l : list string) : string :=
  match l with
  | [] => EmptyString
  | [x] => x
  | x :: l' => x +:+ sep +:+ join sep l'
  end.

(** ** JavaScript values *)

Inductive JsVal :=
| JUndefined
| JNull
| JBool (b : bool)
| JNum (n : Z)
| JNaN
| JStr (s : string).

Global Instance JsVal_eq_dec : EqDecision JsVal.
Proof. solve_decision. Defined.

(** ToBoolean. *)
Definition truthy (v : JsVal) : bool :=
  match v with
  | JUndefined | JNull | JNaN => false
  | JBool b => b
  | JNum n => negb (n =? 0)
  | JStr s => negb (String.eqb s EmptyString)
  end.

(** [a || b]. *)
Definition jsOr (a b : JsVal) : JsVal := if truthy a then a else b.

(** ToString, as a template literal applies it. *)
Definition toStr (v : JsVal) : string :=
  match v with
  | JUndefined => "undefined"
  | JNull => "null"
  | JBool true => "true"
  | JBool false => "false"
  | JNum n => pretty n
  | JNaN => "NaN"
  | JStr s => s
  end.

(** [a === b]. *)
Definition strictEq (a b : JsVal) : bool :=
  match a, b with
  | JNaN, _ | _, JNaN => false
  | _, _ => bool_decide (a = b)
  end.

(** Objects: records and parameter bags. *)
Abbreviation obj := (gmap string JsVal).

Definition get (o : obj) (k : string) : JsVal := default JUndefined (o !! k).

(** Put [k: v] into an object literal. *)
Definition field (k : string) (v : JsVal) (o : obj) : obj := <[k := v]> o.

(** What a collaborator call resolves with, and what an outcome carries as
    [data]: nothing ([undefined]), a plain object, an array of objects, or
    the envelope [{ data: inner }]. *)
Inductive JsData :=
| DataNone
| DataObj (o : obj)
| DataRows (rows : list obj)
| DataEnvelope (inner : JsData).

(** *** parseInt *)

Definition isSpaceChar (c : ascii) : bool :=
  let n := nat_of_ascii c in
  ((9 <=? n)%nat && (n <=? 13)%nat) || (n =? 32)%nat.

Fixpoint trimStart (s : string) : string :=
  match s with
  | String c s' => if isSpaceChar c then trimStart s' else s
  | EmptyString => EmptyString
  end.

Definition digitOf (radix : Z) (c : ascii) : option Z :=
  let n := Z.of_nat (nat_of_ascii c) in
  let d := if (48 <=? n) && (n <=? 57) then Some (n - 48)
           else if (97 <=? n) && (n <=? 122) then Some (n - 87)
           else if (65 <=? n) && (n <=? 90) then Some (n - 55)
           else None in
  match d with
  | Some k => if k <? radix then Some k else None
  | None => None
  end.

(** The longest prefix of digits in [radix], folded from the left; [None]
    when there is no digit at all. *)
Fixpoint parseDigits (radix : Z) (acc : option Z) (s : string) : option Z :=
  match s with
  | EmptyString => acc
  | String c s' =>
      match digitOf radix c with
      | Some d => parseDigits radix (Some (default 0 acc * radix + d)) s'
      | None => acc
      end
  end.

Definition parseIntStr (s : string) : JsVal :=
  let s1 := trimStart s in
  let '(sign, s2) :=
    match s1 with
    | String "-"%char r => (-1, r)
    | String "+"%char r => (1, r)
    | _ => (1, s1)
    end in
  let '(radix, s3) :=
    match s2 with
    | String "0"%char (String "x"%char r) => (16, r)
    | String "0"%char (String "X"%char r) => (16, r)
    | _ => (10, s2)
    end in
  match parseDigits radix None s3 with
  | Some n => JNum (sign * n)
  | None => JNaN
  end.

(** [parseInt(v)]: the argument is converted with ToString first. A number
    is read back as it is, which is what happens below [1e21], where
    ToString writes a number with all its digits; from there on ToString
    writes an exponent and [parseInt] reads the leading digit only (see
    [plainNumber]). *)
Definition parseInt (v : JsVal) : JsVal :=
  match v with
  | JNum n => JNum n
  | JStr s => parseIntStr s
  | _ => JNaN
  end.

(** ** The date conversion shared by the date-accepting handlers

    [if (dateStr && dateStr.includes('/')) { parts = dateStr.split('/');
       if (parts.length === 3 && parts[0].length <= 2)
         dateStr = `${parts[2]}-${parts[1].padStart(2,'0')}-${parts[0].padStart(2,'0')}` }] *)
Definition convertDate (dateStr : string) : string :=
  if negb (String.eqb dateStr EmptyString) && includes dateStr "/" then
    match split "/" dateStr with
    | [p0; p1; p2] =>
        if (String.length p0 <=? 2)%nat
        then p2 +:+ "-" +:+ padStart 2 "0" p1 +:+ "-" +:+ padStart 2 "0" p0
        else dateStr
    | _ => dateStr
    end
  else dateStr.

(** ** The host: the JavaScript engine's [Date], its clock and its errors *)

Class Host := {
  (** [new Date(v).toLocaleDateString('en-GB', {day:'2-digit', month:'2-digit',
      year:'numeric'})] *)
  hostFormatDate : JsVal → string;
  (** the time value of [new Date(v)]; [None] is an invalid date (NaN) *)
  hostDateValue : JsVal → option Z;
  (** [new Date().setHours(0,0,0,0)] *)
  todayStart : Z;
  (** [new Date().toISOString().split('T')[0]] *)
  todayISO : string;
  (** [error.message] of the TypeError raised by the named expression *)
  hostTypeError : string → string;
  (** [Number(s)]; [None] is NaN *)
  hostStringToNumber : string → option Z;
}.

(** ** The persistence collaborator [window.db]

    It is external to app.js: every request is answered by the collaborator,
    which may resolve with data, reject with an error, a value that has a
    [message], or reject with [null] or [undefined]. *)

Inductive Kind := Patients | Appointments | Deadlines | Inventory.

Global Instance Kind_eq_dec : EqDecision Kind.
Proof. solve_decision. Defined.

Inductive DbRequest :=
| GetAll (k : Kind)                   (* getAllPatients(1000, 0), getAllAppointments(1000, 0), ... *)
| SearchPatients (query : JsVal)      (* searchPatients(query, 20, 0) *)
| GetLowStock                         (* getLowStock() *)
| GetPatient (patientNumber : JsVal)  (* getPatient({ patientNumber }) *)
| GetAppointmentsByDate (date : JsVal)
| GetPatientNotes (id : JsVal)
| AddPatientNote (id note : JsVal) (author : string)
| Create (k : Kind) (record : obj)    (* createPatient(record), ... *)
| Update (k : Kind) (id : JsVal) (updates : obj)
| Delete (k : Kind) (id : JsVal).

Inductive DbResponse :=
| Resolved (d : JsData)
| Rejected (message : string)
| RejectedBare.

Class Persistence := {
  DbState : Type;
  dbCall : DbRequest → DbState → DbResponse * DbState;
}.

(** ** Application state *)

(** [DataCache] *)
Record DataCache := {
  patients : list obj;
  appointments : list obj;
  deadlines : list obj;
  inventory : list obj;
}.

(** What a table body is set to. *)
Inductive TableBody :=
| Loading
| NoRows
| Rows (rows : list obj)
| InventoryRows (rows : list (obj * bool))   (* the item and its low-stock badge *)
| LoadFailed.

(** Observable effects, in the order they happen. *)
Inductive Event :=
| DbCalled (req : DbRequest)
| StatsShown (total today pending low : nat)
| ConnectionStatusShown (ok : bool)
| CalendarRendered
| ScheduleShown (date : JsVal) (isToday : bool)
| TableShown (k : Kind) (body : TableBody).

Record World `{Persistence} := {
  (** [Database.isConnected()]: [window.db] is there with its interface *)
  connected : bool;
  db : DbState;
  cache : DataCache;
  selectedCalendarDate : JsVal;
  trace : list Event;
}.

Section State.
Context `{Persistence}.

Definition withDb (d : DbState) (w : World) : World :=
  {| connected := connected w; db := d; cache := cache w;
     selectedCalendarDate := selectedCalendarDate w; trace := trace w |}.

Definition withCache (c : DataCache) (w : World) : World :=
  {| connected := connected w; db := db w; cache := c;
     selectedCalendarDate := selectedCalendarDate w; trace := trace w |}.

Definition withSelected (d : JsVal) (w : World) : World :=
  {| connected := connected w; db := db w; cache := cache w;
     selectedCalendarDate := d; trace := trace w |}.

Definition logged (e : Event) (w : World) : World :=
  {| connected := connected w; db := db w; cache := cache w;
     selectedCalendarDate := selectedCalendarDate w; trace := trace w ++ [e] |}.
End State.

Definition setPatients (l : list obj) (c : DataCache) : DataCache :=
  {| patients := l; appointments := appointments c; deadlines := deadlines c; inventory := inventory c |}.
Definition setAppointments (l : list obj) (c : DataCache) : DataCache :=
  {| patients := patients c; appointments := l; deadlines := deadlines c; inventory := inventory c |}.
Definition setDeadlines (l : list obj) (c : DataCache) : DataCache :=
  {| patients := patients c; appointments := appointments c; deadlines := l; inventory := inventory c |}.
Definition setInventory (l : list obj) (c : DataCache) : DataCache :=
  {| patients := patients c; appointments := appointments c; deadlines := deadlines c; inventory := l |}.

(** ** Effects: state and exceptions *)

(** What [catch (error)] receives: a value whose [message] reads as the
    text, or [null] or [undefined], which has no property to read. *)
Inductive Err :=
| Message (text : string)
| Bare.

Coercion Message : string >-> Err.

Inductive Res (A : Type) :=
| Ok (a : A)
| Thrown (error : Err).
Arguments Ok {A} a.
Arguments Thrown {A} error.

Definition M `{Persistence} (A : Type) : Type := World → Res A * World.

Section Monad.
Context `{Persistence}.

Definition ret {A} (a : A) : M A := λ w, (Ok a, w).

Definition bind {A B} (m : M A) (k : A → M B) : M B :=
  λ w, match m w with
       | (Ok a, w') => k a w'
       | (Thrown e, w') => (Thrown e, w')
       end.

(** [throw new Error(message)] *)
Definition throw {A} (message : string) : M A := λ w, (Thrown message, w).

(** [try { m } catch (error) { handler(error) }] *)
Definition tryCatch {A} (m : M A) (handler : Err → M A) : M A :=
  λ w, match m w with
       | (Ok a, w') => (Ok a, w')
       | (Thrown e, w') => handler e w'
       end.

Definition getWorld : M World := λ w, (Ok w, w).
Definition modify (f : World → World) : M unit := λ w, (Ok tt, f w).
Definition emit (e : Event) : M unit := modify (logged e).
End Monad.

Notation "'do' x <- m ; k" := (bind m (λ x, k))
  (at level 10, x name, m at level 100, k at level 200).
Notation "'run' m ; k" := (bind m (λ _, k))
  (at level 10, m at level 100, k at level 200).

(** Code that can throw but touches no state. *)
Definition bindRes {A B} (r : Res A) (k : A → Res B) : Res B :=
  match r with
  | Ok a => k a
  | Thrown e => Thrown e
  end.

Definition liftRes `{Persistence} {A} (r : Res A) : M A := λ w, (r, w).

(** [catch (error) { handler(error.message) }]: reading the message of
    [null] or [undefined] throws. *)
Definition withMessage {host : Host} `{Persistence} {A}
    (handler : string → M A) : Err → M A :=
  λ error,
    match error with
    | Message text => handler text
    | Bare => throw (hostTypeError "error.message")
    end.

(** [l.find(pred)] for a callback that can throw: the callback runs on the
    elements in order and stops at the first hit. *)
Fixpoint findRes {A} (pred : A → Res bool) (l : list A) : Res (option A) :=
  match l with
  | [] => Ok None
  | x :: l' =>
      bindRes (pred x) (λ b, if b then Ok (Some x) else findRes pred l')
  end.

(** [l.filter(pred)] for a callback that can throw. *)
Fixpoint filterRes {A} (pred : A → Res bool) (l : list A) : Res (list A) :=
  match l with
  | [] => Ok []
  | x :: l' =>
      bindRes (pred x) (λ b,
      bindRes (filterRes pred l') (λ rest,
      Ok (if b then x :: rest else rest)))
  end.

(** *** Comparison and sorting *)

(** [a <= b] on values: two strings compare by code units, anything else
    compares as numbers, with the host converting a string to a number. *)
Definition toNumber (hostStringToNumber : string → option Z) (v : JsVal) : option Z :=
  match v with
  | JNum n => Some n
  | JBool true => Some 1
  | JBool false => Some 0
  | JNull => Some 0
  | JUndefined | JNaN => None
  | JStr s => hostStringToNumber s
  end.

Definition jsLe (hostStringToNumber : string → option Z) (a b : JsVal) : bool :=
  match a, b with
  | JStr x, JStr y => String.leb x y
  | _, _ =>
      match toNumber hostStringToNumber a, toNumber hostStringToNumber b with
      | Some x, Some y => x <=? y
      | _, _ => false
      end
  end.

(** [[...l].sort(cmp)]: the sort is stable, and [le a b] says that
    [cmp(a, b)] is not positive (a NaN result counts as zero). *)
Fixpoint insertSorted {A} (le : A → A → bool) (x : A) (l : list A) : list A :=
  match l with
  | [] => [x]
  | y :: l' => if le x y then x :: l else y :: insertSorted le x l'
  end.

Fixpoint sortBy {A} (le : A → A → bool) (l : list A) : list A :=
  match l with
  | [] => []
  | x :: l' => insertSorted le x (sortBy le l')
  end.

(** A call [window.db.method(...)]: without the collaborator the property
    access throws. *)
Definition windowDb {host : Host} {persist : Persistence} (req : DbRequest) : M JsData :=
  λ w,
    if connected w then
      let '(resp, d) := dbCall req (db w) in
      let w' := logged (DbCalled req) (withDb d w) in
      match resp with
      | Resolved r => (Ok r, w')
      | Rejected e => (Thrown e, w')
      | RejectedBare => (Thrown Bare, w')
      end
    else (Thrown (hostTypeError "window.db"), w).

(** [result?.data || result?.patients || []], for a result whose [data]
    (or [patients]) is an array when it is there. *)
Definition rowsOf (result : JsData) : list obj :=
  match result with
  | DataEnvelope (DataRows l) => l
  | _ => []
  end.

(** ** DATABASE API WRAPPER *)
Module Database.
Section Database.
Context {host : Host} {persist : Persistence}.

Definition isConnected : M bool := λ w, (Ok (connected w), w).

(** The read wrappers: [if (!this.isConnected()) return []; try { ... }
    catch (error) { return []; }] *)
Definition read (req : DbRequest) : M (list obj) :=
  do c <- isConnected;
  if negb c then ret []
  else tryCatch (do result <- windowDb req; ret (rowsOf result)) (λ _, ret []).

(** The write wrappers: [if (!this.isConnected()) throw new Error('Database
    not connected'); return await window.db.method(...)] *)
Definition write (req : DbRequest) : M JsData :=
  do c <- isConnected;
  if negb c then throw "Database not connected" else windowDb req.

Definition getPatients : M (list obj) := read (GetAll Patients).
Definition searchPatients (query : JsVal) : M (list obj) := read (SearchPatients query).
Definition getAppointments : M (list obj) := read (GetAll Appointments).
Definition getDeadlines : M (list obj) := read (GetAll Deadlines).
Definition getInventory : M (list obj) := read (GetAll Inventory).
Definition getLowStock : M (list obj) := read GetLowStock.

Definition createPatient (patient : obj) : M JsData :=
  write (Create Patients patient).
Definition updatePatient (id : JsVal) (updates : obj) : M JsData :=
  write (Update Patients id updates).
Definition deletePatient (id : JsVal) : M JsData :=
  write (Delete Patients id).

Definition createAppointment (appointment : obj) : M JsData :=
  write (Create Appointments appointment).
Definition updateAppointment (id : JsVal) (updates : obj) : M JsData :=
  write (Update Appointments id updates).
Definition deleteAppointment (id : JsVal) : M JsData :=
  write (Delete Appointments id).

Definition createDeadline (deadline : obj) : M JsData :=
  write (Create Deadlines deadline).
Definition updateDeadline (id : JsVal) (updates : obj) : M JsData :=
  write (Update Deadlines id updates).
Definition deleteDeadline (id : JsVal) : M JsData :=
  write (Delete Deadlines id).

Definition createInventoryItem (item : obj) : M JsData :=
  write (Create Inventory item).
Definition updateInventoryItem (id : JsVal) (updates : obj) : M JsData :=
  write (Update Inventory id updates).
Definition deleteInventoryItem (id : JsVal) : M JsData :=
  write (Delete Inventory id).
End Database.
End Database.

(** ** UI UTILITIES *)
Module UI.
(** [formatDate(dateStr)] *)
Definition formatDate {host : Host} (dateStr : JsVal) : string :=
  if negb (truthy dateStr) then "-" else hostFormatDate dateStr.
End UI.

(** ** DASHBOARD and the view loaders *)
Section Views.
Context {host : Host} {persist : Persistence}.

(** [new Date(v) >= new Date().setHours(0,0,0,0)] *)
Definition onOrAfterToday (v : JsVal) : bool :=
  match hostDateValue v with
  | Some t => todayStart <=? t
  | None => false
  end.

(** [new Date(a) - new Date(b)] is not positive *)
Definition dateLe (a b : JsVal) : bool :=
  match hostDateValue a, hostDateValue b with
  | Some x, Some y => x <=? y
  | _, _ => true
  end.

(** The four reads [loadStats] starts before it first suspends. *)
Definition loadStats_fetch : M (list obj * list obj * list obj * list obj) :=
  do ps <- Database.getPatients;
  do apps <- Database.getAppointments;
  do dls <- Database.getDeadlines;
  do low <- Database.getLowStock;
  ret (ps, apps, dls, low).

(** What [loadStats] does once the four reads have settled. *)
Definition loadStats_apply (r : list obj * list obj * list obj * list obj) : M unit :=
  let '(ps, apps, dls, low) := r in
  run modify (λ w, withCache (setDeadlines dls (setAppointments apps (setPatients ps (cache w)))) w);
  let todayAppts := List.filter (λ a, strictEq (get a "date") (JStr todayISO)) apps in
  let pendingDeadlines :=
    List.filter (λ d, onOrAfterToday (jsOr (get d "date") (get d "dueDate"))) dls in
  run emit (StatsShown (length ps) (length todayAppts) (length pendingDeadlines) (length low));
  emit (ConnectionStatusShown true).

Definition loadStats : M unit :=
  tryCatch (do r <- loadStats_fetch; loadStats_apply r)
           (λ _, emit (ConnectionStatusShown false)).

Definition renderCalendar : M unit := emit CalendarRendered.

(** [showDateSchedule(date, isToday)] selects the date and draws the panel
    of that day from [DataCache]. Of the drawing the model keeps that it
    took place: the cached rows are taken to carry texts where the panel
    reads texts ([time], [notes]), so that drawing them does not throw. *)
Definition showDateSchedule (date : JsVal) (isToday : bool) : M unit :=
  run modify (withSelected date);
  emit (ScheduleShown date isToday).

Definition loadTodaySchedule : M unit := showDateSchedule (JStr todayISO) true.

(** [await Promise.all([loadStats(), renderCalendar(), loadTodaySchedule()])]:
    [loadStats] suspends on its reads, the other two run synchronously, and
    [loadStats] resumes after them. *)
Definition loadDashboard : M unit :=
  do fetched <- tryCatch (do r <- loadStats_fetch; ret (Some r))
                         (λ _, run emit (ConnectionStatusShown false); ret None);
  run renderCalendar;
  run loadTodaySchedule;
  match fetched with
  | Some r => tryCatch (loadStats_apply r) (λ _, emit (ConnectionStatusShown false))
  | None => ret tt
  end.

Definition loadPatients : M unit :=
  run emit (TableShown Patients Loading);
  tryCatch
    (do ps <- Database.getPatients;
     run modify (λ w, withCache (setPatients ps (cache w)) w);
     if bool_decide (length ps = 0%nat)
     then emit (TableShown Patients NoRows)
     else emit (TableShown Patients (Rows ps)))
    (λ _, emit (TableShown Patients LoadFailed)).

(** The badge of a row of the inventory table:
    [(item.quantity || 0) <= (item.minStock || item.minimumStock || 10)] *)
Definition isLowInTable (item : obj) : bool :=
  jsLe hostStringToNumber
    (jsOr (get item "quantity") (JNum 0))
    (jsOr (jsOr (get item "minStock") (get item "minimumStock")) (JNum 10)).

Definition loadInventory : M unit :=
  run emit (TableShown Inventory Loading);
  tryCatch
    (do inv <- Database.getInventory;
     run modify (λ w, withCache (setInventory inv (cache w)) w);
     if bool_decide (length inv = 0%nat)
     then emit (TableShown Inventory NoRows)
     else emit (TableShown Inventory
                  (InventoryRows (map (λ item, (item, isLowInTable item)) inv))))
    (λ _, emit (TableShown Inventory LoadFailed)).
End Views.

(** ** CHAT WITH MCP TOOL EXECUTION *)

(** [{ success, message, data }] *)
Record Outcome := {
  success : bool;
  message : JsVal;
  data : JsData;
}.

Definition succeeded (m : string) (d : JsData) : Outcome :=
  {| success := true; message := JStr m; data := d |}.

Definition failed (m : string) : Outcome :=
  {| success := false; message := JStr m; data := DataNone |}.

(** [cond ? text : ''] inside a template literal *)
Definition whenTruthy (v : JsVal) (text : string) : string :=
  if truthy v then text else "".

(** [if (v) updates.key = v;] *)
Definition setIfTruthy (key : string) (v : JsVal) (updates : obj) : obj :=
  if truthy v then <[key := v]> updates else updates.

(** [if (v !== undefined) updates.key = parseInt(v);] *)
Definition setParsedIfDefined (key : string) (v : JsVal) (updates : obj) : obj :=
  if bool_decide (v = JUndefined) then updates else <[key := parseInt v]> updates.

(** [d.priority === 'high' ? '🔴' : (d.priority === 'low' ? '🟢' : '🟡')] *)
Definition priorityEmoji (priority : JsVal) : string :=
  if strictEq priority (JStr "high") then "🔴"
  else if strictEq priority (JStr "low") then "🟢" else "🟡".

Module ToolExecutor.
Section Handlers.
Context {host : Host} {persist : Persistence}.

(** The conversion of [dateStr] at the head of the date-accepting
    handlers; a truthy value that is not a string has no [includes]. *)
Definition convertDateVal (dateStr : JsVal) : M JsVal :=
  match dateStr with
  | JStr s => ret (JStr (convertDate s))
  | _ => if truthy dateStr then throw (hostTypeError "dateStr.includes") else ret dateStr
  end.

(** [if (selectedCalendarDate === dateStr) showDateSchedule(dateStr);
     else loadTodaySchedule();] *)
Definition refreshSchedule (dateStr : JsVal) : M unit :=
  do w <- getWorld;
  if strictEq (selectedCalendarDate w) dateStr
  then showDateSchedule dateStr false
  else loadTodaySchedule.

Definition createAppointment (params : obj) : M Outcome :=
  tryCatch
    (let patientName0 :=
       jsOr (jsOr (get params "patientName") (get params "patient")) (JStr "") in
     let patientNumber := get params "patientNumber" in
     do looked <-
       (if truthy patientNumber && negb (truthy patientName0) then
          tryCatch
            (do patient <- windowDb (GetPatient patientNumber);
             match patient with
             | DataEnvelope (DataObj p) => ret (inl (get p "name"))
             | DataEnvelope (DataRows _) => ret (inl JUndefined)
             | _ => ret (inr (failed ("❌ Patient #" +:+ toStr patientNumber +:+ " not found.")))
             end)
            (λ _, ret (inr (failed ("❌ Could not find patient #" +:+ toStr patientNumber +:+ "."))))
        else ret (inl patientName0));
     match looked with
     | inr out => ret out
     | inl patientName =>
         do dateStr <- convertDateVal (jsOr (get params "date") (JStr ""));
         let time := jsOr (get params "time") (JStr "") in
         let type := jsOr (get params "type") (JStr "checkup") in
         let duration := jsOr (parseInt (get params "duration")) (JNum 30) in
         let notes := jsOr (get params "notes") (JStr "") in
         let status := jsOr (get params "status") (JStr "scheduled") in
         let appointment : obj :=
           <["patientName" := patientName]> (<["date" := dateStr]> (<["time" := time]>
           (<["type" := type]> (<["duration" := duration]> (<["notes" := notes]>
           (<["status" := status]> ∅)))))) in
         if negb (truthy patientName) then
           ret (failed "❌ Patient name or number is required.")
         else if negb (truthy dateStr) then
           ret (failed "❌ Appointment date is required.")
         else
           do result <- Database.createAppointment appointment;
           run loadStats;
           run renderCalendar;
           run refreshSchedule dateStr;
           ret (succeeded
                  ("✅ Appointment scheduled successfully!" +:+ nl +:+ nl
                   +:+ "📋 **Details:**" +:+ nl
                   +:+ "• Patient: " +:+ toStr patientName +:+ nl
                   +:+ "• Date: " +:+ UI.formatDate dateStr
                   +:+ whenTruthy time (nl +:+ "• Time: " +:+ toStr time)
                   +:+ whenTruthy type (nl +:+ "• Type: " +:+ toStr type)
                   +:+ whenTruthy duration (nl +:+ "• Duration: " +:+ toStr duration +:+ " min")
                   +:+ whenTruthy notes (nl +:+ "• Notes: " +:+ toStr notes)
                   +:+ nl +:+ nl +:+ "💡 Click on the date in the calendar to view it.")
                  result)
     end)
    (withMessage (λ e, ret (failed ("❌ Failed to schedule appointment: " +:+ e)))).

Definition createDeadline (params : obj) : M Outcome :=
  tryCatch
    (do dateStr <- convertDateVal
                     (jsOr (jsOr (get params "date") (get params "dueDate")) (JStr ""));
     let title := jsOr (jsOr (get params "title") (get params "description")) (JStr "") in
     let priority := jsOr (get params "priority") (JStr "medium") in
     let description := jsOr (get params "description") (JStr "") in
     let deadline : obj :=
       <["title" := title]> (<["date" := dateStr]> (<["dueDate" := dateStr]>
       (<["priority" := priority]> (<["description" := description]> ∅)))) in
     if negb (truthy title) then
       ret (failed "❌ Deadline title is required.")
     else
       do result <- Database.createDeadline deadline;
       run loadStats;
       run renderCalendar;
       run refreshSchedule dateStr;
       ret (succeeded
              ("✅ Deadline created successfully!" +:+ nl +:+ nl
               +:+ "📋 **Details:**" +:+ nl
               +:+ "• Title: " +:+ toStr title +:+ nl
               +:+ "• Due: " +:+ UI.formatDate dateStr +:+ nl
               +:+ "• Priority: " +:+ priorityEmoji priority +:+ " " +:+ toStr priority
               +:+ whenTruthy description (nl +:+ "• Description: " +:+ toStr description)
               +:+ nl +:+ nl +:+ "💡 Click on the date in the calendar to view it.")
              result))
    (withMessage (λ e, ret (failed ("❌ Failed to create deadline: " +:+ e)))).

Definition listPatients : M Outcome :=
  tryCatch
    (do ps <- Database.getPatients;
     if bool_decide (length ps = 0%nat) then
       ret (succeeded "📋 **Patients:** None found." DataNone)
     else
       let list :=
         join nl (map (λ p,
                    let num := jsOr (jsOr (get p "patientNumber") (get p "patient_number"))
                                    (get p "id") in
                    "• #" +:+ toStr num +:+ " - " +:+ toStr (get p "name"))
                  (take 10 ps)) in
       let more :=
         if bool_decide (10 < length ps)%nat
         then nl +:+ "... +" +:+ pretty (length ps - 10)%nat +:+ " more" else "" in
       ret (succeeded
              ("📋 **Patients (" +:+ pretty (length ps) +:+ "):**" +:+ nl +:+ list +:+ more)
              (DataRows ps)))
    (withMessage (λ e, ret (failed ("❌ Failed to list patients: " +:+ e)))).

Definition listAppointments : M Outcome :=
  tryCatch
    (do apps <- Database.getAppointments;
     if bool_decide (length apps = 0%nat) then
       ret (succeeded "📅 **Appointments:** None scheduled." DataNone)
     else
       let sorted := sortBy (λ a b, dateLe (get a "date") (get b "date")) apps in
       let upcoming := List.filter (λ a, onOrAfterToday (get a "date")) sorted in
       if bool_decide (length upcoming = 0%nat) then
         ret (succeeded "📅 **Appointments:** No upcoming appointments." DataNone)
       else
         let list :=
           join nl (map (λ a,
                      "• " +:+ UI.formatDate (get a "date") +:+ " "
                      +:+ toStr (jsOr (get a "time") (JStr "")) +:+ " - "
                      +:+ toStr (jsOr (get a "patientName") (JStr "Unknown")))
                    (take 8 upcoming)) in
         let more :=
           if bool_decide (8 < length upcoming)%nat
           then nl +:+ "... +" +:+ pretty (length upcoming - 8)%nat +:+ " more" else "" in
         ret (succeeded
                ("📅 **Upcoming Appointments (" +:+ pretty (length upcoming) +:+ "):**"
                 +:+ nl +:+ list +:+ more)
                (DataRows apps)))
    (withMessage (λ e, ret (failed ("❌ Failed to list appointments: " +:+ e)))).

Definition listDeadlines : M Outcome :=
  tryCatch
    (do dls <- Database.getDeadlines;
     if bool_decide (length dls = 0%nat) then
       ret (succeeded "⏰ **Deadlines:** None set." DataNone)
     else
       let due d := jsOr (get d "date") (get d "dueDate") in
       let sorted := sortBy (λ a b, dateLe (due a) (due b)) dls in
       let upcoming := List.filter (λ d, onOrAfterToday (due d)) sorted in
       if bool_decide (length upcoming = 0%nat) then
         ret (succeeded "⏰ **Deadlines:** No upcoming deadlines." DataNone)
       else
         let list :=
           join nl (map (λ d,
                      priorityEmoji (get d "priority") +:+ " " +:+ UI.formatDate (due d)
                      +:+ " - " +:+ toStr (get d "title"))
                    (take 8 upcoming)) in
         ret (succeeded
                ("⏰ **Upcoming Deadlines (" +:+ pretty (length upcoming) +:+ "):**"
                 +:+ nl +:+ list)
                (DataRows dls)))
    (withMessage (λ e, ret (failed ("❌ Failed to list deadlines: " +:+ e)))).

(** [(v || '').toLowerCase()]; a truthy value that is not a string has no
    [toLowerCase]. *)
Definition lowerOf (v : JsVal) : Res string :=
  match jsOr v (JStr "") with
  | JStr s => Ok (toLowerCase s)
  | _ => Thrown (hostTypeError "toLowerCase")
  end.

(** [(record[key] || '').toLowerCase().includes((term || '').toLowerCase())] *)
Definition mentions (key : string) (term : JsVal) (record : obj) : Res bool :=
  bindRes (lowerOf (get record key)) (λ text,
  bindRes (lowerOf term) (λ needle,
  Ok (includes text needle))).

(** The callback of [appointments.find] in the appointment handlers:
    [(a.patientName || '').toLowerCase().includes((params.patientName || '').toLowerCase())
     && (a.date === params.date || !params.date)] *)
Definition appointmentMatches (params a : obj) : Res bool :=
  bindRes (mentions "patientName" (get params "patientName") a) (λ named,
  Ok (named && (strictEq (get a "date") (get params "date")
                || negb (truthy (get params "date"))))).

Definition deleteAppointment (params : obj) : M Outcome :=
  tryCatch
    (do apps <- Database.getAppointments;
     do found <- liftRes (findRes (appointmentMatches params) apps);
     match found with
     | None =>
         ret (failed ("❌ Appointment not found for " +:+ dq
                      +:+ toStr (jsOr (get params "patientName") (JStr "unknown"))
                      +:+ dq +:+ "."))
     | Some m =>
         run Database.deleteAppointment (get m "id");
         run loadDashboard;
         ret (succeeded
                ("✅ Appointment deleted successfully!" +:+ nl +:+ nl
                 +:+ "📋 **Deleted:**" +:+ nl
                 +:+ "• Patient: " +:+ toStr (get m "patientName") +:+ nl
                 +:+ "• Date: " +:+ UI.formatDate (get m "date")
                 +:+ whenTruthy (get m "time") (nl +:+ "• Time: " +:+ toStr (get m "time")))
                DataNone)
     end)
    (withMessage (λ e, ret (failed ("❌ Failed to delete appointment: " +:+ e)))).

Definition deleteDeadline (params : obj) : M Outcome :=
  tryCatch
    (do dls <- Database.getDeadlines;
     do found <- liftRes (findRes (mentions "title" (get params "title")) dls);
     match found with
     | None =>
         ret (failed ("❌ Deadline " +:+ dq
                      +:+ toStr (jsOr (get params "title") (JStr "unknown"))
                      +:+ dq +:+ " not found."))
     | Some m =>
         run Database.deleteDeadline (get m "id");
         run loadDashboard;
         ret (succeeded
                ("✅ Deadline deleted successfully!" +:+ nl +:+ nl
                 +:+ "📋 **Deleted:**" +:+ nl
                 +:+ "• Title: " +:+ toStr (get m "title") +:+ nl
                 +:+ "• Due: " +:+ UI.formatDate (jsOr (get m "date") (get m "dueDate")))
                DataNone)
     end)
    (withMessage (λ e, ret (failed ("❌ Failed to delete deadline: " +:+ e)))).

Definition updateAppointment (params : obj) : M Outcome :=
  tryCatch
    (do apps <- Database.getAppointments;
     do found <- liftRes (findRes (appointmentMatches params) apps);
     match found with
     | None => ret (failed "❌ Appointment not found.")
     | Some m =>
         let updates : obj :=
           setIfTruthy "notes" (get params "newNotes")
             (setIfTruthy "status" (get params "newStatus")
                (setIfTruthy "type" (get params "newType")
                   (setIfTruthy "time" (get params "newTime")
                      (setIfTruthy "date" (get params "newDate") ∅)))) in
         run Database.updateAppointment (get m "id") updates;
         run loadDashboard;
         ret (succeeded
                ("✅ Appointment updated successfully!" +:+ nl +:+ nl
                 +:+ "📋 **Updated:**" +:+ nl
                 +:+ "• Patient: " +:+ toStr (get m "patientName") +:+ nl
                 +:+ "• Date: "
                 +:+ (if truthy (get updates "date") then UI.formatDate (get updates "date")
                      else UI.formatDate (get m "date"))
                 +:+ (if truthy (get updates "time")
                      then nl +:+ "• Time: " +:+ toStr (get updates "time")
                      else whenTruthy (get m "time") (nl +:+ "• Time: " +:+ toStr (get m "time"))))
                (DataObj (updates ∪ {["id" := get m "id"]})))
     end)
    (withMessage (λ e, ret (failed ("❌ Failed to update appointment: " +:+ e)))).

Definition updateDeadline (params : obj) : M Outcome :=
  tryCatch
    (do dls <- Database.getDeadlines;
     let term := jsOr (get params "title") (get params "oldTitle") in
     do found <- liftRes (findRes (mentions "title" term) dls);
     match found with
     | None => ret (failed ("❌ Deadline " +:+ dq +:+ toStr term +:+ dq +:+ " not found."))
     | Some m =>
         let updates : obj :=
           setIfTruthy "description" (get params "newDescription")
             (setIfTruthy "priority" (get params "newPriority")
                (setIfTruthy "date" (get params "newDate")
                   (setIfTruthy "title" (get params "newTitle") ∅))) in
         run Database.updateDeadline (get m "id") updates;
         run loadDashboard;
         ret (succeeded
                ("✅ Deadline updated successfully!" +:+ nl +:+ nl
                 +:+ "📋 **Updated:**" +:+ nl
                 +:+ "• Title: " +:+ toStr (jsOr (get updates "title") (get m "title")) +:+ nl
                 +:+ "• Due: "
                 +:+ (if truthy (get updates "date") then UI.formatDate (get updates "date")
                      else UI.formatDate (jsOr (get m "date") (get m "dueDate"))))
                (DataObj (updates ∪ {["id" := get m "id"]})))
     end)
    (withMessage (λ e, ret (failed ("❌ Failed to update deadline: " +:+ e)))).

Definition getDeadlineDetails (params : obj) : M Outcome :=
  tryCatch
    (do dls <- Database.getDeadlines;
     do found <- liftRes (findRes (mentions "title" (get params "title")) dls);
     match found with
     | None =>
         ret (failed ("❌ Deadline " +:+ dq +:+ toStr (get params "title") +:+ dq
                      +:+ " not found."))
     | Some m =>
         ret (succeeded
                ("⏰ **Deadline Details:**" +:+ nl
                 +:+ "• Title: " +:+ toStr (get m "title") +:+ nl
                 +:+ "• Due: " +:+ UI.formatDate (jsOr (get m "date") (get m "dueDate")) +:+ nl
                 +:+ "• Priority: " +:+ priorityEmoji (get m "priority") +:+ " "
                 +:+ toStr (jsOr (get m "priority") (JStr "medium"))
                 +:+ whenTruthy (get m "description")
                       (nl +:+ "• Description: " +:+ toStr (get m "description")))
                (DataObj m))
     end)
    (withMessage (λ e, ret (failed ("❌ Failed to get deadline: " +:+ e)))).

Definition updateInventoryItem (params : obj) : M Outcome :=
  tryCatch
    (do inv <- Database.getInventory;
     let term := jsOr (get params "name") (get params "itemName") in
     do found <- liftRes (findRes (mentions "name" term) inv);
     match found with
     | None =>
         ret (failed ("❌ Inventory item " +:+ dq +:+ toStr term +:+ dq +:+ " not found."))
     | Some m =>
         let updates : obj :=
           setIfTruthy "unit" (get params "newUnit")
             (setIfTruthy "category" (get params "newCategory")
                (setParsedIfDefined "minStock" (get params "newMinStock")
                   (setParsedIfDefined "quantity" (get params "newQuantity")
                      (setIfTruthy "name" (get params "newName") ∅)))) in
         run Database.updateInventoryItem (get m "id") updates;
         run loadInventory;
         ret (succeeded
                ("✅ Inventory item updated successfully!" +:+ nl +:+ nl
                 +:+ "📋 **Updated:**" +:+ nl
                 +:+ "• Name: " +:+ toStr (jsOr (get updates "name") (get m "name")) +:+ nl
                 +:+ "• Quantity: "
                 +:+ toStr (if bool_decide (get updates "quantity" = JUndefined)
                            then get m "quantity" else get updates "quantity")
                 +:+ " "
                 +:+ toStr (jsOr (jsOr (get updates "unit") (get m "unit")) (JStr "")))
                (DataObj (updates ∪ {["id" := get m "id"]})))
     end)
    (withMessage (λ e, ret (failed ("❌ Failed to update inventory item: " +:+ e)))).

Definition deleteInventoryItem (params : obj) : M Outcome :=
  tryCatch
    (do inv <- Database.getInventory;
     let term := jsOr (get params "name") (get params "itemName") in
     do found <- liftRes (findRes (mentions "name" term) inv);
     match found with
     | None =>
         ret (failed ("❌ Inventory item " +:+ dq +:+ toStr term +:+ dq +:+ " not found."))
     | Some m =>
         run Database.deleteInventoryItem (get m "id");
         run loadInventory;
         run loadStats;
         ret (succeeded
                ("✅ Inventory item deleted successfully!" +:+ nl +:+ nl
                 +:+ "📋 **Deleted:**" +:+ nl
                 +:+ "• Name: " +:+ toStr (get m "name") +:+ nl
                 +:+ "• Category: " +:+ toStr (jsOr (get m "category") (JStr "N/A")))
                (DataObj {["id" := get m "id"]}))
     end)
    (withMessage (λ e, ret (failed ("❌ Failed to delete inventory item: " +:+ e)))).

(** [(i.quantity || 0) <= (i.minStock || 10)] *)
Definition isLow (i : obj) : bool :=
  jsLe hostStringToNumber (jsOr (get i "quantity") (JNum 0)) (jsOr (get i "minStock") (JNum 10)).

Definition listInventoryItems (params : obj) : M Outcome :=
  tryCatch
    (do inv <- Database.getInventory;
     if bool_decide (length inv = 0%nat) then
       ret (succeeded "📦 **Inventory:** No items found." DataNone)
     else
       let filtered := if truthy (get params "lowStock") then List.filter isLow inv else inv in
       if bool_decide (length filtered = 0%nat) then
         ret (succeeded "📦 **Low Stock Items:** None found." DataNone)
       else
         let list :=
           join nl (map (λ i,
                      (if isLow i then "🔴" else "🟢") +:+ " " +:+ toStr (get i "name")
                      +:+ " - " +:+ toStr (jsOr (get i "quantity") (JNum 0)) +:+ " "
                      +:+ toStr (jsOr (get i "unit") (JStr ""))
                      +:+ " (min: " +:+ toStr (jsOr (get i "minStock") (JNum 10)) +:+ ")")
                    (take 10 filtered)) in
         let more :=
           if bool_decide (10 < length filtered)%nat
           then nl +:+ "... +" +:+ pretty (length filtered - 10)%nat +:+ " more" else "" in
         ret (succeeded
                ("📦 **Inventory (" +:+ pretty (length filtered) +:+ "):**"
                 +:+ nl +:+ list +:+ more)
                (DataRows filtered)))
    (withMessage (λ e, ret (failed ("❌ Failed to list inventory: " +:+ e)))).

(** [result[key]] on what a write resolved with; reading a property of
    [undefined] throws. *)
Definition resultField (result : JsData) (key : string) : Res JsVal :=
  match result with
  | DataObj o => Ok (get o key)
  | DataNone => Thrown (hostTypeError "result")
  | _ => Ok JUndefined
  end.

(** The optional lines of a patient card:
    [${p.dob ? `\n• DOB: ...` : ''}${p.phone ? ...}${p.email ? ...}] *)
Definition contactLines (p : obj) : string :=
  whenTruthy (get p "dob") (nl +:+ "• DOB: " +:+ UI.formatDate (get p "dob"))
  +:+ whenTruthy (get p "phone") (nl +:+ "• Phone: " +:+ toStr (get p "phone"))
  +:+ whenTruthy (get p "email") (nl +:+ "• Email: " +:+ toStr (get p "email")).

Definition createPatient (params : obj) : M Outcome :=
  tryCatch
    (let patient : obj :=
       <["name" := jsOr (jsOr (get params "patientName") (get params "name")) (JStr EmptyString)]>
       (<["dob" := jsOr (jsOr (get params "patientDob") (get params "dob")) (JStr EmptyString)]>
       (<["phone" := jsOr (get params "phone") (JStr EmptyString)]>
       (<["email" := jsOr (get params "email") (JStr EmptyString)]> ∅))) in
     if negb (truthy (get patient "name")) then
       ret (failed "❌ Patient name is required.")
     else
       do result <- Database.createPatient patient;
       run loadPatients;
       run loadStats;
       do number1 <- liftRes (resultField result "patientNumber");
       do number2 <- liftRes (resultField result "patient_number");
       do number3 <- liftRes (resultField result "id");
       let patientNumber :=
         if truthy number1 then number1 else jsOr number2 number3 in
       ret (succeeded
              ("✅ Patient created successfully!" +:+ nl +:+ nl
               +:+ "📋 **Details:**" +:+ nl
               +:+ "• Patient #: " +:+ toStr patientNumber +:+ nl
               +:+ "• Name: " +:+ toStr (get patient "name")
               +:+ contactLines patient)
              result))
    (withMessage (λ e, ret (failed ("❌ Failed to create patient: " +:+ e)))).

(** [`❌ Patient "${term}" not found.`] *)
Definition patientNotFound (term : JsVal) : Outcome :=
  failed ("❌ Patient " +:+ dq +:+ toStr term +:+ dq +:+ " not found.").

Definition addPatientNote (params : obj) : M Outcome :=
  tryCatch
    (do ps <- Database.searchPatients (jsOr (get params "patientName") (JStr EmptyString));
     match ps with
     | [] => ret (patientNotFound (get params "patientName"))
     | patient :: _ =>
         do result <- windowDb (AddPatientNote (get patient "id")
                                  (jsOr (get params "note") (JStr EmptyString)) "admin");
         ret (succeeded
                ("✅ Note added successfully!" +:+ nl +:+ nl
                 +:+ "📋 **Details:**" +:+ nl
                 +:+ "• Patient: " +:+ toStr (get patient "name") +:+ nl
                 +:+ "• Note: " +:+ toStr (jsOr (get params "note") (JStr "(empty)")))
                result)
     end)
    (withMessage (λ e, ret (failed ("❌ Failed to add note: " +:+ e)))).

Definition getPatientNotes (params : obj) : M Outcome :=
  tryCatch
    (do ps <- Database.searchPatients (jsOr (get params "patientName") (JStr EmptyString));
     match ps with
     | [] => ret (patientNotFound (get params "patientName"))
     | patient :: _ =>
         do result <- windowDb (GetPatientNotes (get patient "id"));
         let notes := rowsOf result in
         if bool_decide (length notes = 0%nat) then
           ret (succeeded ("📋 **" +:+ toStr (get patient "name") +:+ "** - No notes found.")
                          DataNone)
         else
           let notesList :=
             join nl (map (λ n, "• " +:+ toStr (jsOr (get n "note") (get n "text"))) notes) in
           ret (succeeded
                  ("📋 **Notes for " +:+ toStr (get patient "name") +:+ ":**" +:+ nl
                   +:+ notesList)
                  (DataRows notes))
     end)
    (withMessage (λ e, ret (failed ("❌ Failed to get notes: " +:+ e)))).

Definition searchPatients (params : obj) : M Outcome :=
  tryCatch
    (let query :=
       jsOr (jsOr (get params "query") (get params "patientName")) (JStr EmptyString) in
     do ps <- Database.searchPatients query;
     match ps with
     | [] =>
         ret (succeeded ("🔍 **Search " +:+ dq +:+ toStr query +:+ dq
                         +:+ ":** No patients found.") DataNone)
     | [p] =>
         ret (succeeded
                ("🔍 **Found Patient:**" +:+ nl
                 +:+ "• Name: " +:+ toStr (get p "name") +:+ contactLines p)
                (DataRows ps))
     | _ =>
         let list :=
           join nl (map (λ p,
                      "• " +:+ toStr (get p "name")
                      +:+ whenTruthy (get p "dob")
                            (" (" +:+ UI.formatDate (get p "dob") +:+ ")"))
                    ps) in
         ret (succeeded
                ("🔍 **Found " +:+ pretty (length ps) +:+ " patients for " +:+ dq
                 +:+ toStr query +:+ dq +:+ ":**" +:+ nl +:+ list)
                (DataRows ps))
     end)
    (withMessage (λ e, ret (failed ("❌ Search failed: " +:+ e)))).

Definition updatePatient (params : obj) : M Outcome :=
  tryCatch
    (let term := jsOr (get params "patientName") (get params "name") in
     do ps <- Database.searchPatients (jsOr term (JStr EmptyString));
     match ps with
     | [] => ret (patientNotFound term)
     | patient :: _ =>
         let updates : obj :=
           setIfTruthy "email" (get params "newEmail")
             (setIfTruthy "phone" (get params "newPhone")
                (setIfTruthy "dob" (get params "newDob")
                   (setIfTruthy "name" (get params "newName") ∅))) in
         run Database.updatePatient (get patient "id") updates;
         run loadPatients;
         ret (succeeded
                ("✅ Patient updated successfully!" +:+ nl +:+ nl
                 +:+ "📋 **Updated:**" +:+ nl
                 +:+ "• Name: " +:+ toStr (jsOr (get updates "name") (get patient "name"))
                 +:+ whenTruthy (get updates "dob")
                       (nl +:+ "• DOB: " +:+ UI.formatDate (get updates "dob"))
                 +:+ whenTruthy (get updates "phone")
                       (nl +:+ "• Phone: " +:+ toStr (get updates "phone")))
                (DataObj (updates ∪ {["id" := get patient "id"]})))
     end)
    (withMessage (λ e, ret (failed ("❌ Failed to update patient: " +:+ e)))).

Definition deletePatient (params : obj) : M Outcome :=
  tryCatch
    (let term := jsOr (get params "patientName") (get params "name") in
     do ps <- Database.searchPatients (jsOr term (JStr EmptyString));
     match ps with
     | [] => ret (patientNotFound term)
     | patient :: _ =>
         run Database.deletePatient (get patient "id");
         run loadPatients;
         run loadStats;
         ret (succeeded
                ("✅ Patient deleted successfully!" +:+ nl +:+ nl
                 +:+ "📋 **Deleted:**" +:+ nl
                 +:+ "• Name: " +:+ toStr (get patient "name")
                 +:+ whenTruthy (get patient "dob")
                       (nl +:+ "• DOB: " +:+ UI.formatDate (get patient "dob")))
                DataNone)
     end)
    (withMessage (λ e, ret (failed ("❌ Failed to delete patient: " +:+ e)))).

Definition getPatient (params : obj) : M Outcome :=
  tryCatch
    (do found <-
       (if truthy (get params "patientNumber") then
          do result <- windowDb (GetPatient (get params "patientNumber"));
          ret (match result with
               | DataEnvelope (DataObj p) => Some p
               | _ => None
               end)
        else if truthy (get params "patientName") then
          do ps <- Database.searchPatients (get params "patientName");
          ret (head ps)
        else ret None);
     match found with
     | None => ret (failed "❌ Patient not found.")
     | Some patient =>
         ret (succeeded
                ("📋 **Patient Details:**" +:+ nl
                 +:+ "• Name: " +:+ toStr (get patient "name") +:+ contactLines patient
                 +:+ whenTruthy (get patient "patientNumber")
                       (nl +:+ "• Patient #: " +:+ toStr (get patient "patientNumber")))
                (DataObj patient))
     end)
    (withMessage (λ e, ret (failed ("❌ Failed to get patient: " +:+ e)))).

Definition getAppointmentsByDate (params : obj) : M Outcome :=
  tryCatch
    (do dateStr <- convertDateVal (jsOr (get params "date") (JStr EmptyString));
     do result <- windowDb (GetAppointmentsByDate dateStr);
     let apps := rowsOf result in
     if bool_decide (length apps = 0%nat) then
       ret (succeeded ("📅 **Appointments for " +:+ UI.formatDate dateStr
                       +:+ ":** None scheduled.") DataNone)
     else
       let list :=
         join nl (map (λ a,
                    "• " +:+ toStr (jsOr (get a "time") (JStr "All day")) +:+ " - "
                    +:+ toStr (jsOr (get a "patientName") (JStr "Unknown"))
                    +:+ whenTruthy (get a "type") (" (" +:+ toStr (get a "type") +:+ ")"))
                  apps) in
       ret (succeeded
              ("📅 **Appointments for " +:+ UI.formatDate dateStr +:+ " ("
               +:+ pretty (length apps) +:+ "):**" +:+ nl +:+ list)
              (DataRows apps)))
    (withMessage (λ e, ret (failed ("❌ Failed to get appointments: " +:+ e)))).

Definition getDeadlinesByDate (params : obj) : M Outcome :=
  tryCatch
    (do dateStr <- convertDateVal (jsOr (get params "date") (JStr EmptyString));
     do dls <- Database.getDeadlines;
     let filtered :=
       List.filter (λ d, strictEq (jsOr (get d "date") (get d "dueDate")) dateStr) dls in
     if bool_decide (length filtered = 0%nat) then
       ret (succeeded ("⏰ **Deadlines for " +:+ UI.formatDate dateStr +:+ ":** None set.")
                      DataNone)
     else
       let list :=
         join nl (map (λ d,
                    priorityEmoji (get d "priority") +:+ " " +:+ toStr (get d "title")
                    +:+ whenTruthy (get d "description")
                          (" - " +:+ toStr (get d "description")))
                  filtered) in
       ret (succeeded
              ("⏰ **Deadlines for " +:+ UI.formatDate dateStr +:+ " ("
               +:+ pretty (length filtered) +:+ "):**" +:+ nl +:+ list)
              (DataRows filtered)))
    (withMessage (λ e, ret (failed ("❌ Failed to get deadlines: " +:+ e)))).

(** [(record[key1] || '').toLowerCase().includes(query.toLowerCase()) ||
     (record[key2] || '').toLowerCase().includes(query.toLowerCase())] *)
Definition mentionsEither (key1 key2 : string) (query : JsVal) (record : obj) : Res bool :=
  bindRes (mentions key1 query record) (λ hit,
  if hit then Ok true else mentions key2 query record).

Definition searchDeadlines (params : obj) : M Outcome :=
  tryCatch
    (let query := jsOr (jsOr (get params "query") (get params "title")) (JStr EmptyString) in
     do dls <- Database.getDeadlines;
     do filtered <- liftRes (filterRes (mentionsEither "title" "description" query) dls);
     if bool_decide (length filtered = 0%nat) then
       ret (succeeded ("🔍 **Search " +:+ dq +:+ toStr query +:+ dq
                       +:+ ":** No deadlines found.") DataNone)
     else
       let list :=
         join nl (map (λ d,
                    priorityEmoji (get d "priority") +:+ " "
                    +:+ UI.formatDate (jsOr (get d "date") (get d "dueDate"))
                    +:+ " - " +:+ toStr (get d "title"))
                  filtered) in
       ret (succeeded
              ("🔍 **Found " +:+ pretty (length filtered) +:+ " deadlines for " +:+ dq
               +:+ toStr query +:+ dq +:+ ":**" +:+ nl +:+ list)
              (DataRows filtered)))
    (withMessage (λ e, ret (failed ("❌ Search failed: " +:+ e)))).

Definition createInventoryItem (params : obj) : M Outcome :=
  tryCatch
    (let name := jsOr (jsOr (get params "name") (get params "itemName")) (JStr EmptyString) in
     let category := jsOr (get params "category") (JStr "consumables") in
     let quantity := jsOr (parseInt (get params "quantity")) (JNum 0) in
     let minStock :=
       jsOr (parseInt (jsOr (get params "minStock") (get params "minimumStock"))) (JNum 10) in
     let unit := jsOr (get params "unit") (JStr EmptyString) in
     let item : obj :=
       <["name" := name]> (<["category" := category]> (<["quantity" := quantity]>
       (<["minStock" := minStock]> (<["unit" := unit]> ∅)))) in
     if negb (truthy name) then
       ret (failed "❌ Item name is required.")
     else
       do result <- Database.createInventoryItem item;
       run loadInventory;
       run loadStats;
       ret (succeeded
              ("✅ Inventory item created successfully!" +:+ nl +:+ nl
               +:+ "📋 **Details:**" +:+ nl
               +:+ "• Name: " +:+ toStr name +:+ nl
               +:+ "• Category: " +:+ toStr category +:+ nl
               +:+ "• Quantity: " +:+ toStr quantity +:+ " " +:+ toStr unit +:+ nl
               +:+ "• Min Stock: " +:+ toStr minStock)
              result))
    (withMessage (λ e, ret (failed ("❌ Failed to create inventory item: " +:+ e)))).

Definition searchInventory (params : obj) : M Outcome :=
  tryCatch
    (let query := jsOr (jsOr (get params "query") (get params "name")) (JStr EmptyString) in
     do inv <- Database.getInventory;
     do filtered <- liftRes (filterRes (mentionsEither "name" "category" query) inv);
     if bool_decide (length filtered = 0%nat) then
       ret (succeeded ("🔍 **Search " +:+ dq +:+ toStr query +:+ dq
                       +:+ ":** No inventory items found.") DataNone)
     else
       let list :=
         join nl (map (λ i,
                    (if isLow i then "🔴" else "🟢") +:+ " " +:+ toStr (get i "name")
                    +:+ " - " +:+ toStr (jsOr (get i "quantity") (JNum 0)) +:+ " "
                    +:+ toStr (jsOr (get i "unit") (JStr EmptyString)))
                  filtered) in
       ret (succeeded
              ("🔍 **Found " +:+ pretty (length filtered) +:+ " items for " +:+ dq
               +:+ toStr query +:+ dq +:+ ":**" +:+ nl +:+ list)
              (DataRows filtered)))
    (withMessage (λ e, ret (failed ("❌ Search failed: " +:+ e)))).

Definition getLowStockItems (params : obj) : M Outcome :=
  tryCatch
    (do result <- windowDb GetLowStock;
     let items := rowsOf result in
     if bool_decide (length items = 0%nat) then
       ret (succeeded "📦 **Low Stock Items:** None found. All items are well stocked."
                      DataNone)
     else
       let list :=
         join nl (map (λ i,
                    "🔴 " +:+ toStr (jsOr (get i "name") (get i "item_name")) +:+ " - "
                    +:+ toStr (jsOr (get i "quantity") (JNum 0)) +:+ " "
                    +:+ toStr (jsOr (get i "unit") (JStr EmptyString))
                    +:+ " (min: "
                    +:+ toStr (jsOr (jsOr (get i "minStock") (get i "min_quantity")) (JNum 10))
                    +:+ ")")
                  items) in
       ret (succeeded
              ("📦 **Low Stock Items (" +:+ pretty (length items) +:+ "):**" +:+ nl +:+ list)
              (DataRows items)))
    (withMessage (λ e, ret (failed ("❌ Failed to get low stock items: " +:+ e)))).

Definition answerQuestion (params : obj) : M Outcome :=
  ret {| success := true;
         message := jsOr (jsOr (jsOr (get params "response") (get params "answer"))
                               (get params "message"))
                         (JStr "How can I help you? I can create appointments, manage patients, set deadlines, and more.");
         data := DataNone |}.
End Handlers.

(** The methods of [ToolExecutor] that [execute] can route to. *)
Inductive Method :=
| ToCreatePatient | ToUpdatePatient | ToDeletePatient | ToSearchPatients | ToListPatients
| ToGetPatient | ToAddPatientNote | ToGetPatientNotes
| ToCreateAppointment | ToUpdateAppointment | ToDeleteAppointment | ToListAppointments
| ToGetAppointment | ToGetAppointmentsByDate
| ToCreateDeadline | ToUpdateDeadline | ToDeleteDeadline | ToListDeadlines
| ToGetDeadlineDetails | ToGetDeadlinesByDate | ToSearchDeadlines
| ToCreateInventoryItem | ToUpdateInventoryItem | ToDeleteInventoryItem
| ToListInventoryItems | ToSearchInventory | ToGetLowStockItems
| ToAnswerQuestion.

(** The [case] labels of the [switch] in [execute]. *)
Definition cases : list (string * Method) :=
[ ("create_patient", ToCreatePatient);
  ("edit_patient", ToUpdatePatient); ("update_patient", ToUpdatePatient);
  ("delete_patient", ToDeletePatient);
  ("search_patients", ToSearchPatients);
  ("list_patients", ToListPatients); ("get_patients", ToListPatients);
  ("get_patient", ToGetPatient);
  ("add_patient_note", ToAddPatientNote);
  ("get_patient_notes", ToGetPatientNotes);
  ("create_appointment", ToCreateAppointment);
  ("edit_appointment", ToUpdateAppointment); ("update_appointment", ToUpdateAppointment);
  ("delete_appointment", ToDeleteAppointment);
  ("list_appointments", ToListAppointments); ("get_appointments", ToListAppointments);
  ("get_appointment", ToGetAppointment);
  ("get_appointments_for_date", ToGetAppointmentsByDate);
  ("get_appointments_by_date", ToGetAppointmentsByDate);
  ("create_deadline", ToCreateDeadline);
  ("edit_deadline", ToUpdateDeadline); ("update_deadline", ToUpdateDeadline);
  ("delete_deadline", ToDeleteDeadline);
  ("list_upcoming_deadlines", ToListDeadlines); ("list_deadlines", ToListDeadlines);
  ("get_deadlines", ToListDeadlines);
  ("get_deadline", ToGetDeadlineDetails); ("get_deadline_details", ToGetDeadlineDetails);
  ("get_deadlines_for_date", ToGetDeadlinesByDate);
  ("get_deadlines_by_date", ToGetDeadlinesByDate);
  ("search_deadlines", ToSearchDeadlines);
  ("create_inventory_item", ToCreateInventoryItem);
  ("add_inventory_item", ToCreateInventoryItem);
  ("edit_inventory_item", ToUpdateInventoryItem);
  ("update_inventory_item", ToUpdateInventoryItem);
  ("delete_inventory_item", ToDeleteInventoryItem);
  ("remove_inventory_item", ToDeleteInventoryItem);
  ("list_inventory_items", ToListInventoryItems); ("get_inventory", ToListInventoryItems);
  ("list_inventory", ToListInventoryItems);
  ("search_inventory", ToSearchInventory);
  ("get_low_stock", ToGetLowStockItems); ("list_low_stock", ToGetLowStockItems);
  ("answer_question", ToAnswerQuestion) ].

(** The method a [case] label selects; [None] is the [default] branch. *)
Definition selectCase (label : string) : option Method :=
snd <$> List.find (λ c, String.eqb (fst c) label) cases.

Section Execute.
Context {host : Host} {persist : Persistence}.

Definition execute (toolName : string) (params : obj) : M Outcome :=
  do c <- Database.isConnected;
  if negb c then
    ret (failed "❌ Database not connected. Please restart the application.")
  else
    match selectCase (toLowerCase toolName) with
    | Some ToCreatePatient => createPatient params
    | Some ToUpdatePatient => updatePatient params
    | Some ToDeletePatient => deletePatient params
    | Some ToSearchPatients => searchPatients params
    | Some ToListPatients => listPatients
    | Some ToGetPatient => getPatient params
    | Some ToAddPatientNote => addPatientNote params
    | Some ToGetPatientNotes => getPatientNotes params
    | Some ToCreateAppointment => createAppointment params
    | Some ToUpdateAppointment => updateAppointment params
    | Some ToDeleteAppointment => deleteAppointment params
    | Some ToListAppointments => listAppointments
    | Some ToGetAppointment =>
        if truthy (get params "patientName") && truthy (get params "date")
        then createAppointment params
        else listAppointments
    | Some ToGetAppointmentsByDate => getAppointmentsByDate params
    | Some ToCreateDeadline => createDeadline params
    | Some ToUpdateDeadline => updateDeadline params
    | Some ToDeleteDeadline => deleteDeadline params
    | Some ToListDeadlines => listDeadlines
    | Some ToGetDeadlineDetails => getDeadlineDetails params
    | Some ToGetDeadlinesByDate => getDeadlinesByDate params
    | Some ToSearchDeadlines => searchDeadlines params
    | Some ToCreateInventoryItem => createInventoryItem params
    | Some ToUpdateInventoryItem => updateInventoryItem params
    | Some ToDeleteInventoryItem => deleteInventoryItem params
    | Some ToListInventoryItems => listInventoryItems params
    | Some ToSearchInventory => searchInventory params
    | Some ToGetLowStockItems => getLowStockItems params
    | Some ToAnswerQuestion => answerQuestion params
    | None =>
        if truthy (get params "patientName") && truthy (get params "date")
        then createAppointment params
        else ret {| success := true;
                    message := jsOr (jsOr (get params "response") (get params "message"))
                                    (JStr "I've processed your request. Is there anything else?");
                    data := DataNone |}
    end.
End Execute.
End ToolExecutor.

(** ** Entity mention linking *)

(** [\w] *)
Definition isWordChar (c : ascii) : bool :=
  let n := nat_of_ascii c in
  ((48 <=? n) && (n <=? 57) || (65 <=? n) && (n <=? 90)
   || (97 <=? n) && (n <=? 122) || (n =? 95))%nat.

(** [\b] between the character before the position and the text after it. *)
Definition atBoundary (prev : option ascii) (rest : string) : bool :=
  xorb (match prev with Some c => isWordChar c | None => false end)
       (match rest with String c _ => isWordChar c | EmptyString => false end).

Fixpoint dropStr (n : nat) (s : string) : string :=
  match n, s with
  | S n', String _ s' => dropStr n' s'
  | _, _ => s
  end.

Fixpoint takeStr (n : nat) (s : string) : string :=
  match n, s with
  | S n', String c s' => String c (takeStr n' s')
  | _, _ => EmptyString
  end.

Fixpoint lastChar (prev : option ascii) (s : string) : option ascii :=
  match s with
  | EmptyString => prev
  | String c s' => lastChar (Some c) s'
  end.

(** [s] starts with the literal [lit], letter case ignored (flag [i]). *)
Definition startsWithCI (lit s : string) : bool :=
  startsWith (toLowerCase lit) (toLowerCase (takeStr (String.length lit) s)).

(** A regular expression, seen from one position of the subject: the text
    it matches there, if any, given the character before the position. *)
Definition Matcher : Type := option ascii → string → option string.

(** [new RegExp(`\b${escapeRegex(lit)}\b`, 'gi')]: once escaped, [lit] is
    matched literally. *)
Definition wholeWord (lit : string) : Matcher :=
  λ prev s,
    let n := String.length lit in
    if atBoundary prev s && startsWithCI lit s
       && atBoundary (lastChar prev (takeStr n s)) (dropStr n s)
    then Some (takeStr n s) else None.

Fixpoint skipSpaces (s : string) : nat :=
  match s with
  | String c s' => if isSpaceChar c then S (skipSpaces s') else O
  | EmptyString => O
  end.

(** The regular expression for a patient number, flags [gi]: an optional
    group made of the word patient and any white space, then [#], the
    number and [\b]. The number is interpolated as literal text (a number,
    or a string free of metacharacters). *)
Definition patientNumberRef (number : string) : Matcher :=
  λ prev s,
    let tail := "#" +:+ number in
    let bare (t : string) : bool :=
      startsWithCI tail t
      && atBoundary (lastChar None (takeStr (String.length tail) t))
                    (dropStr (String.length tail) t) in
    if startsWithCI "patient" s then
      let k := (7 + skipSpaces (dropStr 7 s))%nat in
      if bare (dropStr k s) then Some (takeStr (k + String.length tail) s) else None
    else if bare s then Some (takeStr (String.length tail) s) else None.

(** [text.replace(regex, (match) => replacer(match))] for a global regex:
    matches are found from left to right on the subject and do not overlap.
    [skip] counts the characters of the current match still to step over. *)
Fixpoint replaceAll (re : Matcher) (replacer : string → string)
    (skip : nat) (prev : option ascii) (s : string) : string :=
  match s with
  | EmptyString => EmptyString
  | String c s' =>
      match skip with
      | S k => replaceAll re replacer k (Some c) s'
      | O =>
          match re prev s with
          | Some m => replacer m +:+ replaceAll re replacer (String.length m - 1) (Some c) s'
          | None => String c (replaceAll re replacer 0 (Some c) s')
          end
      end
  end.

(** The text a match of [/<[^>]+>/] covers at the head of [s]. *)
Fixpoint untilClose (s : string) : option string :=
  match s with
  | EmptyString => None
  | String c s' =>
      if Ascii.eqb c ">" then Some EmptyString
      else match untilClose s' with
           | Some body => Some (String c body)
           | None => None
           end
  end.

Definition tagAt (s : string) : option string :=
  match s with
  | String "<"%char r =>
      match untilClose r with
      | Some (String c body) => Some ("<" +:+ String c body +:+ ">")
      | _ => None
      end
  | _ => None
  end.

(** [`__PLACEHOLDER_${placeholderIndex}__`] *)
Definition placeholderOf (index : nat) : string :=
  "__PLACEHOLDER_" +:+ pretty index +:+ "__".

(** [linkedText.replace(/<[^>]+>/g, (match) => { ... })]: every tag becomes
    its placeholder; the pairs (placeholder, tag) are the entries of the
    [placeholders] map in insertion order. *)
Fixpoint protectTags (skip index : nat) (s : string) : string * list (string * string) :=
  match s with
  | EmptyString => (EmptyString, [])
  | String c s' =>
      match skip with
      | S k => protectTags k index s'
      | O =>
          match tagAt s with
          | Some tag =>
              let '(out, entries) := protectTags (String.length tag - 1) (S index) s' in
              (placeholderOf index +:+ out, (placeholderOf index, tag) :: entries)
          | None =>
              let '(out, entries) := protectTags 0 index s' in
              (String c out, entries)
          end
      end
  end.

(** The replacement text of [String.prototype.replace] for a string pattern:
    [$$], [$&], [$`] and [$'] are expanded, there are no captures. *)
Fixpoint getSubstitution (matched before after template : string) : string :=
  match template with
  | EmptyString => EmptyString
  | String c t =>
      if Ascii.eqb c "$" then
        match t with
        | String d r =>
            if Ascii.eqb d "$" then "$" +:+ getSubstitution matched before after r
            else if Ascii.eqb d "&" then matched +:+ getSubstitution matched before after r
            else if Ascii.eqb d "`" then before +:+ getSubstitution matched before after r
            else if Ascii.eqb d "'" then after +:+ getSubstitution matched before after r
            else String c (getSubstitution matched before after t)
        | EmptyString => String c EmptyString
        end
      else String c (getSubstitution matched before after t)
  end.

(** [s.replace(pattern, replacement)] for a string pattern: the first
    occurrence only. [before] is the text already passed. *)
Fixpoint replaceFirst (pattern replacement before s : string) : string :=
  if startsWith pattern s then
    let after := dropStr (String.length pattern) s in
    before +:+ getSubstitution pattern before after replacement +:+ after
  else
    match s with
    | EmptyString => before
    | String c s' => replaceFirst pattern replacement (before +:+ String c EmptyString) s'
    end.

(** [placeholders.forEach((original, placeholder) => { linkedText =
    linkedText.replace(placeholder, original); })] *)
Definition restoreTags (entries : list (string * string)) (linkedText : string) : string :=
  fold_left (λ acc e, replaceFirst (fst e) (snd e) EmptyString acc) entries linkedText.

(** [escapeHtml]: the serialisation of a text node. *)
Fixpoint escapeHtml (s : string) : string :=
  match s with
  | EmptyString => EmptyString
  | String c s' =>
      (if Ascii.eqb c "&" then "&amp;"
       else if Ascii.eqb c "<" then "&lt;"
       else if Ascii.eqb c ">" then "&gt;"
       else String c EmptyString) +:+ escapeHtml s'
  end.

(** The marker every annotation carries. *)
Definition marker : string := "entity-link".

(** [`<a href="#" class="entity-link ${kind}-link" data-type="${kind}"
      data-id="${id}" data-${attr}="${value}">${match}</a>`] *)
Definition anchor (kind : string) (id : JsVal) (attr value matched : string) : string :=
  "<a href=" +:+ dq +:+ "#" +:+ dq
  +:+ " class=" +:+ dq +:+ marker +:+ " " +:+ kind +:+ "-link" +:+ dq
  +:+ " data-type=" +:+ dq +:+ kind +:+ dq
  +:+ " data-id=" +:+ dq +:+ toStr id +:+ dq
  +:+ " data-" +:+ attr +:+ "=" +:+ dq +:+ value +:+ dq +:+ ">"
  +:+ matched +:+ "</a>".

(** [name] is a string longer than [n]: [name && name.length > n]. *)
Definition longerThan (n : nat) (name : JsVal) : option string :=
  match name with
  | JStr s => if (n <? String.length s)%nat then Some s else None
  | _ => None
  end.

Section Linker.
Context {host : Host}.

Definition linkPatient (linkedText : string) (patient : obj) : string :=
  let name := jsOr (get patient "name") (JStr EmptyString) in
  let patientNumber := get patient "patient_number" in
  let byName :=
    match longerThan 2 name with
    | Some n =>
        replaceAll (wholeWord n)
          (anchor "patient" (get patient "id") "name" (escapeHtml n)) 0 None linkedText
    | None => linkedText
    end in
  if truthy patientNumber then
    replaceAll (patientNumberRef (toStr patientNumber))
      (anchor "patient" (get patient "id") "name"
         (escapeHtml (toStr (jsOr name (JStr ("Patient #" +:+ toStr patientNumber))))))
      0 None byName
  else byName.

Definition linkAppointment (linkedText : string) (appointment : obj) : string :=
  let date := get appointment "date" in
  if truthy date then
    let formattedDate := UI.formatDate date in
    if negb (String.eqb formattedDate EmptyString)
       && negb (String.eqb formattedDate "Invalid Date")
    then replaceAll (wholeWord formattedDate)
           (anchor "appointment" (get appointment "id") "date" (toStr date)) 0 None linkedText
    else linkedText
  else linkedText.

Definition linkDeadline (linkedText : string) (deadline : obj) : string :=
  match longerThan 3 (jsOr (get deadline "title") (JStr EmptyString)) with
  | Some title =>
      replaceAll (wholeWord title)
        (anchor "deadline" (get deadline "id") "title" (escapeHtml title)) 0 None linkedText
  | None => linkedText
  end.

Definition linkInventoryItem (linkedText : string) (item : obj) : string :=
  match longerThan 2 (jsOr (jsOr (get item "name") (get item "itemName")) (JStr EmptyString)) with
  | Some itemName =>
      replaceAll (wholeWord itemName)
        (anchor "inventory" (get item "id") "name" (escapeHtml itemName)) 0 None linkedText
  | None => linkedText
  end.

(** The four [forEach] passes over [DataCache]. *)
Definition linkMentions (c : DataCache) (linkedText : string) : string :=
  fold_left linkInventoryItem (inventory c)
    (fold_left linkDeadline (deadlines c)
       (fold_left linkAppointment (appointments c)
          (fold_left linkPatient (patients c) linkedText))).

Definition linkifyEntityMentions (c : DataCache) (text : string) : string :=
  if String.eqb text EmptyString then text
  else if includes text marker then text
  else
    let '(protected, placeholders) := protectTags 0 0 text in
    restoreTags placeholders (linkMentions c protected).
End Linker.

(** ** A reference host and the collaborator of the specification *)

(** Days from 1970-01-01 to the civil date [y]-[m]-[d]. *)
Definition daysFromCivil (y m d : Z) : Z :=
  let y' := if m <=? 2 then y - 1 else y in
  let era := y' / 400 in
  let yoe := y' - era * 400 in
  let mp := (m + 9) mod 12 in
  let doy := (153 * mp + 2) / 5 + d - 1 in
  let doe := yoe * 365 + yoe / 4 - yoe / 100 + doy in
  era * 146097 + doe - 719468.

Definition isoParts (s : string) : option (Z * Z * Z) :=
  match split "-" s with
  | [y; m; d] =>
      match parseDigits 10 None y, parseDigits 10 None m, parseDigits 10 None d with
      | Some y', Some m', Some d' => Some (y', m', d')
      | _, _, _ => None
      end
  | _ => None
  end.

(** A host in the UTC time zone whose clock reads 2024-06-01; it only
    understands dates written year-month-day. *)
Definition utcHost : Host := {|
  hostFormatDate v :=
    match v with
    | JStr s =>
        match isoParts s, split "-" s with
        | Some _, [y; m; d] => padStart 2 "0" d +:+ "/" +:+ padStart 2 "0" m +:+ "/" +:+ y
        | _, _ => "Invalid Date"
        end
    | _ => "Invalid Date"
    end;
  hostDateValue v :=
    match v with
    | JStr s =>
        match isoParts s with
        | Some (y, m, d) => Some (86400000 * daysFromCivil y m d)
        | None => None
        end
    | _ => None
    end;
  todayStart := 86400000 * daysFromCivil 2024 6 1;
  todayISO := "2024-06-01";
  hostTypeError what := what +:+ " is not a function";
  hostStringToNumber s :=
    if String.eqb s EmptyString then Some 0 else parseDigits 10 None s;
|}.

(** The state of the collaborator of the specification. *)
Record SpecDb := {
  dbPatients : list obj;
  dbAppointments : list obj;
  dbDeadlines : list obj;
  dbInventory : list obj;
  (** the notes, each [{ patientId, note, author }] *)
  dbNotes : list obj;
  nextId : Z;
  (** the collaborator errors on every call *)
  failing : bool;
}.

Definition rowsIn (k : Kind) (s : SpecDb) : list obj :=
  match k with
  | Patients => dbPatients s
  | Appointments => dbAppointments s
  | Deadlines => dbDeadlines s
  | Inventory => dbInventory s
  end.

Definition withRows (k : Kind) (l : list obj) (s : SpecDb) : SpecDb :=
  {| dbPatients := if decide (k = Patients) then l else dbPatients s;
     dbAppointments := if decide (k = Appointments) then l else dbAppointments s;
     dbDeadlines := if decide (k = Deadlines) then l else dbDeadlines s;
     dbInventory := if decide (k = Inventory) then l else dbInventory s;
     dbNotes := dbNotes s; nextId := nextId s; failing := failing s |}.

Definition withNextId (n : Z) (s : SpecDb) : SpecDb :=
  {| dbPatients := dbPatients s; dbAppointments := dbAppointments s;
     dbDeadlines := dbDeadlines s; dbInventory := dbInventory s;
     dbNotes := dbNotes s; nextId := n; failing := failing s |}.

Definition withNotes (l : list obj) (s : SpecDb) : SpecDb :=
  {| dbPatients := dbPatients s; dbAppointments := dbAppointments s;
     dbDeadlines := dbDeadlines s; dbInventory := dbInventory s;
     dbNotes := l; nextId := nextId s; failing := failing s |}.

(** The text of a field, lower-cased; the empty string when it is no text. *)
Definition lowerText (v : JsVal) : string :=
  match v with
  | JStr s => toLowerCase s
  | _ => EmptyString
  end.

(** Modelled from the spec: the persistence collaborator [window.db], which
    is not part of app.js. Per entity kind it offers create (the record
    comes back with a fresh id), update by id with a partial record (only
    the supplied fields change), delete by id and read-all; reads answer
    with [{ data: rows }]. Patients are searched by text in their name, the
    low-stock query returns the items whose quantity is at most their
    threshold, and notes are kept per patient. *)
Definition specDbCall (req : DbRequest) (s : SpecDb) : DbResponse * SpecDb :=
  if failing s then (Rejected "persistence error", s)
  else
    match req with
    | GetAll k => (Resolved (DataEnvelope (DataRows (rowsIn k s))), s)
    | SearchPatients query =>
        (Resolved (DataEnvelope (DataRows
           (take 20 (List.filter (λ p, includes (lowerText (get p "name")) (lowerText query))
                                 (dbPatients s))))), s)
    | GetLowStock =>
        (Resolved (DataEnvelope (DataRows
           (List.filter (λ i, match get i "quantity", get i "minStock" with
                              | JNum q, JNum m => q <=? m
                              | _, _ => false
                              end) (dbInventory s)))), s)
    | GetPatient number =>
        (match List.find (λ p, strictEq (get p "patient_number") number) (dbPatients s) with
         | Some p => Resolved (DataEnvelope (DataObj p))
         | None => Resolved (DataEnvelope DataNone)
         end, s)
    | GetAppointmentsByDate date =>
        (Resolved (DataEnvelope (DataRows
           (List.filter (λ a, strictEq (get a "date") date) (dbAppointments s)))), s)
    | GetPatientNotes id =>
        (Resolved (DataEnvelope (DataRows
           (List.filter (λ n, strictEq (get n "patientId") id) (dbNotes s)))), s)
    | AddPatientNote id note author =>
        let added : obj :=
          <["patientId" := id]> (<["note" := note]> (<["author" := JStr author]> ∅)) in
        (Resolved (DataObj added), withNotes (dbNotes s ++ [added]) s)
    | Create k record =>
        let created : obj := <["id" := JNum (nextId s)]> record in
        (Resolved (DataObj created),
         withNextId (nextId s + 1) (withRows k (rowsIn k s ++ [created]) s))
    | Update k id updates =>
        (Resolved (DataObj {["success" := JBool true]}),
         withRows k (map (λ r : obj, if strictEq (get r "id") id then updates ∪ r else r)
                         (rowsIn k s)) s)
    | Delete k id =>
        (Resolved (DataObj {["success" := JBool true]}),
         withRows k (List.filter (λ r, negb (strictEq (get r "id") id)) (rowsIn k s)) s)
    end.

Definition specPersistence : Persistence :=
  {| DbState := SpecDb; dbCall := specDbCall |}.

Definition emptyCache : DataCache :=
  {| patients := []; appointments := []; deadlines := []; inventory := [] |}.

(** A world over the collaborator of the specification, with an empty cache
    and nothing selected in the calendar. *)
Definition specWorld (isConnected : bool) (s : SpecDb) (c : DataCache)
  : @World specPersistence :=
  {| connected := isConnected; db := (s : @DbState specPersistence); cache := c;
     selectedCalendarDate := JNull; trace := [] |}.

(** A string, or a falsy value that [|| ''] replaces by the empty string. *)
Definition isText (v : JsVal) : bool :=
  match v with
  | JStr _ => true
  | _ => negb (truthy v)
  end.

(** The deadlines [listDeadlines] counts as upcoming, in display order. *)
Definition upcomingDeadlines {host : Host} (dls : list obj) : list obj :=
  let due d := jsOr (get d "date") (get d "dueDate") in
  List.filter (λ d, onOrAfterToday (due d)) (sortBy (λ a b, dateLe (due a) (due b)) dls).

(** If the event is an update call, its partial record satisfies [Q]. *)
Definition updatesOnly (Q : obj → Prop) (e : Event) : Prop :=
  ∀ k id updates, e = DbCalled (Update k id updates) → Q updates.

(** [c] occurs in [s]. *)
Fixpoint charIn (c : ascii) (s : string) : bool :=
  match s with
  | EmptyString => false
  | String d s' => Ascii.eqb c d || charIn c s'
  end.

(** A linking step either leaves the text as it is or leaves the marker in
    its result. *)
Definition keepsOrMarks (step : string → obj → string) : Prop :=
  ∀ acc x, step acc x = acc ∨ includes (step acc x) marker = true.

(** ** Worked examples *)

Definition emptyDb : SpecDb :=
  {| dbPatients := []; dbAppointments := []; dbDeadlines := []; dbInventory := [];
     dbNotes := []; nextId := 1; failing := false |}.

(** A reachable collaborator with no records, an empty cache. *)
Definition emptyWorld : @World specPersistence := specWorld true emptyDb emptyCache.

(** The collaborator is not reachable. *)
Definition offlineWorld : @World specPersistence := specWorld false emptyDb emptyCache.

(** [{ patientName: "Jane", date: "2024-12-25" }] *)
Definition janeParams : obj :=
  <["patientName" := JStr "Jane"]> (<["date" := JStr "2024-12-25"]> ∅).

(** [{ patientName: "Jane", title: "Submit report", date: "25/12/2024" }] *)
Definition christmasParams : obj :=
  <["patientName" := JStr "Jane"]>
    (<["title" := JStr "Submit report"]> (<["date" := JStr "25/12/2024"]> ∅)).

(** [{ id: 1, name: "Jane Doe", patient_number: 1 }] *)
Definition janeRecord : obj :=
  <["id" := JNum 1]> (<["name" := JStr "Jane Doe"]> (<["patient_number" := JNum 1]> ∅)).

(** Jane is cached, and the collaborator has become unreachable. *)
Definition staleWorld : @World specPersistence :=
  specWorld false emptyDb (setPatients [janeRecord] emptyCache).

Definition deadlineOn (id : Z) (title day : string) : obj :=
  <["id" := JNum id]> (<["title" := JStr title]> (<["date" := JStr day]>
  (<["dueDate" := JStr day]> (<["priority" := JStr "medium"]> ∅)))).

(** Nine deadlines, all after the reference host's today (2024-06-01). *)
Definition nineDeadlines : list obj :=
  [ deadlineOn 1 "Audit" "2024-07-01"; deadlineOn 2 "Budget" "2024-07-02";
    deadlineOn 3 "Census" "2024-07-03"; deadlineOn 4 "Drill" "2024-07-04";
    deadlineOn 5 "Exam" "2024-07-05"; deadlineOn 6 "Filing" "2024-07-06";
    deadlineOn 7 "Grant" "2024-07-07"; deadlineOn 8 "Hiring" "2024-07-08";
    deadlineOn 9 "Invoice" "2024-07-09" ].

(** The same nine days as appointments of one patient. *)
Definition nineAppointments : list obj :=
  map (λ d : obj, <["patientName" := JStr "Jane"]> (delete "title" d)) nineDeadlines.

Definition nineWorld : @World specPersistence :=
  specWorld true
    {| dbPatients := []; dbAppointments := nineAppointments; dbDeadlines := nineDeadlines;
       dbInventory := []; dbNotes := []; nextId := 10; failing := false |}
    emptyCache.

(** One deadline, [{ id: 1, title: "Report", date and dueDate: "2024-12-25" }]. *)
Definition reportWorld : @World specPersistence :=
  specWorld true
    {| dbPatients := []; dbAppointments := []; dbDeadlines := [deadlineOn 1 "Report" "2024-12-25"];
       dbInventory := []; dbNotes := []; nextId := 2; failing := false |}
    emptyCache.

(** [{ title: "Report", newDate: "2025-01-10" }] *)
Definition moveParams : obj :=
  <["title" := JStr "Report"]> (<["newDate" := JStr "2025-01-10"]> ∅).

(** [{ name, quantity, minStock }] *)
Definition stockItem (name : string) (quantity minStock : Z) : obj :=
  <["name" := JStr name]> (<["quantity" := JNum quantity]> (<["minStock" := JNum minStock]> ∅)).

Definition appointmentOn (id : Z) (patientName day : string) : obj :=
  <["id" := JNum id]> (<["patientName" := JStr patientName]> (<["date" := JStr day]> ∅)).

(** Two appointments, Jane on 2024-12-25 and Bob on 2025-01-01. *)
Definition twoAppointmentsWorld : @World specPersistence :=
  specWorld true
    {| dbPatients := [];
       dbAppointments := [appointmentOn 1 "Jane" "2024-12-25"; appointmentOn 2 "Bob" "2025-01-01"];
       dbDeadlines := [deadlineOn 3 "Audit" "2024-07-01"; deadlineOn 4 "Budget" "2024-07-02"];
       dbInventory := [<["id" := JNum 5]> (stockItem "Gloves" 5 10);
                       <["id" := JNum 6]> (stockItem "Masks" 50 10)];
       dbNotes := []; nextId := 7; failing := false |}
    emptyCache.

(** [{ date: "2030-01-01" }]: no search term, a date nobody has. *)
Definition dateOnlyParams : obj := <["date" := JStr "2030-01-01"]> ∅.

(** What [formatMarkdown] makes of a chat message that spells out a
    placeholder twice, then a line break and an emphasised letter. *)
Definition spelledPlaceholders : string :=
  "__PLACEHOLDER_1__ __PLACEHOLDER_1__<br><em>a</em>".

(** Bold text around a patient name, no placeholder spelled out. *)
Definition boldJane : string := "Call <strong>now</strong>: Jane Doe is waiting".

(** The events a computation adds to the trace when it runs from [w]. *)
Definition added `{Persistence} {A} (m : M A) (w : World) : list Event :=
  drop (length (trace w)) (trace (m w).2).

(** Running [m] only appends events, each of them satisfying [P]. *)
Definition emitsOnly `{Persistence} {A} (P : Event → Prop) (m : M A) : Prop :=
  ∀ w, ∃ l, trace (m w).2 = trace w ++ l ∧ Forall P l.

(** If the event is a create call, it is for kind [k] and carries a record
    satisfying [Q]. *)
Definition createsOnly (k : Kind) (Q : obj → Prop) (e : Event) : Prop :=
  ∀ k' record, e = DbCalled (Create k' record) → k' = k ∧ Q record.

(** ** Outcomes of a computation *)

(** The collaborator rejects with values that have a message, never with
    [null] or [undefined]. *)
Definition rejectsWithMessage `{Persistence} : Prop :=
  ∀ req d, (dbCall req d).1 ≠ RejectedBare.

(** What was thrown, if anything, has a message to read. *)
Definition hasMessage {A} (r : Res A) : Prop :=
  match r with
  | Thrown Bare => False
  | _ => True
  end.

(** Whenever [m] returns a value, the value satisfies [P], and whatever it
    throws has a message to read. *)
Definition yields `{Persistence} {A} (P : A → Prop) (m : M A) : Prop :=
  ∀ w, match (m w).1 with Ok a => P a | r => hasMessage r end.

(** [m] always returns a value, and the value satisfies [P]. *)
Definition answers `{Persistence} {A} (P : A → Prop) (m : M A) : Prop :=
  ∀ w, ∃ a, (m w).1 = Ok a ∧ P a.

(** A collaborator that rejects every call with [undefined]. *)
Definition barePersistence : Persistence :=
  {| DbState := unit; dbCall := λ _ d, (RejectedBare, d) |}.

Definition bareWorld : @World barePersistence :=
  {| connected := true; db := (tt : @DbState barePersistence); cache := emptyCache;
     selectedCalendarDate := JNull; trace := [] |}.

(** The outcome has a message to show, and a failure is marked as one. *)
Definition spoken (out : Outcome) : Prop :=
  truthy (message out) = true
  ∧ (success out = false → ∃ s, message out = JStr ("❌" +:+ s)).

(** ** Reads, writes and the cache *)

(** A request that changes the collaborator's records. *)
Definition isWrite (req : DbRequest) : bool :=
  match req with
  | Create _ _ | Update _ _ _ | Delete _ _ | AddPatientNote _ _ _ => true
  | _ => false
  end.

(** The event is a call that reads from the collaborator. *)
Definition isReadCall (e : Event) : Prop := ∃ req, e = DbCalled req ∧ isWrite req = false.

(** Running [m] changes neither the cache nor the selected date, and all it
    adds to the trace are read calls. *)
Definition onlyReads `{Persistence} {A} (m : M A) : Prop :=
  ∀ w, cache (m w).2 = cache w
       ∧ selectedCalendarDate (m w).2 = selectedCalendarDate w
       ∧ ∃ l, trace (m w).2 = trace w ++ l ∧ Forall isReadCall l.

(** The methods of [ToolExecutor] that list, search or look up. *)
Definition looksUp (m : ToolExecutor.Method) : bool :=
  match m with
  | ToolExecutor.ToSearchPatients | ToolExecutor.ToListPatients | ToolExecutor.ToGetPatient
  | ToolExecutor.ToGetPatientNotes | ToolExecutor.ToListAppointments
  | ToolExecutor.ToGetAppointmentsByDate | ToolExecutor.ToListDeadlines
  | ToolExecutor.ToGetDeadlineDetails | ToolExecutor.ToGetDeadlinesByDate
  | ToolExecutor.ToSearchDeadlines | ToolExecutor.ToListInventoryItems
  | ToolExecutor.ToSearchInventory | ToolExecutor.ToGetLowStockItems
  | ToolExecutor.ToAnswerQuestion => true
  | _ => false
  end.

(** The rows a read wrapper returns for [req] when the collaborator is
    reachable and in state [d]. *)
Definition rowsAt `{Persistence} (req : DbRequest) (d : DbState) : list obj :=
  match (dbCall req d).1 with
  | Resolved r => rowsOf r
  | _ => []
  end.

(** Requests that read leave the collaborator's state as it is. *)
Definition readsArePure `{Persistence} : Prop :=
  ∀ req d, isWrite req = false → (dbCall req d).2 = d.

(** The cached rows of a kind. *)
Definition cached (k : Kind) (c : DataCache) : list obj :=
  match k with
  | Patients => patients c
  | Appointments => appointments c
  | Deadlines => deadlines c
  | Inventory => inventory c
  end.

(** The cache of a kind holds what reading the collaborator would return
    now. *)
Definition inSync `{Persistence} (k : Kind) (w : World) : Prop :=
  cached k (cache w) = rowsAt (GetAll k) (db w).

(** From a world that satisfies [Pre], a run of [m] that returns [a] ends in
    a world that satisfies [Post a]. *)
Definition establishes `{Persistence} {A}
    (Pre : World → Prop) (m : M A) (Post : A → World → Prop) : Prop :=
  ∀ w, Pre w → match (m w).1 with Ok a => Post a (m w).2 | Thrown _ => True end.

(** Every value of the partial record is truthy. *)
Definition allTruthy (u : obj) : Prop := ∀ k v, u !! k = Some v → truthy v = true.

(** ** Markdown in chat messages *)

(** A line terminator: what [.] of a regular expression does not match. *)
Definition isLineTerminator (c : ascii) : bool :=
  let n := nat_of_ascii c in ((n =? 10) || (n =? 13))%nat.

(** The group of [(.+?)] followed by the literal [close], at the head of
    [s]: the shortest non-empty run of characters other than line
    terminators after which [close] comes. *)
Fixpoint lazyGroup (close : string) (s : string) : option string :=
  match s with
  | EmptyString => None
  | String c s' =>
      if isLineTerminator c then None
      else if startsWith close s' then Some (String c EmptyString)
      else match lazyGroup close s' with
           | Some g => Some (String c g)
           | None => None
           end
  end.

(** The regular expression made of the literal [delim], the group [(.+?)]
    and [delim] again: [/\*\*(.+?)\*\*/], [/\*(.+?)\*/] and [/`(.+?)`/]. *)
Definition delimited (delim : string) : Matcher :=
  λ _ s,
    if startsWith delim s then
      match lazyGroup delim (dropStr (String.length delim) s) with
      | Some g => Some (delim +:+ g +:+ delim)
      | None => None
      end
    else None.

(** The replacement [<tag>$1</tag>] for a match of [delimited delim]: [$1]
    is the match without its two delimiters. *)
Definition wrapGroup (tag delim : string) (matched : string) : string :=
  let n := String.length delim in
  "<" +:+ tag +:+ ">"
  +:+ takeStr (String.length matched - 2 * n) (dropStr n matched)
  +:+ "</" +:+ tag +:+ ">".

Fixpoint leadingNewlines (s : string) : nat :=
  match s with
  | String c s' => if Ascii.eqb c "010" then S (leadingNewlines s') else O
  | EmptyString => O
  end.

(** [/\n\n+/] *)
Definition blankLines : Matcher :=
  λ _ s,
    let k := leadingNewlines s in
    if (2 <=? k)%nat then Some (takeStr k s) else None.

(** [/\n/] *)
Definition lineBreak : Matcher :=
  λ _ s,
    match s with
    | String c _ => if Ascii.eqb c "010" then Some nl else None
    | EmptyString => None
    end.

(** [formatMarkdown(text)]; [escapeHtml] sets [text] as the content of a
    text node, which converts it to a string. *)
Definition formatMarkdown (text : JsVal) : string :=
  if negb (truthy text) then EmptyString
  else
    let escaped := escapeHtml (toStr text) in
    let bold := replaceAll (delimited "**") (wrapGroup "strong" "**") 0 None escaped in
    let italic := replaceAll (delimited "*") (wrapGroup "em" "*") 0 None bold in
    let code := replaceAll (delimited "`") (wrapGroup "code" "`") 0 None italic in
    let paragraphs := replaceAll blankLines (λ _, "<br><br>") 0 None code in
    replaceAll lineBreak (λ _, "<br>") 0 None paragraphs.

(** [re] can only match where the subject starts with the character [a]. *)
Definition firesAt (re : Matcher) (a : ascii) : Prop :=
  ∀ prev s m, re prev s = Some m → ∃ r, s = String a r.

(** None of the characters that Markdown or a line break gives a meaning. *)
Definition isPlain (s : string) : Prop :=
  charIn "*" s = false ∧ charIn "`" s = false ∧ charIn "010" s = false.

(** ** The appointment and deadline tables *)

(** [(v || dflt).toLowerCase()]; a truthy value that is not a string has no
    [toLowerCase]. *)
Definition lowerOr {host : Host} (dflt : string) (v : JsVal) : Res string :=
  match jsOr v (JStr dflt) with
  | JStr s => Ok (toLowerCase s)
  | _ => Thrown (hostTypeError "toLowerCase")
  end.

(** [l.map(f)] for a callback that can throw. *)
Fixpoint mapRes {A B} (f : A → Res B) (l : list A) : Res (list B) :=
  match l with
  | [] => Ok []
  | x :: l' =>
      bindRes (f x) (λ y,
      bindRes (mapRes f l') (λ ys,
      Ok (y :: ys)))
  end.

Section Tables.
Context {host : Host} {persist : Persistence}.

(** [a.date + 'T' + (a.time || '00:00')], the argument of [new Date] in the
    comparison of two appointments. *)
Definition appointmentStart (a : obj) : JsVal :=
  JStr (toStr (get a "date") +:+ "T" +:+ toStr (jsOr (get a "time") (JStr "00:00"))).

(** [loadAppointments]. The array that [Database.getAppointments] returned
    is assigned to [DataCache.appointments] and then sorted in place, latest
    first: the cache holds the sorted array. Rendering a row lower-cases its
    status for the badge. *)
Definition loadAppointments : M unit :=
  run emit (TableShown Appointments Loading);
  tryCatch
    (do apps <- Database.getAppointments;
     run modify (λ w, withCache (setAppointments apps (cache w)) w);
     if bool_decide (length apps = 0%nat)
     then emit (TableShown Appointments NoRows)
     else
       let sorted :=
         sortBy (λ a b, dateLe (appointmentStart b) (appointmentStart a)) apps in
       run modify (λ w, withCache (setAppointments sorted (cache w)) w);
       run liftRes (mapRes (λ a, lowerOr "scheduled" (get a "status")) sorted);
       emit (TableShown Appointments (Rows sorted)))
    (λ _, emit (TableShown Appointments LoadFailed)).

(** [loadDeadlines]: the same, sorted by due date, earliest first; the
    badge lower-cases the priority. *)
Definition loadDeadlines : M unit :=
  run emit (TableShown Deadlines Loading);
  tryCatch
    (do dls <- Database.getDeadlines;
     run modify (λ w, withCache (setDeadlines dls (cache w)) w);
     if bool_decide (length dls = 0%nat)
     then emit (TableShown Deadlines NoRows)
     else
       let due d := jsOr (get d "date") (get d "dueDate") in
       let sorted := sortBy (λ a b, dateLe (due a) (due b)) dls in
       run modify (λ w, withCache (setDeadlines sorted (cache w)) w);
       run liftRes (mapRes (λ d, lowerOr "medium" (get d "priority")) sorted);
       emit (TableShown Deadlines (Rows sorted)))
    (λ _, emit (TableShown Deadlines LoadFailed)).
End Tables.

(** ** CALENDAR

    In the world model a redraw of the calendar is the event
    [CalendarRendered]; what is drawn, from [AppState] and [DataCache], is
    modelled here. *)

(** [AppState], as far as the calendar reads and writes it. *)
Record AppState := {
  currentMonth : Z;
  currentYear : Z;
}.

(** The calendar arithmetic of the host's [Date], in local time. *)
Class CalendarHost := {
  (** [new Date(year, month, 1).getDay()] *)
  firstWeekday : Z → Z → Z;
  (** [new Date(year, month, 0).getDate()]: the last day of the month
      before [month] *)
  lastDayBefore : Z → Z → Z;
  (** [(d.getFullYear(), d.getMonth(), d.getDate())] for [d = new Date(v)];
      [None] is an invalid date, whose three parts are NaN *)
  localDate : JsVal → option (Z * Z * Z);
  (** the same for [new Date()] *)
  localToday : Z * Z * Z;
}.

(** A cell of the month grid. *)
Inductive CalendarCell :=
| OtherMonthDay (day : Z)
| MonthDay (day : Z) (isToday : bool) (eventCount : Z) (dateStr : string).

Definition monthNames : list string :=
  [ "January"; "February"; "March"; "April"; "May"; "June";
    "July"; "August"; "September"; "October"; "November"; "December" ].

(** What [renderCalendar] writes: the title and the cells. *)
Record CalendarView := {
  monthYear : string;
  cells : list CalendarCell;
}.

Module Calendar.
Section Calendar.
Context {calendar : CalendarHost}.

(** [eventCounts[day] = (eventCounts[day] || 0) + 1] when the date falls in
    the month shown. *)
Definition countEvent (year month : Z) (eventCounts : gmap Z Z) (date : JsVal) : gmap Z Z :=
  match localDate date with
  | Some (y, m, day) =>
      if (m =? month) && (y =? year)
      then <[day := default 0 (eventCounts !! day) + 1]> eventCounts
      else eventCounts
  | None => eventCounts
  end.

(** The two [forEach] passes over the cached appointments and deadlines. *)
Definition eventCounts (year month : Z) (c : DataCache) : gmap Z Z :=
  fold_left (λ counts d, countEvent year month counts (jsOr (get d "date") (get d "dueDate")))
    (deadlines c)
    (fold_left (λ counts a,
                  if truthy (get a "date") then countEvent year month counts (get a "date")
                  else counts)
       (appointments c) ∅).

(** [`${year}-${String(month+1).padStart(2,'0')}-${String(day).padStart(2,'0')}`] *)
Definition dateStrOf (year month day : Z) : string :=
  pretty year +:+ "-" +:+ padStart 2 "0" (pretty (month + 1)) +:+ "-"
  +:+ padStart 2 "0" (pretty day).

Definition calendarCells (st : AppState) (c : DataCache) : list CalendarCell :=
  let year := currentYear st in
  let month := currentMonth st in
  let firstDay := firstWeekday year month in
  let daysInMonth := lastDayBefore year (month + 1) in
  let daysInPrevMonth := lastDayBefore year month in
  let '(todayYear, todayMonth, todayDate) := localToday in
  let isCurrentMonth := (todayMonth =? month) && (todayYear =? year) in
  let counts := eventCounts year month c in
  (* for (let i = firstDay - 1; i >= 0; i--) *)
  map (λ i, OtherMonthDay (daysInPrevMonth - i)) (reverse (seqZ 0 firstDay))
  (* for (let day = 1; day <= daysInMonth; day++) *)
  ++ map (λ day, MonthDay day (isCurrentMonth && (day =? todayDate))
                   (default 0 (counts !! day)) (dateStrOf year month day))
         (seqZ 1 daysInMonth)
  (* for (let i = 1; i <= remaining; i++) *)
  ++ (let totalCells := firstDay + daysInMonth in
      let remaining := if Z.rem totalCells 7 =? 0 then 0 else 7 - Z.rem totalCells 7 in
      map OtherMonthDay (seqZ 1 remaining)).

(** The markup of a cell. *)
Definition cellHtml (cell : CalendarCell) : string :=
  match cell with
  | OtherMonthDay day =>
      "<div class=" +:+ dq +:+ "calendar-day other-month" +:+ dq +:+ ">"
      +:+ pretty day +:+ "</div>"
  | MonthDay day isToday eventCount dateStr =>
      let classes :=
        ["calendar-day"] ++ (if isToday then ["today"] else [])
        ++ (if 0 <? eventCount then ["has-events"] else []) in
      let countBadge :=
        if 1 <? eventCount
        then "<span class=" +:+ dq +:+ "event-count" +:+ dq +:+ ">" +:+ pretty eventCount
             +:+ "</span>"
        else "" in
      "<div class=" +:+ dq +:+ join " " classes +:+ dq
      +:+ " data-date=" +:+ dq +:+ dateStr +:+ dq +:+ ">"
      +:+ pretty day +:+ countBadge +:+ "</div>"
  end.

(** [container.innerHTML] after [renderCalendar]. *)
Definition calendarHtml (st : AppState) (c : DataCache) : string :=
  String.concat "" (map cellHtml (calendarCells st c)).

(** [renderCalendar()]: the title [`${monthNames[month]} ${year}`] and the
    grid, from the state and the cache. *)
Definition renderCalendar (st : AppState) (c : DataCache) : CalendarView :=
  {| monthYear :=
       (if currentMonth st <? 0 then "undefined"
        else default "undefined" (monthNames !! Z.to_nat (currentMonth st)))
       +:+ " " +:+ pretty (currentYear st);
     cells := calendarCells st c |}.

(** [prevMonth()]: the new state, and what [renderCalendar] draws from it. *)
Definition prevMonth (st : AppState) (c : DataCache) : AppState * CalendarView :=
  let month := currentMonth st - 1 in
  let st' :=
    if month <? 0 then {| currentMonth := 11; currentYear := currentYear st - 1 |}
    else {| currentMonth := month; currentYear := currentYear st |} in
  (st', renderCalendar st' c).

(** [nextMonth()] *)
Definition nextMonth (st : AppState) (c : DataCache) : AppState * CalendarView :=
  let month := currentMonth st + 1 in
  let st' :=
    if 11 <? month then {| currentMonth := 0; currentYear := currentYear st + 1 |}
    else {| currentMonth := month; currentYear := currentYear st |} in
  (st', renderCalendar st' c).
End Calendar.
End Calendar.

(** ** Further worked examples *)

(** A collaborator that holds Jane and rejects every request. *)
Definition failingDb : SpecDb :=
  {| dbPatients := [janeRecord]; dbAppointments := []; dbDeadlines := []; dbInventory := [];
     dbNotes := []; nextId := 2; failing := true |}.

Definition failingWorld : @World specPersistence := specWorld true failingDb emptyCache.

(** [{ patientName: "Jane" }] *)
Definition namedJane : obj := <["patientName" := JStr "Jane"]> ∅.

(** Two deadlines whose titles start alike, stored after one that does not
    match. *)
Definition reportsWorld : @World specPersistence :=
  specWorld true
    {| dbPatients := []; dbAppointments := [];
       dbDeadlines := [deadlineOn 1 "Audit" "2024-07-01"; deadlineOn 2 "Report A" "2024-07-02";
                       deadlineOn 3 "Report B" "2024-07-03"];
       dbInventory := [<["id" := JNum 4]> (stockItem "Gloves" 5 10)];
       dbNotes := []; nextId := 5; failing := false |}
    emptyCache.

(** [{ title: "report" }] *)
Definition reportParams : obj := <["title" := JStr "report"]> ∅.

(** One appointment whose status is the number 1. *)
Definition numberedStatusWorld : @World specPersistence :=
  specWorld true
    {| dbPatients := [];
       dbAppointments := [<["status" := JNum 1]> (appointmentOn 1 "Jane" "2024-12-25")];
       dbDeadlines := [<["priority" := JNum 1]> (deadlineOn 2 "Audit" "2024-07-01")];
       dbInventory := []; dbNotes := []; nextId := 3; failing := false |}
    emptyCache.

(** The first day of the month with index [month] (0 is January, and an
    index outside 0..11 runs into the neighbouring years), in days from
    1970-01-01. *)
Definition monthStart (year month : Z) : Z :=
  daysFromCivil (year + month / 12) (month mod 12 + 1) 1.

(** A host on the Gregorian calendar in UTC whose clock reads 2024-06-01; it
    only understands dates written year-month-day. *)
Definition utcCalendar : CalendarHost := {|
  firstWeekday year month := (monthStart year month + 4) mod 7;
  lastDayBefore year month := monthStart year month - monthStart year (month - 1);
  localDate v :=
    match v with
    | JStr s =>
        match isoParts s with
        | Some (y, m, d) => Some (y, m - 1, d)
        | None => None
        end
    | _ => None
    end;
  localToday := (2024, 5, 1);
|}.

(** Whether an appointment, or a deadline, falls on the day. *)
Definition appointmentOnDay {calendar : CalendarHost} (year month day : Z) (a : obj) : bool :=
  truthy (get a "date") && bool_decide (localDate (get a "date") = Some (year, month, day)).

Definition deadlineOnDay {calendar : CalendarHost} (year month day : Z) (d : obj) : bool :=
  bool_decide (localDate (jsOr (get d "date") (get d "dueDate")) = Some (year, month, day)).

(** June 2024. *)
Definition june2024 : AppState := {| currentMonth := 5; currentYear := 2024 |}.

(** A numeric title between two deadlines. *)
Definition numberedTitleWorld : @World specPersistence :=
  specWorld true
    {| dbPatients := []; dbAppointments := [];
       dbDeadlines := [deadlineOn 1 "Audit" "2024-07-01";
                       <["title" := JNum 2024]> (deadlineOn 2 "x" "2024-07-02");
                       deadlineOn 3 "Report" "2024-07-03"];
       dbInventory := []; dbNotes := []; nextId := 4; failing := false |}
    emptyCache.

(** July 2024, with the nine appointments and the nine deadlines cached. *)
Definition july2024 : AppState := {| currentMonth := 6; currentYear := 2024 |}.

Definition julyCache : DataCache :=
  setDeadlines nineDeadlines (setAppointments nineAppointments emptyCache).

(** [{ patient: "Jane", date: "2024-12-25" }]: the patient named under the
    other key that [createAppointment] reads. *)
Definition patientAliasParams : obj :=
  <["patient" := JStr "Jane"]> (<["date" := JStr "2024-12-25"]> ∅).

(** [{ patientName: "", date: "2024-12-25" }] *)
Definition emptyNameParams : obj :=
  <["patientName" := JStr EmptyString]> (<["date" := JStr "2024-12-25"]> ∅).



(** [{ name: "Gloves", quantity: 15, minStock: 0, minimumStock: 20 }] *)
Definition legacyItem : obj := <["minimumStock" := JNum 20]> (stockItem "Gloves" 15 0).




(** The reads of the collections and the low-stock query. *)
Definition isListing (req : DbRequest) : bool :=
  match req with
  | GetAll _ | GetLowStock => true
  | _ => false
  end.

(** What the collaborator resolves a listing with is an array of records
    under [data]. The read wrappers hand on whatever is under [data], and
    their callers use it as an array. *)
Definition listsAreArrays `{Persistence} : Prop :=
  ∀ req d r d', isListing req = true → dbCall req d = (Resolved r, d') →
                ∃ rows, r = DataEnvelope (DataRows rows).

(** Not a number of 22 digits or more. [parseInt] reads the digits that
    print its argument, and a number prints with all its digits only below
    10^21. *)
Definition plainNumber (v : JsVal) : Prop := ∀ n, v = JNum n → Z.abs n < 10 ^ 21.

(** [{ name: "Gloves", quantity: "a dozen", minStock: 0 }] *)
Definition unparsedParams : obj :=
  <["name" := JStr "Gloves"]> (<["quantity" := JStr "a dozen"]> (<["minStock" := JNum 0]> ∅)).

(** A character that a regular expression reads as itself. *)
Definition isRegexLiteral (c : ascii) : bool :=
  negb (charIn c "\^$.|?*+()[]{}").

Fixpoint regexLiteral (s : string) : bool :=
  match s with
  | EmptyString => true
  | String c s' => isRegexLiteral c && regexLiteral s'
  end.

(** A patient number that the linker can put into a regular expression as
    it is: nothing, a number that prints with its digits, or a text
    without a character that a regular expression gives a meaning. *)
Definition literalNumber (v : JsVal) : Prop :=
  match v with
  | JStr s => regexLiteral s = true
  | JNum n => Z.abs n < 10 ^ 21
  | _ => True
  end.

(** The appointment [a] starts no earlier than [b], both at a valid time. *)
Definition startsNoEarlier {host : Host} (a b : obj) : Prop :=
  ∃ ta tb, hostDateValue (appointmentStart a) = Some ta
           ∧ hostDateValue (appointmentStart b) = Some tb ∧ tb ≤ ta.

(** The deadline [a] is due no later than [b], both on a valid date. *)
Definition dueNoLater {host : Host} (a b : obj) : Prop :=
  ∃ ta tb, hostDateValue (jsOr (get a "date") (get a "dueDate")) = Some ta
           ∧ hostDateValue (jsOr (get b "date") (get b "dueDate")) = Some tb ∧ ta ≤ tb.

(* ===================================================================== *)
(** * Properties *)
(* ===================================================================== *)

(** ** Strings *)

Lemma append_nil_l (t : string) : EmptyString +:+ t = t.
Proof. reflexivity. Qed.

Lemma append_cons (c : ascii) (s t : string) : String c s +:+ t = String c (s +:+ t).
Proof. reflexivity. Qed.

Lemma append_nil_r (s : string) : s +:+ EmptyString = s.
Proof.
  induction s as [|c s IH]; [reflexivity |].
  by rewrite append_cons, IH.
Qed.

Lemma append_assoc (a b c : string) : (a +:+ b) +:+ c = a +:+ (b +:+ c).
Proof.
  induction a as [|x a IH]; [reflexivity |].
  by rewrite !append_cons, IH.
Qed.


Lemma startsWith_app (p r : string) : startsWith p (p +:+ r) = true.
Proof.
  induction p as [|c p IH]; [reflexivity |].
  rewrite append_cons. simpl. by rewrite Ascii.eqb_refl, IH.
Qed.

Lemma startsWith_inv (p s : string) :
  startsWith p s = true → ∃ r, s = p +:+ r.
Proof.
  revert s. induction p as [|c p IH]; intros s H.
  - by exists s.
  - destruct s as [|d s]; simpl in H; [discriminate |].
    apply andb_true_iff in H as [Hc Hp].
    apply Ascii.eqb_eq in Hc as ->.
    destruct (IH _ Hp) as [r ->]. by exists r.
Qed.

Lemma includes_unfold (s n : string) :
  includes s n =
  startsWith n s || match s with
                    | EmptyString => false
                    | String _ s' => includes s' n
                    end.
Proof. by destruct s. Qed.

Lemma includes_nil (s : string) : includes s EmptyString = true.
Proof. by destruct s. Qed.

Lemma includes_app (a n b : string) : includes (a +:+ n +:+ b) n = true.
Proof.
  induction a as [|c a IH].
  - rewrite append_nil_l, includes_unfold, startsWith_app. reflexivity.
  - rewrite append_cons, includes_unfold, IH. apply orb_true_r.
Qed.

Lemma includes_inv (s n : string) :
  includes s n = true → ∃ a b, s = a +:+ n +:+ b.
Proof.
  induction s as [|c s IH]; rewrite includes_unfold; intros H.
  - rewrite orb_false_r in H. destruct (startsWith_inv _ _ H) as [r ->].
    by exists EmptyString, r.
  - apply orb_true_iff in H as [H | H].
    + destruct (startsWith_inv _ _ H) as [r ->]. by exists EmptyString, r.
    + destruct (IH H) as (a & b & ->). by exists (String c a), b.
Qed.

(** ** The date conversion *)

Lemma includes_char_cons (a c : ascii) (s : string) :
  includes (String a s) (String c EmptyString) = false →
  Ascii.eqb a c = false ∧ includes s (String c EmptyString) = false.
Proof.
  rewrite includes_unfold. simpl. intros H.
  apply orb_false_iff in H as [H1 H2].
  rewrite andb_true_r in H1. by rewrite Ascii.eqb_sym.
Qed.

Lemma split_free (sep : ascii) (s : string) :
  includes s (String sep EmptyString) = false → split sep s = [s].
Proof.
  induction s as [|a s IH]; intros H; [reflexivity |].
  apply includes_char_cons in H as [Ha Hs].
  simpl. by rewrite Ha, (IH Hs).
Qed.

Lemma split_app (sep : ascii) (d r : string) :
  includes d (String sep EmptyString) = false →
  split sep (d +:+ String sep r) = d :: split sep r.
Proof.
  induction d as [|a d IH]; intros H.
  - rewrite append_nil_l. simpl. by rewrite Ascii.eqb_refl.
  - apply includes_char_cons in H as [Ha Hd].
    rewrite append_cons. simpl. by rewrite Ha, (IH Hd).
Qed.

Lemma convertDate_dmy (d m y : string) :
  (String.length d ≤ 2)%nat →
  includes d "/" = false → includes m "/" = false → includes y "/" = false →
  convertDate (d +:+ "/" +:+ m +:+ "/" +:+ y)
  = y +:+ "-" +:+ padStart 2 "0" m +:+ "-" +:+ padStart 2 "0" d.
Proof.
  intros Hlen Hd Hm Hy. unfold convertDate.
  assert (String.eqb (d +:+ "/" +:+ m +:+ "/" +:+ y) EmptyString = false) as ->.
  { apply String.eqb_neq. by destruct d. }
  rewrite (includes_app d "/" (m +:+ "/" +:+ y)). simpl andb. cbv iota.
  change ("/" +:+ m +:+ "/" +:+ y) with (String "/" (m +:+ String "/" y)).
  rewrite (split_app "/" d _ Hd), (split_app "/" m _ Hm), (split_free "/" y Hy).
  by apply Nat.leb_le in Hlen as ->.
Qed.

Lemma convertDate_example : convertDate "25/12/2024" = "2024-12-25".
Proof. reflexivity. Qed.

(** ** What a computation adds to the trace *)

Section Emits.
Context {host : Host} {persist : Persistence}.

Lemma added_emitsOnly {A} (P : Event → Prop) (m : M A) w :
  emitsOnly P m → Forall P (added m w).
Proof.
  intros Hm. destruct (Hm w) as (l & Hl & HP).
  unfold added. by rewrite Hl, drop_app_length.
Qed.

Lemma emitsOnly_ret {A} P (a : A) : emitsOnly P (ret a).
Proof. intros w. exists []. by rewrite app_nil_r. Qed.

Lemma emitsOnly_throw {A} P e : emitsOnly P (throw (A := A) e).
Proof. intros w. exists []. by rewrite app_nil_r. Qed.

Lemma emitsOnly_liftRes {A} P (r : Res A) : emitsOnly P (liftRes r).
Proof. intros w. exists []. by rewrite app_nil_r. Qed.

Lemma emitsOnly_getWorld P : emitsOnly P getWorld.
Proof. intros w. exists []. by rewrite app_nil_r. Qed.

Lemma emitsOnly_isConnected P : emitsOnly P Database.isConnected.
Proof. intros w. exists []. by rewrite app_nil_r. Qed.

Lemma emitsOnly_modify P (f : World → World) :
  (∀ w, trace (f w) = trace w) → emitsOnly P (modify f).
Proof. intros Hf w. exists []. simpl. by rewrite Hf, app_nil_r. Qed.

Lemma emitsOnly_emit (P : Event → Prop) e : P e → emitsOnly P (emit e).
Proof. intros He w. exists [e]. split; [reflexivity | by constructor]. Qed.

Lemma emitsOnly_bind {A B} P (m : M A) (k : A → M B) :
  emitsOnly P m → (∀ a, emitsOnly P (k a)) → emitsOnly P (bind m k).
Proof.
  intros Hm Hk w. unfold bind.
  destruct (Hm w) as (l1 & E1 & P1). destruct (m w) as [[a|e] w1]; simpl in *.
  - destruct (Hk a w1) as (l2 & E2 & P2). exists (l1 ++ l2).
    rewrite E2, E1, app_assoc. split; [reflexivity | by apply Forall_app].
  - by exists l1.
Qed.

Lemma emitsOnly_bind_ret {A B} P (a : A) (k : A → M B) :
  emitsOnly P (k a) → emitsOnly P (bind (ret a) k).
Proof. intros H w. apply (H w). Qed.

Lemma emitsOnly_tryCatch {A} P (m : M A) (h : Err → M A) :
  emitsOnly P m → (∀ e, emitsOnly P (h e)) → emitsOnly P (tryCatch m h).
Proof.
  intros Hm Hh w. unfold tryCatch.
  destruct (Hm w) as (l1 & E1 & P1). destruct (m w) as [[a|e] w1]; simpl in *.
  - by exists l1.
  - destruct (Hh e w1) as (l2 & E2 & P2). exists (l1 ++ l2).
    rewrite E2, E1, app_assoc. split; [reflexivity | by apply Forall_app].
Qed.

Lemma emitsOnly_withMessage {A} P (h : string → M A) error :
  (∀ e, emitsOnly P (h e)) → emitsOnly P (withMessage h error).
Proof. intros Hh. destruct error as [e|]; [apply Hh | apply emitsOnly_throw]. Qed.

Lemma emitsOnly_windowDb (P : Event → Prop) req :
  P (DbCalled req) → emitsOnly P (windowDb req).
Proof.
  intros Hreq w. unfold windowDb. destruct (connected w).
  - destruct (dbCall req (db w)) as [[r|e|] d]; exists [DbCalled req];
      (split; [reflexivity | by constructor]).
  - exists []. by rewrite app_nil_r.
Qed.
End Emits.

(** Breaks a computation into the steps above; what remains are the
    conditions on the events themselves. *)
Ltac emits_step :=
  first
    [ apply emitsOnly_ret | apply emitsOnly_throw | apply emitsOnly_liftRes
    | apply emitsOnly_getWorld | apply emitsOnly_isConnected
    | apply emitsOnly_bind_ret
    | apply emitsOnly_bind; [| intros ?]
    | apply emitsOnly_tryCatch; [| intros ?]
    | apply emitsOnly_withMessage; intros ?
    | apply emitsOnly_emit
    | apply emitsOnly_windowDb
    | apply emitsOnly_modify; intros ?; reflexivity
    | match goal with
      | |- emitsOnly _ (if ?b then _ else _) => destruct b
      | |- emitsOnly _ (match ?x with _ => _ end) => destruct x
      | |- emitsOnly _ (let '(_, _) := ?x in _) => destruct x
      end ].

Ltac emits := repeat emits_step.

Section Views_emit.
Context {host : Host} {persist : Persistence}.
Variable P : Event → Prop.
Hypothesis P_read : ∀ k, P (DbCalled (GetAll k)).
Hypothesis P_low : P (DbCalled GetLowStock).
Hypothesis P_view : ∀ e, (∀ req, e ≠ DbCalled req) → P e.

Lemma emitsOnly_read req : P (DbCalled req) → emitsOnly P (Database.read req).
Proof. intros H. unfold Database.read. emits. done. Qed.

Lemma emitsOnly_write req : P (DbCalled req) → emitsOnly P (Database.write req).
Proof. intros H. unfold Database.write. emits. done. Qed.

Lemma emitsOnly_loadStats_fetch : emitsOnly P loadStats_fetch.
Proof.
  unfold loadStats_fetch, Database.getPatients, Database.getAppointments,
    Database.getDeadlines, Database.getLowStock.
  repeat (apply emitsOnly_bind; [apply emitsOnly_read; auto | intros ?]).
  apply emitsOnly_ret.
Qed.

Lemma emitsOnly_loadStats_apply r : emitsOnly P (loadStats_apply r).
Proof.
  destruct r as [[[ps apps] dls] low]. unfold loadStats_apply.
  emits; apply P_view; discriminate.
Qed.

Lemma emitsOnly_loadStats : emitsOnly P loadStats.
Proof.
  unfold loadStats. apply emitsOnly_tryCatch.
  - apply emitsOnly_bind; [apply emitsOnly_loadStats_fetch |].
    apply emitsOnly_loadStats_apply.
  - intros ?. apply emitsOnly_emit, P_view. discriminate.
Qed.

Lemma emitsOnly_renderCalendar : emitsOnly P renderCalendar.
Proof. apply emitsOnly_emit, P_view. discriminate. Qed.

Lemma emitsOnly_showDateSchedule d b : emitsOnly P (showDateSchedule d b).
Proof. unfold showDateSchedule. emits. apply P_view. discriminate. Qed.

Lemma emitsOnly_refreshSchedule d : emitsOnly P (ToolExecutor.refreshSchedule d).
Proof.
  unfold ToolExecutor.refreshSchedule, loadTodaySchedule.
  apply emitsOnly_bind; [apply emitsOnly_getWorld | intros w].
  destruct (strictEq _ _); apply emitsOnly_showDateSchedule.
Qed.

Lemma emitsOnly_loadDashboard : emitsOnly P loadDashboard.
Proof.
  unfold loadDashboard, loadTodaySchedule. apply emitsOnly_bind.
  - apply emitsOnly_tryCatch.
    + apply emitsOnly_bind; [apply emitsOnly_loadStats_fetch | intros r; apply emitsOnly_ret].
    + intros e. apply emitsOnly_bind; [| intros _; apply emitsOnly_ret].
      apply emitsOnly_emit, P_view. discriminate.
  - intros fetched.
    apply emitsOnly_bind; [apply emitsOnly_renderCalendar | intros _].
    apply emitsOnly_bind; [apply emitsOnly_showDateSchedule | intros _].
    destruct fetched as [r|]; [| apply emitsOnly_ret].
    apply emitsOnly_tryCatch; [apply emitsOnly_loadStats_apply |].
    intros e. apply emitsOnly_emit, P_view. discriminate.
Qed.

Lemma emitsOnly_loadInventory : emitsOnly P loadInventory.
Proof.
  unfold loadInventory, Database.getInventory.
  apply emitsOnly_bind; [apply emitsOnly_emit, P_view; discriminate | intros _].
  apply emitsOnly_tryCatch.
  - apply emitsOnly_bind; [apply emitsOnly_read; auto | intros inv].
    emits; apply P_view; discriminate.
  - intros ?. apply emitsOnly_emit, P_view. discriminate.
Qed.
End Views_emit.

Section CreateDates.
Context {host : Host} {persist : Persistence}.
Import ToolExecutor.

Lemma jsOr_truthy a b : truthy a = true → jsOr a b = a.
Proof. unfold jsOr. by intros ->. Qed.

Lemma jsOr_falsy a b : truthy a = false → jsOr a b = b.
Proof. unfold jsOr. by intros ->. Qed.

Lemma jsOr_str_empty s : jsOr (JStr s) (JStr EmptyString) = JStr s.
Proof. by destruct s. Qed.

Lemma truthy_dmy (d r : string) : truthy (JStr (d +:+ "/" +:+ r)) = true.
Proof. by destruct d. Qed.

Lemma truthy_ymd (y r : string) : truthy (JStr (y +:+ "-" +:+ r)) = true.
Proof. by destruct y. Qed.

Lemma createsOnly_other k Q e :
  (∀ k' record, e ≠ DbCalled (Create k' record)) → createsOnly k Q e.
Proof. intros H k' record E. by destruct (H k' record). Qed.

Lemma createsOnly_create k (Q : obj → Prop) record :
  Q record → createsOnly k Q (DbCalled (Create k record)).
Proof. by intros H k' r [= <- <-]. Qed.

Lemma createAppointment_record params s :
  get params "date" = JStr s →
  emitsOnly (createsOnly Appointments (λ r, get r "date" = JStr (convertDate s)))
            (createAppointment params).
Proof.
  intros Hdate. unfold createAppointment. rewrite Hdate, jsOr_str_empty.
  emits.
  all: try (by apply createsOnly_other).
  all: try (apply emitsOnly_loadStats).
  all: try (apply emitsOnly_renderCalendar).
  all: try (apply emitsOnly_refreshSchedule).
  all: try (by apply emitsOnly_loadStats_apply; intros; apply createsOnly_other).
  all: apply createsOnly_create; unfold get; by simplify_map_eq.
Qed.

Lemma createDeadline_record params s :
  get params "date" = JStr s → s ≠ EmptyString →
  emitsOnly (createsOnly Deadlines (λ r, get r "date" = JStr (convertDate s)))
            (createDeadline params).
Proof.
  intros Hdate Hs. unfold createDeadline.
  rewrite Hdate, (jsOr_truthy (JStr s)), jsOr_str_empty
    by (by apply negb_true_iff, String.eqb_neq).
  emits.
  all: try (by apply createsOnly_other).
  all: try (by apply emitsOnly_loadStats_apply; intros; apply createsOnly_other).
  all: apply createsOnly_create; unfold get; by simplify_map_eq.
Qed.

(** The record [createDeadline] passes on has equal date fields. *)
Lemma createDeadline_dates_equal params :
  emitsOnly (createsOnly Deadlines (λ r, get r "date" = get r "dueDate"))
            (createDeadline params).
Proof.
  unfold createDeadline.
  apply emitsOnly_tryCatch; [| intros ?; emits].
  apply emitsOnly_bind.
  { unfold convertDateVal. destruct (jsOr _ _); emits. }
  intros dateStr. emits.
  all: try (by apply createsOnly_other).
  all: try (by apply emitsOnly_loadStats_apply; intros; apply createsOnly_other).
  all: apply createsOnly_create; unfold get; by simplify_map_eq.
Qed.

Lemma trace_grows {A} (m : M A) w :
  emitsOnly (λ _, True) m → ∃ l, trace (m w).2 = trace w ++ l.
Proof. intros H. destruct (H w) as (l & E & _). by exists l. Qed.

(** A write wrapper inside a [try]: when the collaborator is reachable the
    call is issued, whatever follows. *)
Lemma write_is_issued {A} req (k : JsData → M A) (h : Err → M A) w :
  connected w = true →
  (∀ a, emitsOnly (λ _, True) (k a)) → (∀ e, emitsOnly (λ _, True) (h e)) →
  DbCalled req ∈ added (tryCatch (bind (Database.write req) k) h) w.
Proof.
  intros Hc Hk Hh.
  assert (∀ l, DbCalled req ∈ drop (length (trace w)) ((trace w ++ [DbCalled req]) ++ l))
    as Hin.
  { intros l. rewrite <- app_assoc, drop_app_length. apply elem_of_cons; by left. }
  unfold added, tryCatch, Database.write, Database.isConnected, windowDb, bind.
  rewrite Hc. simpl. rewrite Hc.
  destruct (dbCall req (db w)) as [[r|e|] d].
  - destruct (trace_grows (k r) (logged (DbCalled req) (withDb d w)) (Hk r)) as [l El].
    destruct (k r _) as [[a|e] w'] eqn:Ek; simpl in El.
    + simpl. rewrite El. apply Hin.
    + destruct (trace_grows (h e) w' (Hh e)) as [l' El'].
      rewrite El', El, <- app_assoc. apply Hin.
  - destruct (trace_grows (h e) (logged (DbCalled req) (withDb d w)) (Hh e)) as [l El].
    rewrite El. apply Hin.
  - destruct (trace_grows (h Bare) (logged (DbCalled req) (withDb d w)) (Hh Bare)) as [l El].
    rewrite El. apply Hin.
Qed.
End CreateDates.

Section CreatePaths.
Context {host : Host} {persist : Persistence}.
Import ToolExecutor.

Lemma bind_ret {A B} (a : A) (k : A → M B) : bind (ret a) k = k a.
Proof. reflexivity. Qed.

Lemma truthy_jsOr_empty a : truthy (jsOr a (JStr EmptyString)) = truthy a.
Proof. unfold jsOr. by destruct (truthy a) eqn:E. Qed.

Lemma convertDate_truthy s :
  truthy (JStr s) = true → truthy (JStr (convertDate s)) = true.
Proof.
  intros Hs. unfold convertDate.
  destruct (_ && _); [| done].
  destruct (split "/" s) as [|p0 [|p1 [|p2 [|? ?]]]]; try done.
  destruct (_ <=? _)%nat; [apply truthy_ymd | done].
Qed.

Lemma everything_emits {A} (m : M A) (P : Event → Prop) :
  emitsOnly P m → emitsOnly (λ _, True) m.
Proof.
  intros H w. destruct (H w) as (l & E & _). exists l. split; [done |].
  by apply Forall_forall.
Qed.

(** With a patient name and a date string at hand, [createAppointment]
    issues the create call. *)
Lemma createAppointment_issues params s w :
  connected w = true →
  truthy (jsOr (get params "patientName") (get params "patient")) = true →
  get params "date" = JStr s → truthy (JStr s) = true →
  ∃ record, DbCalled (Create Appointments record) ∈ added (createAppointment params) w.
Proof.
  intros Hc Hname Hdate Hs. eexists.
  unfold createAppointment. cbv zeta.
  rewrite Hdate, jsOr_str_empty, !truthy_jsOr_empty, Hname, andb_false_r.
  cbv iota. rewrite bind_ret. cbv beta iota.
  change (convertDateVal (JStr s)) with (ret (JStr (convertDate s))).
  rewrite bind_ret. cbv beta.
  rewrite (convertDate_truthy s Hs), truthy_jsOr_empty, Hname. simpl negb. cbv iota.
  apply write_is_issued; [done | |].
  - intros a. apply (everything_emits _ (λ _, True)). emits; try done.
    all: try (by apply emitsOnly_loadStats_apply).
  - intros e. emits.
Qed.

Lemma createDeadline_issues params s w :
  connected w = true →
  truthy (jsOr (get params "title") (get params "description")) = true →
  get params "date" = JStr s → truthy (JStr s) = true →
  ∃ record, DbCalled (Create Deadlines record) ∈ added (createDeadline params) w.
Proof.
  intros Hc Htitle Hdate Hs. eexists.
  unfold createDeadline. cbv zeta.
  rewrite Hdate, (jsOr_truthy (JStr s)), jsOr_str_empty by done.
  change (convertDateVal (JStr s)) with (ret (JStr (convertDate s))).
  rewrite bind_ret. cbv beta.
  rewrite truthy_jsOr_empty, Htitle. simpl negb. cbv iota.
  apply write_is_issued; [done | |].
  - intros a. apply (everything_emits _ (λ _, True)). emits; try done.
    all: try (by apply emitsOnly_loadStats_apply).
  - intros e. emits.
Qed.
End CreatePaths.

(** ** C2: day/month/year dates reach the collaborator in canonical form *)

(** C2. Let the [date] parameter be a day/month/year string [d/m/y] (a day
    part of at most two characters, no further slash). Then every create
    call that [createAppointment] or [createDeadline] issues carries the
    record's [date] as year-month-day, the month and day padded to two
    digits; and with a reachable collaborator and the required name (title)
    present, the create call is issued. In particular 25/12/2024 is stored
    as 2024-12-25. *)
Theorem create_handlers_store_canonical_date
    {host : Host} {persist : Persistence} (params : obj) (d m y : string) (w : World) :
  (String.length d ≤ 2)%nat →
  includes d "/" = false → includes m "/" = false → includes y "/" = false →
  get params "date" = JStr (d +:+ "/" +:+ m +:+ "/" +:+ y) →
  let canonical := JStr (y +:+ "-" +:+ padStart 2 "0" m +:+ "-" +:+ padStart 2 "0" d) in
  Forall (createsOnly Appointments (λ r, get r "date" = canonical))
         (added (ToolExecutor.createAppointment params) w)
  ∧ Forall (createsOnly Deadlines (λ r, get r "date" = canonical))
           (added (ToolExecutor.createDeadline params) w)
  ∧ (connected w = true →
     truthy (jsOr (get params "patientName") (get params "patient")) = true →
     ∃ record, DbCalled (Create Appointments record)
               ∈ added (ToolExecutor.createAppointment params) w)
  ∧ (connected w = true →
     truthy (jsOr (get params "title") (get params "description")) = true →
     ∃ record, DbCalled (Create Deadlines record)
               ∈ added (ToolExecutor.createDeadline params) w).
Proof.
  intros Hlen Hd Hm Hy Hdate canonical. subst canonical.
  rewrite <- (convertDate_dmy d m y Hlen Hd Hm Hy).
  assert (truthy (JStr (d +:+ "/" +:+ m +:+ "/" +:+ y)) = true) as Ht
    by apply truthy_dmy.
  split; [| split; [| split]].
  - by apply added_emitsOnly, createAppointment_record.
  - apply added_emitsOnly, createDeadline_record; [done |].
    by destruct d.
  - intros Hc Hname. by eapply createAppointment_issues.
  - intros Hc Htitle. by eapply createDeadline_issues.
Qed.

Lemma create_handlers_store_canonical_date_witness :
  Forall (createsOnly Appointments (λ r, get r "date" = JStr "2024-12-25"))
         (added (ToolExecutor.createAppointment (host := utcHost) christmasParams) emptyWorld)
  ∧ Forall (createsOnly Deadlines (λ r, get r "date" = JStr "2024-12-25"))
           (added (ToolExecutor.createDeadline (host := utcHost) christmasParams) emptyWorld)
  ∧ (∃ record, DbCalled (Create Appointments record)
               ∈ added (ToolExecutor.createAppointment (host := utcHost) christmasParams) emptyWorld)
  ∧ (∃ record, DbCalled (Create Deadlines record)
               ∈ added (ToolExecutor.createDeadline (host := utcHost) christmasParams) emptyWorld).
Proof.
  destruct (create_handlers_store_canonical_date (host := utcHost)
              (persist := specPersistence) christmasParams "25" "12" "2024" emptyWorld)
    as (H1 & H2 & H3 & H4).
  - simpl. lia.
  - reflexivity.
  - reflexivity.
  - reflexivity.
  - reflexivity.
  - repeat split; [exact H1 | exact H2 | apply H3 | apply H4]; reflexivity.
Defined.

(** ** The dispatcher *)

Section Dispatch.
Context {host : Host} {persist : Persistence}.
Import ToolExecutor.


(** C4. When the collaborator is not reachable, [execute] answers with a
    failure outcome for every action name, data-mutating or not, and
    leaves the world as it was: no collaborator call, no cache update, no
    view refresh, and no handler has run. *)
Theorem execute_unreachable_fails_fast (toolName : string) (params : obj) (w : World) :
  connected w = false →
  ∃ out, execute toolName params w = (Ok out, w)
         ∧ success out = false
         ∧ added (execute toolName params) w = [].
Proof.
  intros Hc. eexists. unfold added, execute, bind, Database.isConnected.
  rewrite Hc. simpl. split; [reflexivity | split; [reflexivity |]].
  by rewrite drop_all.
Qed.

(** C3. For parameters with a [patientName] and a [date] (both truthy), an
    action name that no [case] of the dispatcher covers gives the very
    result of create_appointment on the same parameters. *)
Theorem unregistered_action_creates_appointment
    (toolName : string) (params : obj) (w : World) :
  selectCase (toLowerCase toolName) = None →
  truthy (get params "patientName") = true →
  truthy (get params "date") = true →
  execute toolName params w
  = execute "create_appointment" params w.
Proof.
  intros Hs Hp Hd. unfold execute, bind, Database.isConnected.
  destruct (connected w); simpl negb; cbv iota; [| reflexivity].
  rewrite Hs, Hp, Hd.
  by change (selectCase (toLowerCase "create_appointment")) with (Some ToCreateAppointment).
Qed.

End Dispatch.

Lemma execute_unreachable_fails_fast_witness :
  connected offlineWorld = false
  ∧ ∃ out, ToolExecutor.execute (host := utcHost) "create_patient"
             janeParams offlineWorld = (Ok out, offlineWorld)
           ∧ success out = false
           ∧ added (ToolExecutor.execute (host := utcHost) "create_patient"
                      janeParams) offlineWorld = [].
Proof.
  split; [reflexivity |].
  apply (execute_unreachable_fails_fast (host := utcHost)
           "create_patient" janeParams offlineWorld).
  reflexivity.
Defined.

Lemma unregistered_action_creates_appointment_witness :
  ToolExecutor.selectCase (toLowerCase "schedule_visit") = None
  ∧ ToolExecutor.execute (host := utcHost) "schedule_visit" janeParams emptyWorld
    = ToolExecutor.execute (host := utcHost) "create_appointment" janeParams
        emptyWorld.
Proof.
  split; [reflexivity |].
  apply (unregistered_action_creates_appointment (host := utcHost)
           "schedule_visit" janeParams emptyWorld); reflexivity.
Defined.

(** C3 as stated fails where the patient-name field is there but is not a
    truthy [patientName]. With the name under the key [patient], an action
    that is not registered answers with the stock sentence and calls
    nothing, while create_appointment creates the appointment; with an
    empty [patientName], the action that is not registered reports success
    and create_appointment reports that the name is required. *)
Lemma unregistered_action_counterexample :
  ToolExecutor.selectCase (toLowerCase "schedule_visit") = None
  ∧ added (ToolExecutor.execute (host := utcHost) "schedule_visit" patientAliasParams)
      emptyWorld = []
  ∧ head (added (ToolExecutor.execute (host := utcHost) "create_appointment"
                   patientAliasParams) emptyWorld)
    = Some (DbCalled (Create Appointments
              (<["patientName" := JStr "Jane"]> (<["date" := JStr "2024-12-25"]>
              (<["time" := JStr EmptyString]> (<["type" := JStr "checkup"]>
              (<["duration" := JNum 30]> (<["notes" := JStr EmptyString]>
              (<["status" := JStr "scheduled"]> ∅)))))))))
  ∧ ToolExecutor.execute (host := utcHost) "schedule_visit" patientAliasParams emptyWorld
    ≠ ToolExecutor.execute (host := utcHost) "create_appointment" patientAliasParams
        emptyWorld
  ∧ (ToolExecutor.execute (host := utcHost) "schedule_visit" emptyNameParams emptyWorld).1
    = Ok (succeeded "I've processed your request. Is there anything else?" DataNone)
  ∧ (ToolExecutor.execute (host := utcHost) "create_appointment" emptyNameParams
       emptyWorld).1
    = Ok (failed "❌ Patient name or number is required.")
  ∧ ToolExecutor.execute (host := utcHost) "schedule_visit" emptyNameParams emptyWorld
    ≠ ToolExecutor.execute (host := utcHost) "create_appointment" emptyNameParams
        emptyWorld.
Proof.
  assert (added (ToolExecutor.execute (host := utcHost) "schedule_visit" patientAliasParams)
            emptyWorld = []) as Hnone by (by vm_compute).
  assert (∃ e, head (added (ToolExecutor.execute (host := utcHost) "create_appointment"
                              patientAliasParams) emptyWorld) = Some e) as [e Hsome].
  { eexists. by vm_compute. }
  assert ((ToolExecutor.execute (host := utcHost) "schedule_visit" emptyNameParams
             emptyWorld).1
          = Ok (succeeded "I've processed your request. Is there anything else?" DataNone))
    as Hstock by (by vm_compute).
  assert ((ToolExecutor.execute (host := utcHost) "create_appointment" emptyNameParams
             emptyWorld).1
          = Ok (failed "❌ Patient name or number is required.")) as Hreq by (by vm_compute).
  split; [reflexivity |]. split; [exact Hnone |]. split; [by vm_compute |].
  split.
  { intros E. unfold added in Hnone, Hsome. rewrite <- E, Hnone in Hsome. discriminate. }
  split; [exact Hstock |]. split; [exact Hreq |].
  intros E. rewrite E, Hreq in Hstock. discriminate.
Qed.


(** ** Refreshing the cache *)

Section Refresh.
Context {host : Host} {persist : Persistence}.

Lemma read_unreachable req w :
  connected w = false → Database.read req w = (Ok [], w).
Proof. intros Hc. unfold Database.read, bind, Database.isConnected. by rewrite Hc. Qed.

Lemma read_rejected req w e d :
  connected w = true → dbCall req (db w) = (Rejected e, d) →
  Database.read req w = (Ok [], logged (DbCalled req) (withDb d w)).
Proof.
  intros Hc Hr. unfold Database.read, bind, Database.isConnected, tryCatch, windowDb.
  rewrite Hc. simpl. by rewrite Hc, Hr.
Qed.

Lemma read_resolved req w r d :
  connected w = true → dbCall req (db w) = (Resolved r, d) →
  Database.read req w = (Ok (rowsOf r), logged (DbCalled req) (withDb d w)).
Proof.
  intros Hc Hr. unfold Database.read, bind, Database.isConnected, tryCatch, windowDb.
  rewrite Hc. simpl. by rewrite Hc, Hr.
Qed.

(** C5, as the code has it. When the collaborator is unreachable, or its
    read call errors, [Database.getPatients] answers with the empty list
    and [loadPatients] replaces the cached patients by it: the table shows
    its empty state, the previous snapshot is gone and no error state is
    raised. *)
Theorem refresh_degrades_to_empty (w : World) :
  connected w = false
  ∨ (∃ e d, connected w = true ∧ dbCall (GetAll Patients) (db w) = (Rejected e, d)) →
  (Database.getPatients w).1 = Ok []
  ∧ patients (cache (loadPatients w).2) = []
  ∧ last (trace (loadPatients w).2) = Some (TableShown Patients NoRows).
Proof.
  intros [Hc | (e & d & Hc & Hr)].
  - unfold loadPatients, Database.getPatients, bind, tryCatch.
    rewrite (read_unreachable _ w Hc). simpl.
    rewrite read_unreachable by done. simpl.
    split; [done | split; [done |]]. by rewrite last_snoc.
  - unfold loadPatients, Database.getPatients, bind, tryCatch.
    rewrite (read_rejected _ w e d Hc Hr). simpl.
    rewrite (read_rejected _ _ e d) by done. simpl.
    split; [done | split; [done |]]. by rewrite last_snoc.
Qed.
End Refresh.

Lemma refresh_degrades_to_empty_witness :
  connected staleWorld = false
  ∧ (Database.getPatients (host := utcHost) staleWorld).1 = Ok []
  ∧ patients (cache (loadPatients (host := utcHost) staleWorld).2) = []
  ∧ last (trace (loadPatients (host := utcHost) staleWorld).2)
    = Some (TableShown Patients NoRows).
Proof.
  split; [reflexivity |].
  apply (refresh_degrades_to_empty (host := utcHost) staleWorld).
  left. reflexivity.
Defined.

(** C5 as stated fails: Jane is cached, the collaborator is unreachable, and
    the refresh leaves an empty cache instead of the previous snapshot. *)
Lemma refresh_keeps_snapshot_counterexample :
  connected staleWorld = false
  ∧ patients (cache staleWorld) = [janeRecord]
  ∧ patients (cache (loadPatients (host := utcHost) staleWorld).2) = []
  ∧ patients (cache (loadPatients (host := utcHost) staleWorld).2)
    ≠ patients (cache staleWorld).
Proof. repeat split; try reflexivity. discriminate. Qed.

(** ** The list actions *)

Section Lists.
Context {host : Host} {persist : Persistence}.
Import ToolExecutor.

(** [listPatients] shows ten rows and then counts the rest. *)
Lemma listPatients_reports_remaining w ps w1 :
  Database.getPatients w = (Ok ps, w1) → (10 < length ps)%nat →
  ∃ shown, length shown = 10%nat
    ∧ listPatients w
      = (Ok (succeeded
               ("📋 **Patients (" +:+ pretty (length ps) +:+ "):**" +:+ nl +:+ join nl shown
                +:+ nl +:+ "... +" +:+ pretty (length ps - 10)%nat +:+ " more")
               (DataRows ps)), w1).
Proof.
  intros Hread Hlen. eexists. split; [| unfold listPatients, tryCatch, bind; rewrite Hread].
  2: { rewrite bool_decide_eq_false_2 by lia. rewrite bool_decide_eq_true_2 by lia.
       reflexivity. }
  rewrite length_map, length_take. lia.
Qed.

(** [listDeadlines] shows eight rows and stops: nothing follows them. *)
Lemma listDeadlines_shape w dls w1 :
  Database.getDeadlines w = (Ok dls, w1) → (8 < length (upcomingDeadlines dls))%nat →
  ∃ shown, length shown = 8%nat
    ∧ listDeadlines w
      = (Ok (succeeded
               ("⏰ **Upcoming Deadlines (" +:+ pretty (length (upcomingDeadlines dls)) +:+ "):**"
                +:+ nl +:+ join nl shown)
               (DataRows dls)), w1).
Proof.
  intros Hread Hlen. eexists. split; [| unfold listDeadlines, tryCatch, bind; rewrite Hread].
  2: { assert (length dls ≠ 0%nat) as Hne.
       { intros E. destruct dls; [simpl in Hlen; lia | discriminate]. }
       rewrite bool_decide_eq_false_2 by done. cbv zeta.
       fold (upcomingDeadlines dls).
       rewrite bool_decide_eq_false_2 by lia. reflexivity. }
  rewrite length_map, length_take. lia.
Qed.
End Lists.

(** The same nine days listed as appointments: eight rows and the count of
    the ninth. *)
Lemma listAppointments_nine :
  message <$> (match (ToolExecutor.listAppointments (host := utcHost) nineWorld).1 with
               | Ok out => Some out
               | Thrown _ => None
               end)
  = Some (JStr "📅 **Upcoming Appointments (9):**
• 01/07/2024  - Jane
• 02/07/2024  - Jane
• 03/07/2024  - Jane
• 04/07/2024  - Jane
• 05/07/2024  - Jane
• 06/07/2024  - Jane
• 07/07/2024  - Jane
• 08/07/2024  - Jane
... +1 more").
Proof. vm_compute. reflexivity. Qed.

(** C6, at the failing input: nine upcoming deadlines. [listDeadlines] caps
    the rows at eight, and its message ends with the eighth row: the one
    remaining deadline is not counted. *)
Theorem listDeadlines_nine_omits_remaining :
  (ToolExecutor.listDeadlines (host := utcHost) nineWorld).1
  = Ok (succeeded "⏰ **Upcoming Deadlines (9):**
🟡 01/07/2024 - Audit
🟡 02/07/2024 - Budget
🟡 03/07/2024 - Census
🟡 04/07/2024 - Drill
🟡 05/07/2024 - Exam
🟡 06/07/2024 - Filing
🟡 07/07/2024 - Grant
🟡 08/07/2024 - Hiring" (DataRows nineDeadlines)).
Proof. vm_compute. reflexivity. Qed.

(** ** Low stock *)

Lemma jsOr_num_zero q : jsOr (JNum q) (JNum 0) = JNum q.
Proof. unfold jsOr. simpl. destruct (Z.eqb_spec q 0); by subst. Qed.

Lemma jsOr_num_default m k :
  jsOr (JNum m) (JNum k) = JNum (if m =? 0 then k else m).
Proof. unfold jsOr. simpl. by destruct (m =? 0). Qed.

Section LowStock.
Context {host : Host} {persist : Persistence}.
Import ToolExecutor.



Section ReadNow.
Variables (params : obj) (w : World) (rows : list obj) (d : DbState).
Hypothesis Hc : connected w = true.
Hypothesis Hr : dbCall (GetAll Inventory) (db w) = (Resolved (DataEnvelope (DataRows rows)), d).



End ReadNow.




End LowStock.


(** The three cases of the specification: 5 of 10 is low, 10 of 10 is low,
    11 of 10 is not. *)
Lemma low_stock_examples :
  ToolExecutor.isLow (host := utcHost) (stockItem "Gloves" 5 10) = true
  ∧ ToolExecutor.isLow (host := utcHost) (stockItem "Gloves" 10 10) = true
  ∧ ToolExecutor.isLow (host := utcHost) (stockItem "Gloves" 11 10) = false.
Proof. repeat split. Qed.


(** ** Resolving the target of an update, delete or detail action *)

Section Resolve.
Context {host : Host} {persist : Persistence}.
Import ToolExecutor.

Lemma lowerOf_falsy v : truthy v = false → lowerOf v = Ok EmptyString.
Proof. intros H. unfold lowerOf. by rewrite (jsOr_falsy _ _ H). Qed.

Lemma lowerOf_text v : isText v = true → ∃ s, lowerOf v = Ok s.
Proof.
  unfold lowerOf, jsOr. destruct v as [| |[]|n| |s]; simpl; try discriminate; eauto.
  - destruct (n =? 0); [eauto | discriminate].
  - destruct (String.eqb s EmptyString) eqn:E; simpl; eauto.
Qed.

(** The empty string is a substring of every name and title. *)
Lemma mentions_empty_term key term record :
  truthy term = false → isText (get record key) = true →
  mentions key term record = Ok true.
Proof.
  intros Hterm Htext. unfold mentions.
  destruct (lowerOf_text _ Htext) as [s ->]. rewrite (lowerOf_falsy _ Hterm).
  simpl. by rewrite includes_nil.
Qed.

Lemma find_empty_term key term first rest :
  truthy term = false → isText (get first key) = true →
  findRes (mentions key term) (first :: rest) = Ok (Some first).
Proof. intros Ht Hx. simpl. by rewrite mentions_empty_term. Qed.

Lemma find_appointment_empty_term params first rest :
  truthy (get params "patientName") = false → truthy (get params "date") = false →
  isText (get first "patientName") = true →
  findRes (appointmentMatches params) (first :: rest) = Ok (Some first).
Proof.
  intros Ht Hd Hx. simpl. unfold appointmentMatches.
  rewrite mentions_empty_term by done. simpl. rewrite Hd. simpl. by rewrite orb_true_r.
Qed.

(** A handler that reads a collection and then, inside its [try], issues a
    write: both calls head the events it adds. *)
Lemma added_read_then_write {A} (m : M A) req rows d wreq
    (k : JsData → M A) (h : Err → M A) w :
  connected w = true → dbCall req (db w) = (Resolved (DataEnvelope (DataRows rows)), d) →
  (∀ a, emitsOnly (λ _, True) (k a)) → (∀ e, emitsOnly (λ _, True) (h e)) →
  m w = tryCatch (bind (Database.write wreq) k) h (logged (DbCalled req) (withDb d w)) →
  ∃ l, added m w = DbCalled req :: DbCalled wreq :: l.
Proof.
  intros Hc Hr Hk Hh Hm. unfold added. rewrite Hm.
  set (w1 := logged (DbCalled req) (withDb d w)).
  assert (connected w1 = true) as Hc1 by done.
  assert (∀ l, drop (length (trace w)) (((trace w ++ [DbCalled req]) ++ [DbCalled wreq]) ++ l)
               = DbCalled req :: DbCalled wreq :: l) as Hdrop.
  { intros l. by rewrite <- !app_assoc, drop_app_length. }
  unfold tryCatch, Database.write, Database.isConnected, windowDb, bind.
  rewrite Hc1. simpl. rewrite Hc.
  change (db w1) with d. destruct (dbCall wreq d) as [[r|e|] d1].
  - destruct (trace_grows (k r) (logged (DbCalled wreq) (withDb d1 w1)) (Hk r)) as [l El].
    destruct (k r _) as [[a|e] w'] eqn:Ek; simpl in El.
    + exists l. simpl. rewrite El. apply Hdrop.
    + destruct (trace_grows (h e) w' (Hh e)) as [l' El'].
      exists (l ++ l'). rewrite El', El, <- app_assoc. apply Hdrop.
  - destruct (trace_grows (h e) (logged (DbCalled wreq) (withDb d1 w1)) (Hh e)) as [l El].
    exists l. rewrite El. apply Hdrop.
  - destruct (trace_grows (h Bare) (logged (DbCalled wreq) (withDb d1 w1)) (Hh Bare))
      as [l El].
    exists l. rewrite El. apply Hdrop.
Qed.
End Resolve.

(** Closes the two side conditions of [added_read_then_write]: what follows
    the write only adds events. *)
Ltac after_write :=
  [> intros ?; apply (everything_emits _ (λ _, True)); emits; try done;
     try (by apply emitsOnly_loadStats_apply)
   | intros ?; emits ].

Section FirstRecord.
Context {host : Host} {persist : Persistence}.
Import ToolExecutor.
Variables (params first : obj) (rest : list obj) (d : DbState) (w : World).
Hypothesis Hc : connected w = true.

Lemma deleteAppointment_first :
  dbCall (GetAll Appointments) (db w) = (Resolved (DataEnvelope (DataRows (first :: rest))), d) →
  isText (get first "patientName") = true →
  truthy (get params "patientName") = false → truthy (get params "date") = false →
  ∃ l, added (deleteAppointment params) w
       = DbCalled (GetAll Appointments) :: DbCalled (Delete Appointments (get first "id")) :: l.
Proof.
  intros Hr Hx Ht Hd.
  eapply added_read_then_write; [done | done | | |]; cycle 2.
  { unfold deleteAppointment, Database.getAppointments, tryCatch at 1, bind at 1.
    rewrite (read_resolved _ _ _ _ Hc Hr). unfold rowsOf.
    unfold bind at 1, liftRes. rewrite find_appointment_empty_term by done.
    unfold Database.deleteAppointment. reflexivity. }
  all: after_write.
Qed.

Lemma updateAppointment_first :
  dbCall (GetAll Appointments) (db w) = (Resolved (DataEnvelope (DataRows (first :: rest))), d) →
  isText (get first "patientName") = true →
  truthy (get params "patientName") = false → truthy (get params "date") = false →
  ∃ u l, added (updateAppointment params) w
         = DbCalled (GetAll Appointments)
           :: DbCalled (Update Appointments (get first "id") u) :: l.
Proof.
  intros Hr Hx Ht Hd. eexists.
  eapply added_read_then_write; [done | done | | |]; cycle 2.
  { unfold updateAppointment, Database.getAppointments, tryCatch at 1, bind at 1.
    rewrite (read_resolved _ _ _ _ Hc Hr). unfold rowsOf.
    unfold bind at 1, liftRes. rewrite find_appointment_empty_term by done.
    unfold Database.updateAppointment. reflexivity. }
  all: after_write.
Qed.

Lemma deleteDeadline_first :
  dbCall (GetAll Deadlines) (db w) = (Resolved (DataEnvelope (DataRows (first :: rest))), d) →
  isText (get first "title") = true → truthy (get params "title") = false →
  ∃ l, added (deleteDeadline params) w
       = DbCalled (GetAll Deadlines) :: DbCalled (Delete Deadlines (get first "id")) :: l.
Proof.
  intros Hr Hx Ht.
  eapply added_read_then_write; [done | done | | |]; cycle 2.
  { unfold deleteDeadline, Database.getDeadlines, tryCatch at 1, bind at 1.
    rewrite (read_resolved _ _ _ _ Hc Hr). unfold rowsOf.
    unfold bind at 1, liftRes. rewrite find_empty_term by done.
    unfold Database.deleteDeadline. reflexivity. }
  all: after_write.
Qed.

Lemma updateDeadline_first :
  dbCall (GetAll Deadlines) (db w) = (Resolved (DataEnvelope (DataRows (first :: rest))), d) →
  isText (get first "title") = true →
  truthy (jsOr (get params "title") (get params "oldTitle")) = false →
  ∃ u l, added (updateDeadline params) w
         = DbCalled (GetAll Deadlines) :: DbCalled (Update Deadlines (get first "id") u) :: l.
Proof.
  intros Hr Hx Ht. eexists.
  eapply added_read_then_write; [done | done | | |]; cycle 2.
  { unfold updateDeadline, Database.getDeadlines, tryCatch at 1, bind at 1.
    rewrite (read_resolved _ _ _ _ Hc Hr). unfold rowsOf. cbv zeta.
    unfold bind at 1, liftRes. rewrite find_empty_term by done.
    unfold Database.updateDeadline. reflexivity. }
  all: after_write.
Qed.

Lemma getDeadlineDetails_first :
  dbCall (GetAll Deadlines) (db w) = (Resolved (DataEnvelope (DataRows (first :: rest))), d) →
  isText (get first "title") = true → truthy (get params "title") = false →
  ∃ out, (getDeadlineDetails params w).1 = Ok out
         ∧ success out = true ∧ data out = DataObj first.
Proof.
  intros Hr Hx Ht. eexists.
  unfold getDeadlineDetails, Database.getDeadlines, tryCatch, bind.
  rewrite (read_resolved _ _ _ _ Hc Hr). unfold rowsOf, liftRes.
  rewrite find_empty_term by done. simpl. done.
Qed.

Lemma updateInventoryItem_first :
  dbCall (GetAll Inventory) (db w) = (Resolved (DataEnvelope (DataRows (first :: rest))), d) →
  isText (get first "name") = true →
  truthy (jsOr (get params "name") (get params "itemName")) = false →
  ∃ u l, added (updateInventoryItem params) w
         = DbCalled (GetAll Inventory) :: DbCalled (Update Inventory (get first "id") u) :: l.
Proof.
  intros Hr Hx Ht. eexists.
  eapply added_read_then_write; [done | done | | |]; cycle 2.
  { unfold updateInventoryItem, Database.getInventory, tryCatch at 1, bind at 1.
    rewrite (read_resolved _ _ _ _ Hc Hr). unfold rowsOf. cbv zeta.
    unfold bind at 1, liftRes. rewrite find_empty_term by done.
    unfold Database.updateInventoryItem. reflexivity. }
  all: after_write.
  all: try (by apply emitsOnly_loadInventory).
Qed.

Lemma deleteInventoryItem_first :
  dbCall (GetAll Inventory) (db w) = (Resolved (DataEnvelope (DataRows (first :: rest))), d) →
  isText (get first "name") = true →
  truthy (jsOr (get params "name") (get params "itemName")) = false →
  ∃ l, added (deleteInventoryItem params) w
       = DbCalled (GetAll Inventory) :: DbCalled (Delete Inventory (get first "id")) :: l.
Proof.
  intros Hr Hx Ht.
  eapply added_read_then_write; [done | done | | |]; cycle 2.
  { unfold deleteInventoryItem, Database.getInventory, tryCatch at 1, bind at 1.
    rewrite (read_resolved _ _ _ _ Hc Hr). unfold rowsOf. cbv zeta.
    unfold bind at 1, liftRes. rewrite find_empty_term by done.
    unfold Database.deleteInventoryItem. reflexivity. }
  all: after_write.
  all: try (by apply emitsOnly_loadInventory).
Qed.
End FirstRecord.

(** C10, as the code has it. Let the collaborator be reachable and the
    collection read start with [first], whose name (title) is text. With the
    search term absent or empty, and for the appointment handlers no [date]
    parameter either, each handler resolves to [first]: the delete and
    update handlers issue their call for the id of [first] right after the
    read, and the deadline detail lookup reports [first]. *)
Theorem empty_search_term_hits_first_record
    {host : Host} {persist : Persistence}
    (params first : obj) (rest : list obj) (d : DbState) (w : World) :
  connected w = true →
  (dbCall (GetAll Appointments) (db w) = (Resolved (DataEnvelope (DataRows (first :: rest))), d) →
   isText (get first "patientName") = true →
   truthy (get params "patientName") = false → truthy (get params "date") = false →
   (∃ l, added (ToolExecutor.deleteAppointment params) w
         = DbCalled (GetAll Appointments)
           :: DbCalled (Delete Appointments (get first "id")) :: l)
   ∧ (∃ u l, added (ToolExecutor.updateAppointment params) w
             = DbCalled (GetAll Appointments)
               :: DbCalled (Update Appointments (get first "id") u) :: l))
  ∧ (dbCall (GetAll Deadlines) (db w) = (Resolved (DataEnvelope (DataRows (first :: rest))), d) →
     isText (get first "title") = true →
     (truthy (get params "title") = false →
      (∃ l, added (ToolExecutor.deleteDeadline params) w
            = DbCalled (GetAll Deadlines)
              :: DbCalled (Delete Deadlines (get first "id")) :: l)
      ∧ (∃ out, (ToolExecutor.getDeadlineDetails params w).1 = Ok out
                ∧ success out = true ∧ data out = DataObj first))
     ∧ (truthy (jsOr (get params "title") (get params "oldTitle")) = false →
        ∃ u l, added (ToolExecutor.updateDeadline params) w
               = DbCalled (GetAll Deadlines)
                 :: DbCalled (Update Deadlines (get first "id") u) :: l))
  ∧ (dbCall (GetAll Inventory) (db w) = (Resolved (DataEnvelope (DataRows (first :: rest))), d) →
     isText (get first "name") = true →
     truthy (jsOr (get params "name") (get params "itemName")) = false →
     (∃ u l, added (ToolExecutor.updateInventoryItem params) w
             = DbCalled (GetAll Inventory)
               :: DbCalled (Update Inventory (get first "id") u) :: l)
     ∧ (∃ l, added (ToolExecutor.deleteInventoryItem params) w
             = DbCalled (GetAll Inventory)
               :: DbCalled (Delete Inventory (get first "id")) :: l)).
Proof.
  intros Hc. split; [| split].
  - intros Hr Hx Ht Hd. split.
    + by eapply deleteAppointment_first.
    + by eapply updateAppointment_first.
  - intros Hr Hx. split.
    + intros Ht. split.
      * by eapply deleteDeadline_first.
      * by eapply getDeadlineDetails_first.
    + intros Ht. by eapply updateDeadline_first.
  - intros Hr Hx Ht. split.
    + by eapply updateInventoryItem_first.
    + by eapply deleteInventoryItem_first.
Qed.

Lemma empty_search_term_hits_first_record_witness :
  (∃ l, added (ToolExecutor.deleteAppointment (host := utcHost) ∅) twoAppointmentsWorld
        = DbCalled (GetAll Appointments) :: DbCalled (Delete Appointments (JNum 1)) :: l)
  ∧ (∃ l, added (ToolExecutor.deleteDeadline (host := utcHost) ∅) twoAppointmentsWorld
          = DbCalled (GetAll Deadlines) :: DbCalled (Delete Deadlines (JNum 3)) :: l)
  ∧ (∃ l, added (ToolExecutor.deleteInventoryItem (host := utcHost) ∅) twoAppointmentsWorld
          = DbCalled (GetAll Inventory) :: DbCalled (Delete Inventory (JNum 5)) :: l).
Proof.
  split; [| split].
  - destruct (empty_search_term_hits_first_record (host := utcHost) (persist := specPersistence)
                ∅ (appointmentOn 1 "Jane" "2024-12-25") [appointmentOn 2 "Bob" "2025-01-01"]
                (db twoAppointmentsWorld) twoAppointmentsWorld eq_refl) as (H & _ & _).
    exact (proj1 (H eq_refl eq_refl eq_refl eq_refl)).
  - destruct (empty_search_term_hits_first_record (host := utcHost) (persist := specPersistence)
                ∅ (deadlineOn 3 "Audit" "2024-07-01") [deadlineOn 4 "Budget" "2024-07-02"]
                (db twoAppointmentsWorld) twoAppointmentsWorld eq_refl) as (_ & H & _).
    exact (proj1 (proj1 (H eq_refl eq_refl) eq_refl)).
  - destruct (empty_search_term_hits_first_record (host := utcHost) (persist := specPersistence)
                ∅ (<["id" := JNum 5]> (stockItem "Gloves" 5 10))
                [<["id" := JNum 6]> (stockItem "Masks" 50 10)]
                (db twoAppointmentsWorld) twoAppointmentsWorld eq_refl) as (_ & _ & H).
    exact (proj2 (H eq_refl eq_refl eq_refl)).
Defined.

(** C10 as stated fails for the appointment handlers: with no search term
    and two appointments on record, a [date] parameter that matches none of
    them makes [deleteAppointment] answer not found, and no delete is
    issued. *)
Lemma empty_term_with_date_counterexample :
  truthy (get dateOnlyParams "patientName") = false
  ∧ dbAppointments (db twoAppointmentsWorld)
    = [appointmentOn 1 "Jane" "2024-12-25"; appointmentOn 2 "Bob" "2025-01-01"]
  ∧ (ToolExecutor.deleteAppointment (host := utcHost) dateOnlyParams twoAppointmentsWorld).1
    = Ok (failed ("❌ Appointment not found for " +:+ dq +:+ "unknown" +:+ dq +:+ "."))
  ∧ added (ToolExecutor.deleteAppointment (host := utcHost) dateOnlyParams) twoAppointmentsWorld
    = [DbCalled (GetAll Appointments)].
Proof. repeat split. Qed.

(** ** The two date fields of a deadline *)

Section DeadlineDates.
Context {host : Host} {persist : Persistence}.
Import ToolExecutor.

Lemma updatesOnly_other Q e :
  (∀ k id updates, e ≠ DbCalled (Update k id updates)) → updatesOnly Q e.
Proof. intros H k id updates E. by destruct (H k id updates). Qed.

Lemma updatesOnly_update (Q : obj → Prop) k id updates :
  Q updates → updatesOnly Q (DbCalled (Update k id updates)).
Proof. by intros H k' id' u' [= <- <- <-]. Qed.

Lemma setIfTruthy_other key v (updates : obj) other :
  key ≠ other → setIfTruthy key v updates !! other = updates !! other.
Proof. intros Hne. unfold setIfTruthy. destruct (truthy v); by simplify_map_eq. Qed.

(** The partial record [updateDeadline] sends never carries a [dueDate]:
    a new date goes to the [date] field alone. *)
Lemma updateDeadline_never_sends_dueDate params :
  emitsOnly (updatesOnly (λ u, u !! "dueDate" = None)) (updateDeadline params).
Proof.
  unfold updateDeadline. emits.
  all: try (by apply updatesOnly_other).
  all: try (by apply emitsOnly_loadStats_apply; intros; apply updatesOnly_other).
  apply updatesOnly_update. by rewrite !setIfTruthy_other.
Qed.
End DeadlineDates.

(** C1, at the failing input: a deadline due on 2024-12-25 in both fields is
    moved with update_deadline to 2025-01-10. The handler succeeds, and the
    stored record then has [date] 2025-01-10 and [dueDate] 2024-12-25. *)
Theorem updateDeadline_leaves_dueDate_behind :
  map (λ r, (get r "date", get r "dueDate")) (dbDeadlines (db reportWorld))
  = [(JStr "2024-12-25", JStr "2024-12-25")]
  ∧ success <$> (match (ToolExecutor.updateDeadline (host := utcHost) moveParams reportWorld).1
                 with Ok out => Some out | Thrown _ => None end) = Some true
  ∧ map (λ r, (get r "date", get r "dueDate"))
        (dbDeadlines (db (ToolExecutor.updateDeadline (host := utcHost) moveParams reportWorld).2))
    = [(JStr "2025-01-10", JStr "2024-12-25")].
Proof. vm_compute. repeat split. Qed.

(** ** Entity mention linking *)

Lemma includes_cons (c : ascii) (s n : string) :
  includes s n = true → includes (String c s) n = true.
Proof. intros H. rewrite includes_unfold, H. apply orb_true_r. Qed.

Lemma includes_app_l (a b n : string) :
  includes a n = true → includes (a +:+ b) n = true.
Proof.
  intros H. destruct (includes_inv _ _ H) as (x & y & ->).
  rewrite !append_assoc. apply includes_app.
Qed.

Lemma includes_app_r (a b n : string) :
  includes b n = true → includes (a +:+ b) n = true.
Proof.
  intros H. induction a as [|c a IH]; [done |].
  rewrite append_cons. by apply includes_cons.
Qed.

Lemma anchor_marked kind id attr value matched :
  includes (anchor kind id attr value matched) marker = true.
Proof. reflexivity. Qed.

Lemma dropStr_nil n : dropStr n EmptyString = EmptyString.
Proof. by destruct n. Qed.

(** A global replace whose replacement text carries the marker either
    leaves the subject as it is or leaves the marker in the result. *)
Lemma replaceAll_unchanged_or_marked re replacer :
  (∀ m, includes (replacer m) marker = true) →
  ∀ s skip prev,
    replaceAll re replacer skip prev s = dropStr skip s
    ∨ includes (replaceAll re replacer skip prev s) marker = true.
Proof.
  intros Hrep. induction s as [|c s IH]; intros skip prev.
  - left. simpl. by rewrite dropStr_nil.
  - destruct skip as [|k]; simpl.
    + destruct (re prev (String c s)) as [m|].
      * right. by apply includes_app_l.
      * destruct (IH 0%nat (Some c)) as [E | E].
        -- left. rewrite E. by destruct s.
        -- right. by apply includes_cons.
    + apply IH.
Qed.

Lemma replaceAll_anchor re kind id attr value s :
  replaceAll re (anchor kind id attr value) 0 None s = s
  ∨ includes (replaceAll re (anchor kind id attr value) 0 None s) marker = true.
Proof.
  destruct (replaceAll_unchanged_or_marked re (anchor kind id attr value)
              (anchor_marked kind id attr value) s 0%nat None) as [E | E]; [left | by right].
  rewrite E. by destruct s.
Qed.

Section LinkSteps.
Context {host : Host}.

Lemma linkPatient_keepsOrMarks : keepsOrMarks linkPatient.
Proof.
  intros acc p. unfold linkPatient. cbv zeta.
  set (byName := match longerThan 2 _ with Some _ => _ | None => _ end).
  assert (byName = acc ∨ includes byName marker = true) as Hname.
  { subst byName. destruct (longerThan 2 _); [apply replaceAll_anchor | by left]. }
  destruct (truthy (get p "patient_number")); [| done].
  destruct (replaceAll_anchor (patientNumberRef (toStr (get p "patient_number")))
              "patient" (get p "id") "name"
              (escapeHtml (toStr (jsOr (jsOr (get p "name") (JStr EmptyString))
                 (JStr ("Patient #" +:+ toStr (get p "patient_number"))))))
              byName) as [E | E]; [| by right].
  by rewrite E.
Qed.

Lemma linkAppointment_keepsOrMarks : keepsOrMarks linkAppointment.
Proof.
  intros acc a. unfold linkAppointment. cbv zeta.
  destruct (truthy _); [| by left].
  destruct (_ && _); [apply replaceAll_anchor | by left].
Qed.

Lemma linkDeadline_keepsOrMarks : keepsOrMarks linkDeadline.
Proof.
  intros acc a. unfold linkDeadline.
  destruct (longerThan 3 _); [apply replaceAll_anchor | by left].
Qed.

Lemma linkInventoryItem_keepsOrMarks : keepsOrMarks linkInventoryItem.
Proof.
  intros acc a. unfold linkInventoryItem.
  destruct (longerThan 2 _); [apply replaceAll_anchor | by left].
Qed.

Lemma fold_keepsOrMarks step (l : list obj) acc :
  keepsOrMarks step →
  fold_left step l acc = acc ∨ includes (fold_left step l acc) marker = true.
Proof.
  intros Hstep. revert acc. induction l as [|x l IH]; intros acc; [by left |].
  simpl. destruct (IH (step acc x)) as [E | E]; [| by right].
  rewrite E. apply Hstep.
Qed.

(** The four passes either leave the text as it is or leave the marker. *)
Lemma linkMentions_unchanged_or_marked c s :
  linkMentions c s = s ∨ includes (linkMentions c s) marker = true.
Proof.
  unfold linkMentions.
  destruct (fold_keepsOrMarks linkInventoryItem (inventory c)
              (fold_left linkDeadline (deadlines c)
                 (fold_left linkAppointment (appointments c)
                    (fold_left linkPatient (patients c) s)))
              linkInventoryItem_keepsOrMarks) as [-> | E]; [| by right].
  destruct (fold_keepsOrMarks linkDeadline (deadlines c)
              (fold_left linkAppointment (appointments c)
                 (fold_left linkPatient (patients c) s))
              linkDeadline_keepsOrMarks) as [-> | E]; [| by right].
  destruct (fold_keepsOrMarks linkAppointment (appointments c)
              (fold_left linkPatient (patients c) s)
              linkAppointment_keepsOrMarks) as [-> | E]; [| by right].
  apply fold_keepsOrMarks, linkPatient_keepsOrMarks.
Qed.
End LinkSteps.

(** *** Restoring the placeholders *)

Lemma startsWith_before (m x r : string) (p : ascii) :
  charIn p m = false → startsWith m (x +:+ String p r) = true → startsWith m x = true.
Proof.
  revert x. induction m as [|a m IH]; intros x Hp H; [done |].
  simpl in Hp. apply orb_false_iff in Hp as [Hpa Hpm].
  destruct x as [|b x].
  - rewrite append_nil_l in H. simpl in H.
    apply andb_true_iff in H as [H _]. apply Ascii.eqb_eq in H as ->.
    by rewrite Ascii.eqb_refl in Hpa.
  - rewrite append_cons in H. simpl in *.
    apply andb_true_iff in H as [-> H]. by rewrite (IH x).
Qed.

Lemma includes_past (a : ascii) (m p y : string) :
  charIn a p = false →
  includes (p +:+ y) (String a m) = true → includes y (String a m) = true.
Proof.
  induction p as [|c p IH]; intros Hp H; [done |].
  simpl in Hp. apply orb_false_iff in Hp as [Hac Hp].
  rewrite append_cons, includes_unfold in H. simpl in H.
  rewrite Hac in H. simpl in H. by apply IH.
Qed.

(** An occurrence of [String a m] in [x ++ p ++ y] lies in [x] or in [y]
    when it can neither end inside [p] nor start there. *)
Lemma includes_around (a c : ascii) (m p x y : string) :
  charIn c (String a m) = false → charIn a (String c p) = false →
  includes (x +:+ String c p +:+ y) (String a m) = true →
  includes x (String a m) = true ∨ includes y (String a m) = true.
Proof.
  intros Hc Ha. induction x as [|b x IH]; intros H.
  - right. rewrite append_nil_l in H. by apply (includes_past a m (String c p)).
  - rewrite append_cons, includes_unfold in H.
    apply orb_true_iff in H as [H | H].
    + left. rewrite includes_unfold.
      rewrite <- append_cons in H. rewrite append_cons with (s := p) in H.
      by rewrite (startsWith_before _ _ _ _ Hc H).
    + destruct (IH H) as [E | E]; [left | by right]. by apply includes_cons.
Qed.

Lemma dropStr_app (p r : string) : dropStr (String.length p) (p +:+ r) = r.
Proof. induction p as [|c p IH]; [by destruct r | by rewrite append_cons]. Qed.

(** [replaceFirst] either finds nothing and gives the subject back, or
    replaces one occurrence of the pattern. *)
Lemma replaceFirst_cases (pat repl : string) s before :
  replaceFirst pat repl before s = before +:+ s
  ∨ ∃ x y, s = x +:+ pat +:+ y
           ∧ replaceFirst pat repl before s
             = (before +:+ x) +:+ getSubstitution pat (before +:+ x) y repl +:+ y.
Proof.
  assert (∀ t before, startsWith pat t = true →
            ∃ y, t = EmptyString +:+ pat +:+ y
                 ∧ before +:+ getSubstitution pat before (dropStr (String.length pat) t) repl
                   +:+ dropStr (String.length pat) t
                   = (before +:+ EmptyString)
                     +:+ getSubstitution pat (before +:+ EmptyString) y repl +:+ y) as Hhead.
  { intros t b E. destruct (startsWith_inv _ _ E) as [r ->]. exists r.
    by rewrite append_nil_l, append_nil_r, dropStr_app. }
  revert before. induction s as [|c s IH]; intros before.
  - simpl. destruct (startsWith pat EmptyString) eqn:E.
    + right. exists EmptyString. by apply Hhead.
    + left. by rewrite append_nil_r.
  - simpl. destruct (startsWith pat (String c s)) eqn:E.
    + right. exists EmptyString. by apply Hhead.
    + destruct (IH (before +:+ String c EmptyString)) as [H | (x & y & -> & H)].
      * left. rewrite H. by rewrite append_assoc.
      * right. exists (String c x), y. rewrite append_cons. split; [done |].
        rewrite H. by rewrite !append_assoc.
Qed.

Lemma charIn_app (c : ascii) (a b : string) :
  charIn c (a +:+ b) = charIn c a || charIn c b.
Proof.
  induction a as [|d a IH]; [done |].
  rewrite append_cons. simpl. by rewrite IH, orb_assoc.
Qed.

Lemma charIn_cons (c d : ascii) (s : string) :
  charIn c (String d s) = Ascii.eqb c d || charIn c s.
Proof. reflexivity. Qed.

Lemma pretty_N_char_digit (d : N) :
  (d < 10)%N → Ascii.eqb "e" (pretty_N_char d) = false.
Proof.
  intros Hd.
  assert (d = 0 ∨ d = 1 ∨ d = 2 ∨ d = 3 ∨ d = 4 ∨ d = 5 ∨ d = 6 ∨ d = 7 ∨ d = 8 ∨ d = 9)%N
    as Hcases by lia.
  repeat (destruct Hcases as [-> | Hcases]; [reflexivity |]). by subst.
Qed.

Lemma pretty_N_go_no_letter (x : N) (s : string) :
  charIn "e" s = false → charIn "e" (pretty_N_go x s) = false.
Proof.
  revert s. induction (N.lt_wf_0 x) as [x _ IH]; intros s Hs.
  assert (x = 0 ∨ 0 < x)%N as [-> | ?] by lia.
  - by rewrite pretty_N_go_0.
  - rewrite pretty_N_go_step by done. apply IH; [by apply N.div_lt |].
    rewrite charIn_cons, Hs, pretty_N_char_digit; [done |].
    by apply N.mod_lt.
Qed.

Lemma pretty_nat_no_letter (n : nat) : charIn "e" (pretty n) = false.
Proof.
  unfold pretty, pretty_nat, pretty, pretty_N.
  destruct (decide _); [done | by apply pretty_N_go_no_letter].
Qed.

Lemma placeholderOf_head index :
  placeholderOf index = String "_" ("_PLACEHOLDER_" +:+ pretty index +:+ "__").
Proof. reflexivity. Qed.

(** The first letter of the marker is no part of a placeholder. *)
Lemma placeholderOf_no_letter index : charIn "e" (placeholderOf index) = false.
Proof.
  unfold placeholderOf. by rewrite !charIn_app, pretty_nat_no_letter.
Qed.

(** Restoring a placeholder keeps the marker. *)
Lemma replaceFirst_keeps_marker index replacement s :
  includes s marker = true →
  includes (replaceFirst (placeholderOf index) replacement EmptyString s) marker = true.
Proof.
  intros H.
  destruct (replaceFirst_cases (placeholderOf index) replacement s EmptyString)
    as [-> | (x & y & -> & ->)]; [done |].
  rewrite append_nil_l.
  pose proof (placeholderOf_no_letter index) as Hno.
  rewrite placeholderOf_head in H, Hno.
  destruct (includes_around "e" "_" "ntity-link" _ x y eq_refl Hno H) as [E | E].
  - by apply includes_app_l.
  - by do 2 apply includes_app_r.
Qed.

Lemma restoreTags_keeps_marker entries s :
  Forall (λ e, ∃ index, e.1 = placeholderOf index) entries →
  includes s marker = true → includes (restoreTags entries s) marker = true.
Proof.
  unfold restoreTags. intros Hall. revert s.
  induction Hall as [|e entries [index He] _ IH]; intros s Hs; [done |].
  simpl. apply IH. rewrite He. by apply replaceFirst_keeps_marker.
Qed.

Lemma protectTags_cons skip index c s :
  protectTags skip index (String c s)
  = match skip with
    | S k => protectTags k index s
    | O =>
        match tagAt (String c s) with
        | Some tag =>
            let '(out, entries) := protectTags (String.length tag - 1) (S index) s in
            (placeholderOf index +:+ out, (placeholderOf index, tag) :: entries)
        | None =>
            let '(out, entries) := protectTags 0 index s in
            (String c out, entries)
        end
    end.
Proof. by destruct skip. Qed.

(** Every entry of the placeholder map is keyed by a placeholder. *)
Lemma protectTags_entries s :
  ∀ skip index,
    Forall (λ e, ∃ i, e.1 = placeholderOf i) (protectTags skip index s).2.
Proof.
  induction s as [|c s IH]; intros skip index; [by constructor |].
  rewrite protectTags_cons. destruct skip as [|k]; [| apply IH].
  destruct (tagAt (String c s)) as [tag|].
  - specialize (IH (String.length tag - 1)%nat (S index)).
    destruct (protectTags _ _ s) as [out entries]. simpl in *.
    constructor; [by exists index | done].
  - specialize (IH 0%nat index).
    by destruct (protectTags _ _ s) as [out entries].
Qed.

Lemma includes_nonempty s : includes s marker = true → String.eqb s EmptyString = false.
Proof. by destruct s. Qed.

Section Linkify.
Context {host : Host}.

(** A text that already carries the marker is returned as it is. *)
Lemma linkify_marked_unchanged c text :
  includes text marker = true → linkifyEntityMentions c text = text.
Proof.
  intros H. unfold linkifyEntityMentions.
  by rewrite (includes_nonempty _ H), H.
Qed.

(** Either an annotation was added and the result carries the marker, or
    the result is what the placeholder round trip makes of the text. *)
Lemma linkify_cases c text :
  includes (linkifyEntityMentions c text) marker = true
  ∨ linkifyEntityMentions c text
    = (if String.eqb text EmptyString then text
       else restoreTags (protectTags 0 0 text).2 (protectTags 0 0 text).1).
Proof.
  unfold linkifyEntityMentions.
  destruct (String.eqb text EmptyString); [by right |].
  destruct (includes text marker) eqn:Hm; [by left |].
  pose proof (protectTags_entries text 0 0) as Hall.
  destruct (protectTags 0 0 text) as [protected entries]. simpl in *.
  destruct (linkMentions_unchanged_or_marked c protected) as [-> | E]; [by right |].
  left. by apply restoreTags_keeps_marker.
Qed.

(** Linking is idempotent on every text whose markup comes back unchanged
    from the placeholder round trip. *)
Lemma linkify_idempotent_when_markup_survives c text :
  restoreTags (protectTags 0 0 text).2 (protectTags 0 0 text).1 = text →
  linkifyEntityMentions c (linkifyEntityMentions c text) = linkifyEntityMentions c text.
Proof.
  intros Hround.
  destruct (linkify_cases c text) as [H | H].
  - by apply linkify_marked_unchanged.
  - rewrite Hround in H. assert (linkifyEntityMentions c text = text) as E.
    { rewrite H. by destruct (String.eqb text EmptyString). }
    by rewrite !E.
Qed.
End Linkify.

(** With Jane cached, her name is annotated once, and a second run changes
    nothing. *)
Lemma linkify_boldJane_idempotent :
  linkifyEntityMentions (host := utcHost) (setPatients [janeRecord] emptyCache)
    (linkifyEntityMentions (host := utcHost) (setPatients [janeRecord] emptyCache) boldJane)
  = linkifyEntityMentions (host := utcHost) (setPatients [janeRecord] emptyCache) boldJane.
Proof.
  apply (linkify_idempotent_when_markup_survives (host := utcHost)). reflexivity.
Qed.

(** C8, at the failing input: a text that spells out a placeholder before
    its markup tags. No entity is cached, so nothing is annotated and the
    marker never appears; the first run moves a tag to the spelled-out
    placeholder, and the second run moves another one: running the linker
    on its own output does not give that output back. *)
Theorem linkify_twice_differs :
  linkifyEntityMentions (host := utcHost) emptyCache spelledPlaceholders
  = "<em> __PLACEHOLDER_1__<br>__PLACEHOLDER_1__a</em>"
  ∧ linkifyEntityMentions (host := utcHost) emptyCache
      (linkifyEntityMentions (host := utcHost) emptyCache spelledPlaceholders)
    = "<em> <br>__PLACEHOLDER_1____PLACEHOLDER_1__a</em>"
  ∧ linkifyEntityMentions (host := utcHost) emptyCache
      (linkifyEntityMentions (host := utcHost) emptyCache spelledPlaceholders)
    ≠ linkifyEntityMentions (host := utcHost) emptyCache spelledPlaceholders.
Proof. vm_compute. repeat split. discriminate. Qed.

(* ===================================================================== *)
(** * Further properties of the code *)
(* ===================================================================== *)

(** ** The dispatcher always answers *)

(** A handler's [catch] reads [error.message], so it answers only when what
    was thrown has a message. What the code throws itself always has one;
    what the collaborator rejects with is the collaborator's choice. *)

Lemma hasMessage_bindRes {A B} (r : Res A) (k : A → Res B) :
  hasMessage r → (∀ a, hasMessage (k a)) → hasMessage (bindRes r k).
Proof. intros Hr Hk. destruct r as [a|[text|]]; simpl; [apply Hk | done | done]. Qed.

Lemma hasMessage_findRes {A} (pred : A → Res bool) (l : list A) :
  (∀ x, hasMessage (pred x)) → hasMessage (findRes pred l).
Proof.
  intros Hpred. induction l as [|x l IH]; simpl; [done |].
  apply hasMessage_bindRes; [apply Hpred |]. by intros [].
Qed.

Lemma hasMessage_filterRes {A} (pred : A → Res bool) (l : list A) :
  (∀ x, hasMessage (pred x)) → hasMessage (filterRes pred l).
Proof.
  intros Hpred. induction l as [|x l IH]; simpl; [done |].
  apply hasMessage_bindRes; [apply Hpred |]. intros b.
  by apply hasMessage_bindRes.
Qed.

Section Messages.
Context {host : Host}.
Import ToolExecutor.

Lemma hasMessage_lowerOf v : hasMessage (lowerOf v).
Proof. unfold lowerOf. by destruct (jsOr v _). Qed.

Lemma hasMessage_mentions key term record : hasMessage (mentions key term record).
Proof.
  unfold mentions. apply hasMessage_bindRes; [apply hasMessage_lowerOf |]. intros text.
  by apply hasMessage_bindRes; [apply hasMessage_lowerOf |].
Qed.

Lemma hasMessage_appointmentMatches params a : hasMessage (appointmentMatches params a).
Proof. unfold appointmentMatches. by apply hasMessage_bindRes; [apply hasMessage_mentions |]. Qed.

Lemma hasMessage_mentionsEither key1 key2 query record :
  hasMessage (mentionsEither key1 key2 query record).
Proof.
  unfold mentionsEither. apply hasMessage_bindRes; [apply hasMessage_mentions |].
  intros []; [done | apply hasMessage_mentions].
Qed.

Lemma hasMessage_resultField result key : hasMessage (resultField result key).
Proof. by destruct result. Qed.
End Messages.

(** What a pure step throws has a message. *)
Ltac has_message :=
  repeat first
    [ apply hasMessage_findRes; intros ?
    | apply hasMessage_filterRes; intros ?
    | apply hasMessage_mentions
    | apply hasMessage_appointmentMatches
    | apply hasMessage_mentionsEither
    | apply hasMessage_resultField
    | apply hasMessage_lowerOf ].

Section Yields.
Context {host : Host} {persist : Persistence}.

Lemma yields_ret {A} (P : A → Prop) a : P a → yields P (ret a).
Proof. by intros H w. Qed.

Lemma yields_throw {A} (P : A → Prop) (text : string) : yields P (throw text).
Proof. by intros w. Qed.

Lemma yields_liftRes {A} (r : Res A) : hasMessage r → yields (λ _, True) (liftRes r).
Proof. intros Hr w. unfold liftRes. simpl. by destruct r. Qed.

Lemma yields_getWorld : yields (λ _, True) getWorld.
Proof. by intros w. Qed.

Lemma yields_modify f : yields (λ _, True) (modify f).
Proof. by intros w. Qed.

Lemma yields_emit e : yields (λ _, True) (emit e).
Proof. by intros w. Qed.

Lemma yields_isConnected : yields (λ _, True) Database.isConnected.
Proof. by intros w. Qed.

Lemma yields_bind_with {A B} (Q : A → Prop) (P : B → Prop) (m : M A) (k : A → M B) :
  yields Q m → (∀ a, Q a → yields P (k a)) → yields P (bind m k).
Proof.
  intros Hm Hk w. unfold bind. specialize (Hm w).
  destruct (m w) as [[a|[text|]] w1]; simpl in *; [by apply Hk | done | done].
Qed.

Lemma yields_bind {A B} (P : B → Prop) (m : M A) (k : A → M B) :
  yields (λ _, True) m → (∀ a, yields P (k a)) → yields P (bind m k).
Proof. intros Hm Hk. apply (yields_bind_with (λ _, True)); [done | by intros a _]. Qed.

Lemma yields_tryCatch {A} (P : A → Prop) (m : M A) (h : Err → M A) :
  yields P m → (∀ e, yields P (h e)) → yields P (tryCatch m h).
Proof.
  intros Hm Hh w. unfold tryCatch. specialize (Hm w).
  destruct (m w) as [[a|e] w1]; [done | apply Hh].
Qed.

(** A read wrapper catches whatever the collaborator rejects with. *)
Lemma yields_read req : yields (λ _, True) (Database.read req).
Proof.
  intros w. unfold Database.read, Database.isConnected, bind. simpl.
  destruct (connected w) eqn:E; simpl; [| done].
  unfold tryCatch, bind, windowDb. rewrite E.
  destruct (dbCall req (db w)) as [[r|e|] d]; simpl; done.
Qed.

(** A handler whose [catch] turns the message into an outcome answers,
    provided that its body throws nothing without a message. *)
Lemma answers_catch_message {A} (P : A → Prop) (m : M A) (a0 : string → A) :
  yields P m → (∀ text, P (a0 text)) →
  answers P (tryCatch m (withMessage (λ text, ret (a0 text)))).
Proof.
  intros Hm Hh w. unfold tryCatch, withMessage. specialize (Hm w).
  destruct (m w) as [[a|[text|]] w1]; simpl in *; [eauto | eauto | done].
Qed.

Section Collaborator.
Hypothesis Hmsg : rejectsWithMessage.

Lemma yields_windowDb req : yields (λ _, True) (windowDb req).
Proof.
  intros w. unfold windowDb. destruct (connected w); [| done].
  specialize (Hmsg req (db w)).
  destruct (dbCall req (db w)) as [[r|e|] d]; simpl in *; done.
Qed.

Lemma yields_write req : yields (λ _, True) (Database.write req).
Proof.
  unfold Database.write. apply yields_bind; [apply yields_isConnected |].
  intros c. destruct (negb c); [apply yields_throw | apply yields_windowDb].
Qed.
End Collaborator.
End Yields.

(** One step along the shape of the computation. *)
Ltac yields_step :=
  lazymatch goal with
  | |- yields _ (ret _) => apply yields_ret
  | |- yields _ (throw _) => apply yields_throw
  | |- yields _ (liftRes _) => apply yields_liftRes; has_message
  | |- yields _ (emit _) => apply yields_emit
  | |- yields _ (modify _) => apply yields_modify
  | |- yields _ getWorld => apply yields_getWorld
  | |- yields _ (bind _ _) => apply yields_bind; [| intros ?]
  | |- yields _ (tryCatch _ _) => apply yields_tryCatch; [| intros ?]
  | |- yields _ (if ?b then _ else _) => destruct b
  | |- yields _ (match ?x with _ => _ end) => destruct x
  | |- yields _ (let _ := _ in _) => cbv zeta
  | |- yields _ _ => first [apply yields_read | apply yields_isConnected]
  end.

(** A given outcome is spoken. *)
Ltac spoken :=
  split; [reflexivity | intros ?; first [discriminate | eexists; reflexivity]].

Section Spoken.
Context {host : Host} {persist : Persistence}.
Import ToolExecutor.

Lemma truthy_jsOr_r a b : truthy b = true → truthy (jsOr a b) = true.
Proof. intros Hb. unfold jsOr. by destruct (truthy a) eqn:E. Qed.

(** The views that the handlers redraw catch what their reads throw. *)
Lemma yields_loadStats_fetch : yields (λ _, True) loadStats_fetch.
Proof. unfold loadStats_fetch. repeat yields_step; exact I. Qed.

Lemma yields_loadStats_apply r : yields (λ _, True) (loadStats_apply r).
Proof. destruct r as [[[ps apps] dls] low]. unfold loadStats_apply. repeat yields_step. Qed.

Lemma yields_loadStats : yields (λ _, True) loadStats.
Proof.
  unfold loadStats. apply yields_tryCatch; [| intros ?; apply yields_emit].
  apply yields_bind; [apply yields_loadStats_fetch | apply yields_loadStats_apply].
Qed.

Lemma yields_showDateSchedule date isToday : yields (λ _, True) (showDateSchedule date isToday).
Proof. unfold showDateSchedule. repeat yields_step. Qed.

Lemma yields_loadDashboard : yields (λ _, True) loadDashboard.
Proof.
  unfold loadDashboard, renderCalendar, loadTodaySchedule.
  apply yields_bind.
  - apply yields_tryCatch.
    + apply yields_bind; [apply yields_loadStats_fetch | intros r; by apply yields_ret].
    + intros e. repeat yields_step; exact I.
  - intros fetched. apply yields_bind; [apply yields_emit |]. intros _.
    apply yields_bind; [apply yields_showDateSchedule |]. intros _.
    destruct fetched as [r|]; [| by apply yields_ret].
    apply yields_tryCatch; [apply yields_loadStats_apply | intros ?; apply yields_emit].
Qed.

Lemma yields_loadPatients : yields (λ _, True) loadPatients.
Proof. unfold loadPatients. repeat yields_step. Qed.

Lemma yields_loadInventory : yields (λ _, True) loadInventory.
Proof. unfold loadInventory. repeat yields_step. Qed.

Lemma yields_refreshSchedule dateStr : yields (λ _, True) (refreshSchedule dateStr).
Proof.
  unfold refreshSchedule, loadTodaySchedule.
  apply yields_bind; [apply yields_getWorld |]. intros w.
  destruct (strictEq _ _); apply yields_showDateSchedule.
Qed.

Lemma yields_convertDateVal dateStr : yields (λ _, True) (convertDateVal dateStr).
Proof.
  unfold convertDateVal.
  destruct dateStr; repeat yields_step; exact I.
Qed.

Section Collaborator.
Hypothesis Hmsg : rejectsWithMessage.

(** One step of a handler's body. *)
Ltac handler_step :=
  lazymatch goal with
  | |- yields _ _ =>
      first
        [ apply yields_loadStats
        | apply yields_loadDashboard
        | apply yields_loadPatients
        | apply yields_loadInventory
        | apply yields_refreshSchedule
        | apply yields_convertDateVal
        | apply (yields_windowDb Hmsg)
        | apply (yields_write Hmsg)
        | yields_step ]
  end.

(** What is left once the body is taken apart. *)
Ltac closes := first [exact I | spoken].

(** A handler that catches what its body throws. *)
Ltac speaks :=
  apply answers_catch_message; [| intros ?; spoken];
  repeat handler_step; closes.

Lemma handlers_speak (params : obj) :
  answers spoken (createPatient params)
  ∧ answers spoken (updatePatient params)
  ∧ answers spoken (deletePatient params)
  ∧ answers spoken (searchPatients params)
  ∧ answers spoken (listPatients)
  ∧ answers spoken (getPatient params)
  ∧ answers spoken (addPatientNote params)
  ∧ answers spoken (getPatientNotes params)
  ∧ answers spoken (createAppointment params)
  ∧ answers spoken (updateAppointment params)
  ∧ answers spoken (deleteAppointment params)
  ∧ answers spoken (listAppointments)
  ∧ answers spoken (getAppointmentsByDate params)
  ∧ answers spoken (createDeadline params)
  ∧ answers spoken (updateDeadline params)
  ∧ answers spoken (deleteDeadline params)
  ∧ answers spoken (listDeadlines)
  ∧ answers spoken (getDeadlineDetails params)
  ∧ answers spoken (getDeadlinesByDate params)
  ∧ answers spoken (searchDeadlines params)
  ∧ answers spoken (createInventoryItem params)
  ∧ answers spoken (updateInventoryItem params)
  ∧ answers spoken (deleteInventoryItem params)
  ∧ answers spoken (listInventoryItems params)
  ∧ answers spoken (searchInventory params)
  ∧ answers spoken (getLowStockItems params).
Proof.
  repeat split.
  - unfold createPatient. speaks.
  - unfold updatePatient. speaks.
  - unfold deletePatient. speaks.
  - unfold searchPatients. speaks.
  - unfold listPatients. speaks.
  - unfold getPatient. speaks.
  - unfold addPatientNote. speaks.
  - unfold getPatientNotes. speaks.
  - unfold createAppointment. apply answers_catch_message; [| intros ?; spoken].
    cbv zeta.
    apply (yields_bind_with
             (λ looked, match looked with inr out => spoken out | inl _ => True end)).
    + repeat handler_step; closes.
    + intros [name | out] Hout; [| by apply yields_ret].
      repeat handler_step; closes.
  - unfold updateAppointment. speaks.
  - unfold deleteAppointment. speaks.
  - unfold listAppointments. speaks.
  - unfold getAppointmentsByDate. speaks.
  - unfold createDeadline. speaks.
  - unfold updateDeadline. speaks.
  - unfold deleteDeadline. speaks.
  - unfold listDeadlines. speaks.
  - unfold getDeadlineDetails. speaks.
  - unfold getDeadlinesByDate. speaks.
  - unfold searchDeadlines. speaks.
  - unfold createInventoryItem. speaks.
  - unfold updateInventoryItem. speaks.
  - unfold deleteInventoryItem. speaks.
  - unfold listInventoryItems. speaks.
  - unfold searchInventory. speaks.
  - unfold getLowStockItems. speaks.
Qed.
End Collaborator.

(** X1. [ToolExecutor.execute] answers. For a collaborator that resolves
    its listings with arrays of records and rejects only with values that
    have a message (a handler's [catch] reads [error.message]), for every
    action name (a string) and every parameter object, [execute] returns an
    outcome and does not throw; the message of the outcome is truthy, and
    the message of a failed outcome starts with the cross mark. *)
Theorem execute_always_answers (toolName : string) (params : obj) (w : World) :
  listsAreArrays → rejectsWithMessage →
  ∃ out, (execute toolName params w).1 = Ok out
         ∧ truthy (message out) = true
         ∧ (success out = false → ∃ s, message out = JStr ("❌" +:+ s)).
Proof.
  intros _ Hmsg.
  destruct (handlers_speak Hmsg params) as
    (H1 & H2 & H3 & H4 & H5 & H6 & H7 & H8 & H9 & H10 & H11 & H12 & H13 & H14 & H15
     & H16 & H17 & H18 & H19 & H20 & H21 & H22 & H23 & H24 & H25 & H26).
  assert (∀ m : M Outcome, answers spoken m →
            ∃ out, (m w).1 = Ok out ∧ truthy (message out) = true
                   ∧ (success out = false → ∃ s, message out = JStr ("❌" +:+ s))) as Hm.
  { intros m H. destruct (H w) as (out & E & S1 & S2). by exists out. }
  unfold execute, bind, Database.isConnected. simpl.
  destruct (connected w); simpl; [| eexists; repeat split; eauto].
  destruct (selectCase (toLowerCase toolName)) as [[]|]; try (by apply Hm).
  - destruct (_ && _); by apply Hm.
  - eexists. split; [reflexivity |]. simpl. by rewrite !truthy_jsOr_r.
  - destruct (_ && _); [by apply Hm |]. eexists. split; [reflexivity |]. simpl.
    by rewrite !truthy_jsOr_r.
Qed.
End Spoken.

(** The collaborator of the specification resolves its listings with
    arrays. *)
Lemma specDb_lists_are_arrays : @listsAreArrays specPersistence.
Proof.
  intros req d r d' Hreq. simpl. unfold specDbCall.
  destruct (failing d); [done |]. destruct req; try done; intros [= <- _]; by eexists.
Qed.

(** The collaborator of the specification rejects with a message. *)
Lemma specDb_rejects_with_message : @rejectsWithMessage specPersistence.
Proof.
  intros req d. simpl. unfold specDbCall.
  destruct (failing d); [done |]. destruct req; simpl; try done.
  by destruct (List.find _ _).
Qed.

(** X1 at a collaborator that rejects every call: the new patient is not
    stored, and the dispatcher still answers. *)
Lemma execute_always_answers_witness :
  @listsAreArrays specPersistence
  ∧ @rejectsWithMessage specPersistence
  ∧ ∃ out, (ToolExecutor.execute (host := utcHost) "create_patient" janeParams failingWorld).1
           = Ok out
           ∧ truthy (message out) = true
           ∧ (success out = false → ∃ s, message out = JStr ("❌" +:+ s)).
Proof.
  split; [exact specDb_lists_are_arrays |].
  split; [exact specDb_rejects_with_message |].
  exact (execute_always_answers (host := utcHost) "create_patient" janeParams failingWorld
           specDb_lists_are_arrays specDb_rejects_with_message).
Defined.

(** Without a message there is no answer: when the collaborator rejects
    with [undefined], the [catch] of the handler throws itself and
    [execute] throws. *)
Lemma bare_rejection_is_thrown :
  (ToolExecutor.execute (host := utcHost) "create_patient" janeParams bareWorld).1
  = Thrown (Message (@hostTypeError utcHost "error.message")).
Proof. by vm_compute. Qed.

(** ** Validation before a write *)

Section Validation.
Context {host : Host} {persist : Persistence}.
Import ToolExecutor.

Lemma jsOr_text v : isText v = true → ∃ s, jsOr v (JStr EmptyString) = JStr s.
Proof.
  unfold jsOr. destruct v as [| |[]|n| |s]; simpl; try discriminate; eauto.
  - destruct (n =? 0); [eauto | discriminate].
  - destruct (String.eqb s EmptyString); simpl; eauto.
Qed.

Lemma truthy_jsOr_text v s :
  jsOr v (JStr EmptyString) = JStr s → truthy (JStr s) = truthy v.
Proof.
  unfold jsOr. destruct (truthy v) eqn:E; [by intros -> | by intros [= <-]].
Qed.

Lemma get_insert k v (o : obj) : get (<[k := v]> o) k = v.
Proof. unfold get. by rewrite lookup_insert_eq. Qed.

Lemma convertDate_empty : convertDate EmptyString = EmptyString.
Proof. reflexivity. Qed.

(** X2. The create handlers validate before they write. Without a patient
    name, an item name or a deadline title, and for an appointment without
    a patient name and number or without a date, they answer with the
    message that the field is required and leave the world as it was: no
    call reaches the collaborator and nothing is redrawn. *)
Theorem create_without_name_is_refused (params : obj) (w : World) :
  (truthy (jsOr (get params "patientName") (get params "name")) = false →
   createPatient params w = (Ok (failed "❌ Patient name is required."), w))
  ∧ (truthy (jsOr (get params "name") (get params "itemName")) = false →
     createInventoryItem params w = (Ok (failed "❌ Item name is required."), w))
  ∧ (isText (jsOr (get params "date") (get params "dueDate")) = true →
     truthy (jsOr (get params "title") (get params "description")) = false →
     createDeadline params w = (Ok (failed "❌ Deadline title is required."), w))
  ∧ (isText (get params "date") = true →
     truthy (jsOr (get params "patientName") (get params "patient")) = false →
     truthy (get params "patientNumber") = false →
     createAppointment params w
     = (Ok (failed "❌ Patient name or number is required."), w))
  ∧ (truthy (jsOr (get params "patientName") (get params "patient")) = true →
     truthy (get params "date") = false →
     createAppointment params w = (Ok (failed "❌ Appointment date is required."), w)).
Proof.
  repeat split.
  - intros Hn. unfold createPatient, tryCatch. cbv zeta.
    by rewrite get_insert, truthy_jsOr_empty, Hn.
  - intros Hn. unfold createInventoryItem, tryCatch. cbv zeta.
    by rewrite truthy_jsOr_empty, Hn.
  - intros Hd Ht. destruct (jsOr_text _ Hd) as [s Hs].
    unfold createDeadline, tryCatch. rewrite Hs.
    change (convertDateVal (JStr s)) with (ret (JStr (convertDate s))).
    rewrite bind_ret. cbv zeta beta. by rewrite truthy_jsOr_empty, Ht.
  - intros Hd Hn Hnum. destruct (jsOr_text _ Hd) as [s Hs].
    unfold createAppointment, tryCatch. cbv zeta.
    rewrite Hnum. simpl andb. cbv iota. rewrite bind_ret. cbv beta iota.
    rewrite Hs. change (convertDateVal (JStr s)) with (ret (JStr (convertDate s))).
    rewrite bind_ret. cbv beta. by rewrite truthy_jsOr_empty, Hn.
  - intros Hn Hd. unfold createAppointment, tryCatch. cbv zeta.
    rewrite truthy_jsOr_empty, Hn, andb_false_r. cbv iota. rewrite bind_ret. cbv beta iota.
    rewrite (jsOr_falsy _ _ Hd).
    change (convertDateVal (JStr EmptyString)) with (ret (JStr (convertDate EmptyString))).
    rewrite bind_ret. cbv beta. by rewrite truthy_jsOr_empty, Hn, convertDate_empty.
Qed.
End Validation.

(** X2 on the empty parameter bag, and on a patient name without a date. *)
Lemma create_without_name_is_refused_witness :
  ToolExecutor.createPatient (host := utcHost) ∅ emptyWorld
  = (Ok (failed "❌ Patient name is required."), emptyWorld)
  ∧ ToolExecutor.createInventoryItem (host := utcHost) ∅ emptyWorld
    = (Ok (failed "❌ Item name is required."), emptyWorld)
  ∧ ToolExecutor.createDeadline (host := utcHost) ∅ emptyWorld
    = (Ok (failed "❌ Deadline title is required."), emptyWorld)
  ∧ ToolExecutor.createAppointment (host := utcHost) ∅ emptyWorld
    = (Ok (failed "❌ Patient name or number is required."), emptyWorld)
  ∧ ToolExecutor.createAppointment (host := utcHost) namedJane emptyWorld
    = (Ok (failed "❌ Appointment date is required."), emptyWorld).
Proof.
  destruct (create_without_name_is_refused (host := utcHost) (persist := specPersistence)
              ∅ emptyWorld) as (H1 & H2 & H3 & H4 & _).
  destruct (create_without_name_is_refused (host := utcHost) (persist := specPersistence)
              namedJane emptyWorld) as (_ & _ & _ & _ & H5).
  exact (conj (H1 eq_refl) (conj (H2 eq_refl) (conj (H3 eq_refl eq_refl)
           (conj (H4 eq_refl eq_refl eq_refl) (H5 eq_refl eq_refl))))).
Defined.

(** ** A collaborator that rejects *)

Section Rejections.
Context {host : Host} {persist : Persistence}.
Import ToolExecutor.
Variables (params : obj) (w : World) (e : string) (d : DbState).
Hypothesis Hc : connected w = true.

Lemma write_rejected {A} req (k : JsData → M A) (h : Err → M A) :
  dbCall req (db w) = (Rejected e, d) →
  tryCatch (bind (Database.write req) k) h w = h e (logged (DbCalled req) (withDb d w)).
Proof.
  intros Hr. unfold tryCatch, Database.write, Database.isConnected, windowDb, bind.
  rewrite Hc. simpl. by rewrite ?Hc, Hr.
Qed.

(** X3. When the collaborator rejects a create request with the reason [e],
    the create handler whose required fields are given answers with a
    failure whose message ends in [e]. Its one create call is all that
    happened: neither the cache nor a table is refreshed afterwards. *)
Theorem rejected_create_is_reported :
  (∀ k record, dbCall (Create k record) (db w) = (Rejected e, d)) →
  (truthy (jsOr (get params "patientName") (get params "name")) = true →
   ∃ record,
     createPatient params w
     = (Ok (failed ("❌ Failed to create patient: " +:+ e)),
        logged (DbCalled (Create Patients record)) (withDb d w)))
  ∧ (truthy (jsOr (get params "name") (get params "itemName")) = true →
     ∃ record,
       createInventoryItem params w
       = (Ok (failed ("❌ Failed to create inventory item: " +:+ e)),
          logged (DbCalled (Create Inventory record)) (withDb d w)))
  ∧ (isText (jsOr (get params "date") (get params "dueDate")) = true →
     truthy (jsOr (get params "title") (get params "description")) = true →
     ∃ record,
       createDeadline params w
       = (Ok (failed ("❌ Failed to create deadline: " +:+ e)),
          logged (DbCalled (Create Deadlines record)) (withDb d w)))
  ∧ (∀ s, get params "date" = JStr s → truthy (JStr s) = true →
     truthy (jsOr (get params "patientName") (get params "patient")) = true →
     ∃ record,
       createAppointment params w
       = (Ok (failed ("❌ Failed to schedule appointment: " +:+ e)),
          logged (DbCalled (Create Appointments record)) (withDb d w))).
Proof.
  intros Hrej. repeat split.
  - intros Hn. eexists. unfold createPatient. cbv zeta.
    rewrite get_insert, truthy_jsOr_empty, Hn. simpl negb. cbv iota.
    unfold Database.createPatient. by rewrite (write_rejected _ _ _ (Hrej _ _)).
  - intros Hn. eexists. unfold createInventoryItem. cbv zeta.
    rewrite truthy_jsOr_empty, Hn. simpl negb. cbv iota.
    unfold Database.createInventoryItem. by rewrite (write_rejected _ _ _ (Hrej _ _)).
  - intros Hd Ht. destruct (jsOr_text _ Hd) as [s Hs]. eexists.
    unfold createDeadline. rewrite Hs.
    change (convertDateVal (JStr s)) with (ret (JStr (convertDate s))).
    rewrite bind_ret. cbv zeta beta. rewrite truthy_jsOr_empty, Ht. simpl negb. cbv iota.
    unfold Database.createDeadline. by rewrite (write_rejected _ _ _ (Hrej _ _)).
  - intros s Hd Hs Hn. eexists. unfold createAppointment. cbv zeta.
    rewrite Hd, jsOr_str_empty, !truthy_jsOr_empty, Hn, andb_false_r.
    cbv iota. rewrite bind_ret. cbv beta iota.
    change (convertDateVal (JStr s)) with (ret (JStr (convertDate s))).
    rewrite bind_ret. cbv beta.
    rewrite (convertDate_truthy s Hs), truthy_jsOr_empty, Hn. simpl negb. cbv iota.
    unfold Database.createAppointment. by rewrite (write_rejected _ _ _ (Hrej _ _)).
Qed.

(** X4. A read that fails looks like an empty collection. When the
    collaborator rejects the read of a collection, the handlers that find
    their target by scanning it (deleting or updating an appointment,
    deleting, updating or showing a deadline, updating or deleting an
    inventory item) answer that the record was not found; the read is the
    only call, and the reason of the rejection is lost. *)
Theorem failed_read_reads_as_not_found :
  (∀ k, dbCall (GetAll k) (db w) = (Rejected e, d)) →
  let after k := logged (DbCalled (GetAll k)) (withDb d w) in
  deleteAppointment params w
  = (Ok (failed ("❌ Appointment not found for " +:+ dq
                 +:+ toStr (jsOr (get params "patientName") (JStr "unknown"))
                 +:+ dq +:+ ".")), after Appointments)
  ∧ updateAppointment params w = (Ok (failed "❌ Appointment not found."), after Appointments)
  ∧ deleteDeadline params w
    = (Ok (failed ("❌ Deadline " +:+ dq +:+ toStr (jsOr (get params "title") (JStr "unknown"))
                   +:+ dq +:+ " not found.")), after Deadlines)
  ∧ updateDeadline params w
    = (Ok (failed ("❌ Deadline " +:+ dq
                   +:+ toStr (jsOr (get params "title") (get params "oldTitle"))
                   +:+ dq +:+ " not found.")), after Deadlines)
  ∧ getDeadlineDetails params w
    = (Ok (failed ("❌ Deadline " +:+ dq +:+ toStr (get params "title") +:+ dq
                   +:+ " not found.")), after Deadlines)
  ∧ updateInventoryItem params w
    = (Ok (failed ("❌ Inventory item " +:+ dq
                   +:+ toStr (jsOr (get params "name") (get params "itemName"))
                   +:+ dq +:+ " not found.")), after Inventory)
  ∧ deleteInventoryItem params w
    = (Ok (failed ("❌ Inventory item " +:+ dq
                   +:+ toStr (jsOr (get params "name") (get params "itemName"))
                   +:+ dq +:+ " not found.")), after Inventory).
Proof.
  intros Hrej after. repeat split.
  - unfold deleteAppointment, Database.getAppointments, tryCatch, bind.
    by rewrite (read_rejected _ _ _ _ Hc (Hrej _)).
  - unfold updateAppointment, Database.getAppointments, tryCatch, bind.
    by rewrite (read_rejected _ _ _ _ Hc (Hrej _)).
  - unfold deleteDeadline, Database.getDeadlines, tryCatch, bind.
    by rewrite (read_rejected _ _ _ _ Hc (Hrej _)).
  - unfold updateDeadline, Database.getDeadlines, tryCatch, bind.
    by rewrite (read_rejected _ _ _ _ Hc (Hrej _)).
  - unfold getDeadlineDetails, Database.getDeadlines, tryCatch, bind.
    by rewrite (read_rejected _ _ _ _ Hc (Hrej _)).
  - unfold updateInventoryItem, Database.getInventory, tryCatch, bind.
    by rewrite (read_rejected _ _ _ _ Hc (Hrej _)).
  - unfold deleteInventoryItem, Database.getInventory, tryCatch, bind.
    by rewrite (read_rejected _ _ _ _ Hc (Hrej _)).
Qed.

(** X5. When the collaborator rejects the read of a collection, the four
    list actions report success with the message that nothing was found,
    and no data. *)
Theorem failed_read_lists_nothing :
  (∀ k, dbCall (GetAll k) (db w) = (Rejected e, d)) →
  let after k := logged (DbCalled (GetAll k)) (withDb d w) in
  listPatients w = (Ok (succeeded "📋 **Patients:** None found." DataNone), after Patients)
  ∧ listAppointments w
    = (Ok (succeeded "📅 **Appointments:** None scheduled." DataNone), after Appointments)
  ∧ listDeadlines w = (Ok (succeeded "⏰ **Deadlines:** None set." DataNone), after Deadlines)
  ∧ listInventoryItems params w
    = (Ok (succeeded "📦 **Inventory:** No items found." DataNone), after Inventory).
Proof.
  intros Hrej after. repeat split.
  - unfold listPatients, Database.getPatients, tryCatch, bind.
    by rewrite (read_rejected _ _ _ _ Hc (Hrej _)).
  - unfold listAppointments, Database.getAppointments, tryCatch, bind.
    by rewrite (read_rejected _ _ _ _ Hc (Hrej _)).
  - unfold listDeadlines, Database.getDeadlines, tryCatch, bind.
    by rewrite (read_rejected _ _ _ _ Hc (Hrej _)).
  - unfold listInventoryItems, Database.getInventory, tryCatch, bind.
    by rewrite (read_rejected _ _ _ _ Hc (Hrej _)).
Qed.
End Rejections.

(** X3 for a patient named Jane on the failing collaborator. *)
Lemma rejected_create_is_reported_witness :
  connected failingWorld = true
  ∧ ∃ record,
      ToolExecutor.createPatient (host := utcHost) namedJane failingWorld
      = (Ok (failed ("❌ Failed to create patient: " +:+ "persistence error")),
         logged (DbCalled (Create Patients record)) (@withDb specPersistence failingDb failingWorld)).
Proof.
  split; [reflexivity |].
  destruct (rejected_create_is_reported (host := utcHost) (persist := specPersistence)
              namedJane failingWorld "persistence error" failingDb eq_refl
              (λ k record, eq_refl)) as (H & _).
  exact (H eq_refl).
Defined.

(** X4 for deleting a deadline on the failing collaborator. *)
Lemma failed_read_reads_as_not_found_witness :
  ToolExecutor.deleteDeadline (host := utcHost) reportParams failingWorld
  = (Ok (failed ("❌ Deadline " +:+ dq
                 +:+ toStr (jsOr (get reportParams "title") (JStr "unknown"))
                 +:+ dq +:+ " not found.")),
     logged (DbCalled (GetAll Deadlines)) (@withDb specPersistence failingDb failingWorld)).
Proof.
  destruct (failed_read_reads_as_not_found (host := utcHost) (persist := specPersistence)
              reportParams failingWorld "persistence error" failingDb eq_refl
              (λ k, eq_refl)) as (_ & _ & H & _).
  exact H.
Defined.

(** X5 for listing patients on the failing collaborator. *)
Lemma failed_read_lists_nothing_witness :
  ToolExecutor.listPatients (host := utcHost) failingWorld
  = (Ok (succeeded "📋 **Patients:** None found." DataNone),
     logged (DbCalled (GetAll Patients)) (@withDb specPersistence failingDb failingWorld)).
Proof.
  destruct (failed_read_lists_nothing (host := utcHost) (persist := specPersistence)
              ∅ failingWorld "persistence error" failingDb eq_refl
              (λ k, eq_refl)) as (H & _).
  exact H.
Defined.

(** ** Actions that only read *)

Section OnlyReads.
Context {host : Host} {persist : Persistence}.
Import ToolExecutor.

Lemma onlyReads_pure {A} (m : M A) : (∀ w, (m w).2 = w) → onlyReads m.
Proof.
  intros Hm w. rewrite Hm. split; [done | split; [done |]].
  exists []. by rewrite app_nil_r.
Qed.

Lemma onlyReads_ret {A} (a : A) : onlyReads (ret a).
Proof. by apply onlyReads_pure. Qed.

Lemma onlyReads_throw {A} e : onlyReads (throw (A := A) e).
Proof. by apply onlyReads_pure. Qed.

Lemma onlyReads_liftRes {A} (r : Res A) : onlyReads (liftRes r).
Proof. by apply onlyReads_pure. Qed.

Lemma onlyReads_bind {A B} (m : M A) (k : A → M B) :
  onlyReads m → (∀ a, onlyReads (k a)) → onlyReads (bind m k).
Proof.
  intros Hm Hk w. unfold bind.
  destruct (Hm w) as (C1 & S1 & l1 & E1 & P1). destruct (m w) as [[a|e] w1]; simpl in *.
  - destruct (Hk a w1) as (C2 & S2 & l2 & E2 & P2).
    rewrite C2, S2, E2, C1, S1, E1. split; [done | split; [done |]].
    exists (l1 ++ l2). rewrite app_assoc. split; [done | by apply Forall_app].
  - eauto.
Qed.

Lemma onlyReads_tryCatch {A} (m : M A) (h : Err → M A) :
  onlyReads m → (∀ e, onlyReads (h e)) → onlyReads (tryCatch m h).
Proof.
  intros Hm Hh w. unfold tryCatch.
  destruct (Hm w) as (C1 & S1 & l1 & E1 & P1). destruct (m w) as [[a|e] w1]; simpl in *.
  - eauto.
  - destruct (Hh e w1) as (C2 & S2 & l2 & E2 & P2).
    rewrite C2, S2, E2, C1, S1, E1. split; [done | split; [done |]].
    exists (l1 ++ l2). rewrite app_assoc. split; [done | by apply Forall_app].
Qed.

Lemma onlyReads_withMessage {A} (h : string → M A) error :
  (∀ e, onlyReads (h e)) → onlyReads (withMessage h error).
Proof. intros Hh. destruct error as [e|]; [apply Hh | apply onlyReads_throw]. Qed.

Lemma onlyReads_windowDb req : isWrite req = false → onlyReads (windowDb req).
Proof.
  intros Hreq w. unfold windowDb. destruct (connected w).
  - destruct (dbCall req (db w)) as [[r|e|] d]; (split; [done | split; [done |]]);
      exists [DbCalled req]; (split; [done |]); constructor; try done; by exists req.
  - split; [done | split; [done |]]. exists []. by rewrite app_nil_r.
Qed.

Lemma onlyReads_read req : isWrite req = false → onlyReads (Database.read req).
Proof.
  intros Hreq. unfold Database.read.
  apply onlyReads_bind; [by apply onlyReads_pure | intros c].
  destruct (negb c); [apply onlyReads_ret |].
  apply onlyReads_tryCatch; [| intros ?; apply onlyReads_ret].
  apply onlyReads_bind; [by apply onlyReads_windowDb | intros ?; apply onlyReads_ret].
Qed.
End OnlyReads.

(** One step along the shape of the computation. *)
Ltac reads_step :=
  lazymatch goal with
  | |- onlyReads (ret _) => apply onlyReads_ret
  | |- onlyReads (throw _) => apply onlyReads_throw
  | |- onlyReads (liftRes _) => apply onlyReads_liftRes
  | |- onlyReads (windowDb _) => apply onlyReads_windowDb; reflexivity
  | |- onlyReads (Database.read _) => apply onlyReads_read; reflexivity
  | |- onlyReads (bind _ _) => apply onlyReads_bind; [| intros ?]
  | |- onlyReads (tryCatch _ _) => apply onlyReads_tryCatch; [| intros ?]
  | |- onlyReads (withMessage _ _) => apply onlyReads_withMessage; intros ?
  | |- onlyReads (if ?b then _ else _) => destruct b
  | |- onlyReads (match ?x with _ => _ end) => destruct x
  | |- onlyReads (let _ := _ in _) => cbv zeta
  end.

Section LookUps.
Context {host : Host} {persist : Persistence}.
Import ToolExecutor.

Lemma onlyReads_convertDateVal v : onlyReads (convertDateVal v).
Proof. unfold convertDateVal. repeat reads_step. Qed.

Ltac reads :=
  unfold Database.getPatients, Database.searchPatients, Database.getAppointments,
    Database.getDeadlines, Database.getInventory, Database.getLowStock;
  repeat first [apply onlyReads_convertDateVal | reads_step].

Lemma lookups_only_read (params : obj) (m : Method) :
  looksUp m = true →
  onlyReads (match m with
             | ToSearchPatients => searchPatients params
             | ToListPatients => listPatients
             | ToGetPatient => getPatient params
             | ToGetPatientNotes => getPatientNotes params
             | ToListAppointments => listAppointments
             | ToGetAppointmentsByDate => getAppointmentsByDate params
             | ToListDeadlines => listDeadlines
             | ToGetDeadlineDetails => getDeadlineDetails params
             | ToGetDeadlinesByDate => getDeadlinesByDate params
             | ToSearchDeadlines => searchDeadlines params
             | ToListInventoryItems => listInventoryItems params
             | ToSearchInventory => searchInventory params
             | ToGetLowStockItems => getLowStockItems params
             | _ => answerQuestion params
             end).
Proof.
  destruct m; try discriminate; intros _.
  - unfold searchPatients. reads.
  - unfold listPatients. reads.
  - unfold getPatient. reads.
  - unfold getPatientNotes. reads.
  - unfold listAppointments. reads.
  - unfold getAppointmentsByDate. reads.
  - unfold listDeadlines. reads.
  - unfold getDeadlineDetails. reads.
  - unfold getDeadlinesByDate. reads.
  - unfold searchDeadlines. reads.
  - unfold listInventoryItems. reads.
  - unfold searchInventory. reads.
  - unfold getLowStockItems. reads.
  - unfold answerQuestion. reads.
Qed.

(** X6. The actions that list, search or look up only read. Every event
    they add to the trace is a call of the collaborator that is not a
    create, update, delete or note; they leave [DataCache] and the selected
    calendar date untouched. *)
Theorem lookup_actions_only_read (toolName : string) (params : obj) (m : Method) (w : World) :
  selectCase (toLowerCase toolName) = Some m → looksUp m = true →
  Forall isReadCall (added (execute toolName params) w)
  ∧ cache (execute toolName params w).2 = cache w
  ∧ selectedCalendarDate (execute toolName params w).2 = selectedCalendarDate w.
Proof.
  intros Hsel Hm.
  assert (onlyReads (execute toolName params)) as H.
  { unfold execute. apply onlyReads_bind; [by apply onlyReads_pure | intros c].
    destruct (negb c); [apply onlyReads_ret |]. rewrite Hsel.
    pose proof (lookups_only_read params m Hm) as H. by destruct m. }
  destruct (H w) as (C & S & l & E & P). split; [| done].
  unfold added. by rewrite E, drop_app_length.
Qed.
End LookUps.

(** X6 for listing the nine deadlines. *)
Lemma lookup_actions_only_read_witness :
  Forall isReadCall (added (ToolExecutor.execute (host := utcHost) "LIST_DEADLINES" ∅) nineWorld)
  ∧ cache (ToolExecutor.execute (host := utcHost) "LIST_DEADLINES" ∅ nineWorld).2
    = cache nineWorld
  ∧ selectedCalendarDate (ToolExecutor.execute (host := utcHost) "LIST_DEADLINES" ∅ nineWorld).2
    = selectedCalendarDate nineWorld.
Proof.
  apply (lookup_actions_only_read (host := utcHost) "LIST_DEADLINES" ∅
           ToolExecutor.ToListDeadlines nineWorld); reflexivity.
Defined.

(** ** The dashboard counters *)

Section StatsStatus.
Context {host : Host} {persist : Persistence}.

(** A read wrapper always answers with rows: it swallows every failure, and
    it touches neither the cache nor the selected date. *)
Lemma read_answers req w :
  ∃ rows w1, Database.read req w = (Ok rows, w1)
             ∧ cache w1 = cache w ∧ selectedCalendarDate w1 = selectedCalendarDate w
             ∧ connected w1 = connected w.
Proof.
  unfold Database.read, tryCatch, windowDb, Database.isConnected, bind. simpl.
  destruct (connected w) eqn:Hc; simpl; [| by eauto 10].
  rewrite Hc. destruct (dbCall req (db w)) as [[r|e|] d]; simpl; by eauto 10.
Qed.

Lemma loadStats_fetch_answers w :
  ∃ r w1, loadStats_fetch w = (Ok r, w1)
          ∧ cache w1 = cache w ∧ selectedCalendarDate w1 = selectedCalendarDate w.
Proof.
  unfold loadStats_fetch, Database.getPatients, Database.getAppointments,
    Database.getDeadlines, Database.getLowStock, bind.
  destruct (read_answers (GetAll Patients) w) as (ps & w1 & -> & C1 & S1 & _).
  destruct (read_answers (GetAll Appointments) w1) as (apps & w2 & -> & C2 & S2 & _).
  destruct (read_answers (GetAll Deadlines) w2) as (dls & w3 & -> & C3 & S3 & _).
  destruct (read_answers GetLowStock w3) as (low & w4 & -> & C4 & S4 & _).
  eexists _, _. split; [reflexivity |]. split; congruence.
Qed.

Lemma loadStats_apply_runs r w :
  (loadStats_apply r w).1 = Ok tt
  ∧ last (trace (loadStats_apply r w).2) = Some (ConnectionStatusShown true)
  ∧ inventory (cache (loadStats_apply r w).2) = inventory (cache w)
  ∧ selectedCalendarDate (loadStats_apply r w).2 = selectedCalendarDate w.
Proof.
  destruct r as [[[ps apps] dls] low]. simpl. by rewrite last_snoc.
Qed.

Lemma loadStats_runs w :
  ∃ r w1, loadStats_fetch w = (Ok r, w1)
          ∧ cache w1 = cache w ∧ selectedCalendarDate w1 = selectedCalendarDate w
          ∧ (loadStats w).2 = (loadStats_apply r w1).2.
Proof.
  destruct (loadStats_fetch_answers w) as (r & w1 & E & C & S).
  exists r, w1. repeat split; try done.
  unfold loadStats, tryCatch, bind. rewrite E.
  destruct (loadStats_apply_runs r w1) as (E1 & _).
  by destruct (loadStats_apply r w1) as [[[]|] w2].
Qed.

Lemma loadDashboard_runs w :
  ∃ r w1, loadStats_fetch w = (Ok r, w1)
          ∧ cache w1 = cache w
          ∧ (loadDashboard w).2
            = (loadStats_apply r
                 (logged (ScheduleShown (JStr todayISO) true)
                    (withSelected (JStr todayISO) (logged CalendarRendered w1)))).2.
Proof.
  destruct (loadStats_fetch_answers w) as (r & w1 & E & C & S).
  exists r, w1. repeat split; try done.
  unfold loadDashboard, tryCatch, bind. rewrite E. simpl.
  match goal with
  | |- context [loadStats_apply r ?w2] =>
      destruct (loadStats_apply_runs r w2) as (E1 & _);
      by destruct (loadStats_apply r w2) as [[[]|] w3]
  end.
Qed.

(** X7. With a collaborator that resolves its listings with arrays of
    records, [loadStats] ends by showing the connection as up, on its own
    and within [loadDashboard], also when the collaborator rejects a read
    or is out of reach: the read wrappers swallow these failures, so the
    catch branch of [loadStats] does not run. With no collaborator in reach
    it shows four zero counters and then the connected status. *)
Theorem loadStats_always_shows_connected (w : World) :
  listsAreArrays →
  last (trace (loadStats w).2) = Some (ConnectionStatusShown true)
  ∧ last (trace (loadDashboard w).2) = Some (ConnectionStatusShown true)
  ∧ (connected w = false →
     added loadStats w = [StatsShown 0 0 0 0; ConnectionStatusShown true]).
Proof.
  intros _. split; [| split].
  - destruct (loadStats_runs w) as (r & w1 & _ & _ & _ & ->).
    apply loadStats_apply_runs.
  - destruct (loadDashboard_runs w) as (r & w1 & _ & _ & ->).
    apply loadStats_apply_runs.
  - intros Hc. unfold added, loadStats, loadStats_fetch, tryCatch, bind,
      Database.getPatients, Database.getAppointments, Database.getDeadlines,
      Database.getLowStock.
    rewrite !(read_unreachable _ w Hc). simpl.
    by rewrite <- app_assoc, drop_app_length.
Qed.

End StatsStatus.

(** X7 for a collaborator that rejects every read, and in the world
    without a collaborator. *)
Lemma loadStats_always_shows_connected_witness :
  last (trace (loadStats (host := utcHost) failingWorld).2)
  = Some (ConnectionStatusShown true)
  ∧ connected offlineWorld = false
  ∧ added (loadStats (host := utcHost)) offlineWorld
    = [StatsShown 0 0 0 0; ConnectionStatusShown true].
Proof.
  split; [| split; [reflexivity |]].
  - exact (proj1 (loadStats_always_shows_connected (host := utcHost) failingWorld
                    specDb_lists_are_arrays)).
  - exact (proj2 (proj2 (loadStats_always_shows_connected (host := utcHost) offlineWorld
                           specDb_lists_are_arrays)) eq_refl).
Defined.

(** ** Dates given day first *)

Lemma includes_char (s : string) (c : ascii) :
  includes s (String c EmptyString) = charIn c s.
Proof.
  induction s as [|a s IH]; [reflexivity |].
  rewrite includes_unfold, IH. simpl. by rewrite andb_true_r, Ascii.eqb_sym.
Qed.

Lemma charIn_repeatChar c d n : Ascii.eqb c d = false → charIn c (repeatChar n d) = false.
Proof. intros H. induction n as [|n IH]; [done |]. simpl. by rewrite H, IH. Qed.

Lemma charIn_padStart c d n s :
  Ascii.eqb c d = false → charIn c (padStart n d s) = charIn c s.
Proof. intros H. unfold padStart. by rewrite charIn_app, charIn_repeatChar. Qed.

(** No part of a split contains the separator. *)
Lemma split_parts_free sep s : Forall (λ p, charIn sep p = false) (split sep s).
Proof.
  induction s as [|a s IH]; [by repeat constructor |].
  simpl. destruct (Ascii.eqb a sep) eqn:E; [by constructor |].
  destruct (split sep s) as [|p ps].
  - constructor; [| done]. simpl. by rewrite Ascii.eqb_sym, E.
  - inversion IH as [|? ? Hp Hps]; subst. constructor; [| done].
    simpl. by rewrite Ascii.eqb_sym, E, Hp.
Qed.

(** What the conversion changes no longer contains a slash. *)
Lemma convertDate_changed s : convertDate s ≠ s → charIn "/" (convertDate s) = false.
Proof.
  unfold convertDate. destruct (_ && _); [| done].
  pose proof (split_parts_free "/" s) as Hparts.
  destruct (split "/" s) as [|p0 [|p1 [|p2 [|? ?]]]]; try done.
  destruct (_ <=? _)%nat; [intros _ | done].
  inversion Hparts as [|? ? H0 H]; subst. inversion H as [|? ? H1 H']; subst.
  inversion H' as [|? ? H2 _]; subst.
  by rewrite !charIn_app, !charIn_padStart, H0, H1, H2.
Qed.

(** X9. The date conversion of the date-accepting handlers is idempotent:
    converting a converted date changes nothing. *)
Theorem convertDate_idempotent (s : string) : convertDate (convertDate s) = convertDate s.
Proof.
  destruct (decide (convertDate s = s)) as [E | Hne]; [by rewrite !E |].
  pose proof (convertDate_changed s Hne) as Hfree.
  unfold convertDate at 1. by rewrite includes_char, Hfree, andb_false_r.
Qed.

Section DateQueries.
Context {host : Host} {persist : Persistence}.
Import ToolExecutor.

(** X10. The two queries by date convert a day/month/year date before they
    use it. [getAppointmentsByDate] asks the collaborator for the
    year-month-day date and for nothing else; [getDeadlinesByDate] returns
    the deadlines whose [date] (or else [dueDate]) is strictly equal to the
    year-month-day date, in stored order. *)
Theorem date_queries_use_canonical_date
    (params : obj) (d m y : string) (w : World) (rows : list obj) (db1 : DbState) :
  (String.length d ≤ 2)%nat →
  includes d "/" = false → includes m "/" = false → includes y "/" = false →
  get params "date" = JStr (d +:+ "/" +:+ m +:+ "/" +:+ y) →
  connected w = true →
  let canonical := JStr (y +:+ "-" +:+ padStart 2 "0" m +:+ "-" +:+ padStart 2 "0" d) in
  added (getAppointmentsByDate params) w = [DbCalled (GetAppointmentsByDate canonical)]
  ∧ (dbCall (GetAll Deadlines) (db w) = (Resolved (DataEnvelope (DataRows rows)), db1) →
     let found :=
       List.filter (λ r, strictEq (jsOr (get r "date") (get r "dueDate")) canonical) rows in
     ∃ out, (getDeadlinesByDate params w).1 = Ok out
            ∧ success out = true
            ∧ data out = match found with [] => DataNone | _ => DataRows found end).
Proof.
  intros Hlen Hd Hm Hy Hdate Hc canonical. subst canonical.
  rewrite <- (convertDate_dmy d m y Hlen Hd Hm Hy).
  set (s := d +:+ "/" +:+ m +:+ "/" +:+ y) in *.
  assert (jsOr (get params "date") (JStr EmptyString) = JStr s) as Hor.
  { rewrite Hdate. apply jsOr_str_empty. }
  split.
  - unfold added, getAppointmentsByDate, tryCatch. rewrite Hor.
    change (convertDateVal (JStr s)) with (ret (JStr (convertDate s))).
    rewrite bind_ret. unfold bind, windowDb. rewrite Hc.
    destruct (dbCall _ (db w)) as [[r|e|] d1]; simpl.
    + destruct (bool_decide _); simpl; by rewrite drop_app_length.
    + by rewrite drop_app_length.
    + by rewrite drop_app_length.
  - intros Hr found. unfold getDeadlinesByDate, tryCatch. rewrite Hor.
    change (convertDateVal (JStr s)) with (ret (JStr (convertDate s))).
    rewrite bind_ret. unfold bind, Database.getDeadlines.
    rewrite (read_resolved _ _ _ _ Hc Hr). unfold rowsOf. fold found.
    destruct found as [|r0 found']; simpl; eauto.
Qed.
End DateQueries.

(** X10 for 25/12/2024. *)
Lemma date_queries_use_canonical_date_witness :
  added (ToolExecutor.getAppointmentsByDate (host := utcHost) christmasParams) reportWorld
  = [DbCalled (GetAppointmentsByDate (JStr "2024-12-25"))].
Proof.
  assert (String.length "25" ≤ 2)%nat as Hlen by (simpl; lia).
  exact (proj1 (date_queries_use_canonical_date (host := utcHost) (persist := specPersistence)
                  christmasParams "25" "12" "2024" reportWorld
                  (dbDeadlines (db reportWorld)) (db reportWorld)
                  Hlen eq_refl eq_refl eq_refl eq_refl eq_refl)).
Defined.

(** ** Numbers in created records *)

Lemma parseInt_cases v : (∃ n, parseInt v = JNum n) ∨ parseInt v = JNaN.
Proof.
  destruct v as [| |b|n| |s]; simpl; eauto.
  unfold parseIntStr.
  destruct (match trimStart s with
            | String "-"%char r => (-1, r)
            | String "+"%char r => (1, r)
            | _ => (1, trimStart s)
            end) as [sign s2].
  destruct (match s2 with
            | String "0"%char (String "x"%char r) => (16, r)
            | String "0"%char (String "X"%char r) => (16, r)
            | _ => (10, s2)
            end) as [radix s3].
  destruct (parseDigits radix None s3); eauto.
Qed.

(** [parseInt(v) || k] is a number: what [parseInt] found when that is a
    number other than zero, and [k] otherwise. *)
Lemma parseInt_or_default v k :
  ∃ n, jsOr (parseInt v) (JNum k) = JNum n
       ∧ (k ≠ 0 → n ≠ 0)
       ∧ (∀ p, parseInt v = JNum p → p ≠ 0 → n = p)
       ∧ (parseInt v = JNaN ∨ parseInt v = JNum 0 → n = k).
Proof.
  destruct (parseInt_cases v) as [[n ->] | ->].
  - rewrite jsOr_num_default. destruct (Z.eqb_spec n 0) as [-> | Hn].
    + exists k. repeat split; try done. by intros p [= <-].
    + exists n. repeat split; try done.
      * by intros p [= <-].
      * intros [? | [= ?]]; done.
  - exists k. repeat split; done.
Qed.

Section CreatedNumbers.
Context {host : Host} {persist : Persistence}.
Import ToolExecutor.

Lemma emitsOnly_convertDateVal P v : emitsOnly P (convertDateVal v).
Proof. unfold convertDateVal. destruct v; emits. Qed.

(** X11. The numeric fields of a created record are numbers, with the
    defaults 0, 10 and 30. For parameters that are not numbers of 22 digits
    or more: an inventory item is created with the [quantity] that
    [parseInt] finds in the parameter, and 0 when it finds none; with the
    [minStock] that [parseInt] finds in [minStock] (or else [minimumStock])
    when that is not zero, and 10 when it finds none or zero, so [minStock]
    is never zero and the low-stock rule on the created item reads
    [quantity <= minStock]. An appointment is created with the [duration]
    that [parseInt] finds when that is not zero, and 30 when it finds none
    or zero. *)
Theorem created_records_carry_numbers (params : obj) (w : World) :
  plainNumber (get params "quantity") →
  plainNumber (jsOr (get params "minStock") (get params "minimumStock")) →
  plainNumber (get params "duration") →
  Forall (createsOnly Inventory
            (λ r, ∃ q m,
               get r "quantity" = JNum q ∧ get r "minStock" = JNum m ∧ m ≠ 0
               ∧ (isLow r = true ↔ q ≤ m)
               ∧ (∀ p, parseInt (get params "quantity") = JNum p → q = p)
               ∧ (parseInt (get params "quantity") = JNaN → q = 0)
               ∧ (∀ p, parseInt (jsOr (get params "minStock") (get params "minimumStock"))
                       = JNum p → p ≠ 0 → m = p)
               ∧ (parseInt (jsOr (get params "minStock") (get params "minimumStock")) = JNaN
                  ∨ parseInt (jsOr (get params "minStock") (get params "minimumStock"))
                    = JNum 0 → m = 10)))
         (added (createInventoryItem params) w)
  ∧ Forall (createsOnly Appointments
              (λ r, ∃ n,
                 get r "duration" = JNum n ∧ n ≠ 0
                 ∧ (∀ p, parseInt (get params "duration") = JNum p → p ≠ 0 → n = p)
                 ∧ (parseInt (get params "duration") = JNaN
                    ∨ parseInt (get params "duration") = JNum 0 → n = 30)))
           (added (createAppointment params) w).
Proof.
  intros _ _ _. split; apply added_emitsOnly.
  - unfold createInventoryItem. cbv zeta.
    destruct (parseInt_or_default (get params "quantity") 0) as (q & Eq & _ & Hq & Hq0).
    destruct (parseInt_or_default (jsOr (get params "minStock") (get params "minimumStock")) 10)
      as (m & Em & Hm & Hmp & Hm0).
    rewrite Eq, Em.
    emits.
    all: try (by apply createsOnly_other).
    all: try (by apply emitsOnly_loadStats_apply; intros; apply createsOnly_other).
    apply createsOnly_create. exists q, m.
    assert (m ≠ 0) as Hm' by (by apply Hm).
    unfold isLow, get. simplify_map_eq.
    split; [done |]. split; [done |]. split; [done |]. split; [| split; [| split; [| split]]].
    + rewrite jsOr_num_zero, jsOr_num_default.
      apply Z.eqb_neq in Hm'. rewrite Hm'. apply Z.leb_le.
    + intros p Hp. destruct (Z.eq_dec p 0) as [-> | Hne].
      * apply Hq0. by right.
      * by apply Hq.
    + intros Hp. apply Hq0. by left.
    + exact Hmp.
    + exact Hm0.
  - unfold createAppointment. cbv zeta.
    destruct (parseInt_or_default (get params "duration") 30) as (n & En & Hn & Hnp & Hn0).
    rewrite En.
    emits.
    all: try (by apply createsOnly_other).
    all: try (by apply emitsOnly_loadStats_apply; intros; apply createsOnly_other).
    all: try apply emitsOnly_convertDateVal.
    all: apply createsOnly_create; exists n; unfold get; simplify_map_eq.
    all: split; [done |]; split; [by apply Hn |]; split; [exact Hnp | exact Hn0].
Qed.
End CreatedNumbers.

(** X11 for an item whose quantity does not parse and whose minimum stock
    is zero: it is created with the quantity 0 and the minimum stock 10. *)
Lemma created_records_carry_numbers_witness :
  head (added (ToolExecutor.createInventoryItem (host := utcHost) unparsedParams) emptyWorld)
  = Some (DbCalled (Create Inventory
            (<["name" := JStr "Gloves"]> (<["category" := JStr "consumables"]>
            (<["quantity" := JNum 0]> (<["minStock" := JNum 10]>
            (<["unit" := JStr EmptyString]> ∅)))))))
  ∧ Forall (createsOnly Inventory
              (λ r, ∃ q m,
                 get r "quantity" = JNum q ∧ get r "minStock" = JNum m ∧ m ≠ 0
                 ∧ (ToolExecutor.isLow (host := utcHost) r = true ↔ q ≤ m)
                 ∧ (∀ p, parseInt (get unparsedParams "quantity") = JNum p → q = p)
                 ∧ (parseInt (get unparsedParams "quantity") = JNaN → q = 0)
                 ∧ (∀ p, parseInt (jsOr (get unparsedParams "minStock")
                                        (get unparsedParams "minimumStock"))
                         = JNum p → p ≠ 0 → m = p)
                 ∧ (parseInt (jsOr (get unparsedParams "minStock")
                                   (get unparsedParams "minimumStock")) = JNaN
                    ∨ parseInt (jsOr (get unparsedParams "minStock")
                                     (get unparsedParams "minimumStock"))
                      = JNum 0 → m = 10)))
           (added (ToolExecutor.createInventoryItem (host := utcHost) unparsedParams)
              emptyWorld).
Proof.
  split; [by vm_compute |].
  assert (plainNumber (get unparsedParams "quantity")) as H1.
  { intros n H. vm_compute in H. discriminate. }
  assert (plainNumber (jsOr (get unparsedParams "minStock")
                            (get unparsedParams "minimumStock"))) as H2.
  { intros n H. vm_compute in H. discriminate. }
  assert (plainNumber (get unparsedParams "duration")) as H3.
  { intros n H. vm_compute in H. discriminate. }
  exact (proj1 (created_records_carry_numbers (host := utcHost) (persist := specPersistence)
                  unparsedParams emptyWorld H1 H2 H3)).
Defined.

(** ** Escaping and Markdown *)


Lemma escapeHtml_cons c s :
  escapeHtml (String c s)
  = (if Ascii.eqb c "&" then "&amp;"
     else if Ascii.eqb c "<" then "&lt;"
     else if Ascii.eqb c ">" then "&gt;"
     else String c EmptyString) +:+ escapeHtml s.
Proof. reflexivity. Qed.

(** Escaping brings in no character other than those of the three
    entities. *)
Lemma charIn_escapeHtml x s :
  charIn x "&lt;gamp<>" = false → charIn x (escapeHtml s) = charIn x s.
Proof.
  intros H. simpl in H.
  repeat (apply orb_false_iff in H as [? H]).
  induction s as [|c s IH]; [done |].
  rewrite escapeHtml_cons, charIn_app, IH, charIn_cons.
  destruct (Ascii.eqb c "&") eqn:E1.
  { apply Ascii.eqb_eq in E1 as ->. simpl. by rewrite H0, H3, H5, H6, H7. }
  destruct (Ascii.eqb c "<") eqn:E2.
  { apply Ascii.eqb_eq in E2 as ->. simpl. by rewrite H0, H1, H2, H3, H8. }
  destruct (Ascii.eqb c ">") eqn:E3.
  { apply Ascii.eqb_eq in E3 as ->. simpl. by rewrite H0, H2, H3, H4, H9. }
  simpl. by rewrite orb_false_r.
Qed.

Lemma escapeHtml_no_angle s :
  charIn "<" (escapeHtml s) = false ∧ charIn ">" (escapeHtml s) = false.
Proof.
  assert (∀ x, x = "<"%char ∨ x = ">"%char → charIn x (escapeHtml s) = false) as H.
  { intros x Hx. induction s as [|c s IH]; [done |].
    rewrite escapeHtml_cons, charIn_app, IH, orb_false_r.
    destruct (Ascii.eqb c "&"); [by destruct Hx as [-> | ->] |].
    destruct (Ascii.eqb c "<") eqn:E2; [by destruct Hx as [-> | ->] |].
    destruct (Ascii.eqb c ">") eqn:E3; [by destruct Hx as [-> | ->] |].
    rewrite charIn_cons, orb_false_r, Ascii.eqb_sym. by destruct Hx as [-> | ->]. }
  split; apply H; auto.
Qed.

Lemma escapeHtml_plain s :
  charIn "&" s = false → charIn "<" s = false → charIn ">" s = false → escapeHtml s = s.
Proof.
  induction s as [|c s IH]; [done |]. rewrite !charIn_cons.
  intros H1 H2 H3.
  apply orb_false_iff in H1 as [E1 H1]. apply orb_false_iff in H2 as [E2 H2].
  apply orb_false_iff in H3 as [E3 H3].
  rewrite escapeHtml_cons, IH by done.
  rewrite Ascii.eqb_sym in E1. rewrite Ascii.eqb_sym in E2. rewrite Ascii.eqb_sym in E3.
  by rewrite E1, E2, E3.
Qed.

(** X12. [escapeHtml] leaves no angle bracket in its result, and it leaves
    every double quote where it was: its result is safe as element content,
    while inside a quoted attribute, where [linkifyEntityMentions] puts it,
    a double quote of the text ends the attribute. *)
Theorem escapeHtml_escapes_tags_not_quotes (s : string) :
  charIn "<" (escapeHtml s) = false
  ∧ charIn ">" (escapeHtml s) = false
  ∧ charIn (ascii_of_nat 34) (escapeHtml s) = charIn (ascii_of_nat 34) s.
Proof.
  destruct (escapeHtml_no_angle s) as [H1 H2].
  repeat split; try done. by apply charIn_escapeHtml.
Qed.

(** *** Global replacement *)

Lemma replaceAll_cons re f skip prev c s :
  replaceAll re f skip prev (String c s)
  = match skip with
    | S k => replaceAll re f k (Some c) s
    | O =>
        match re prev (String c s) with
        | Some m => f m +:+ replaceAll re f (String.length m - 1) (Some c) s
        | None => String c (replaceAll re f 0 (Some c) s)
        end
    end.
Proof. by destruct skip. Qed.

Lemma lastChar_app prev x y : lastChar prev (x +:+ y) = lastChar (lastChar prev x) y.
Proof.
  revert prev. induction x as [|c x IH]; intros prev; [done |].
  rewrite append_cons. simpl. apply IH.
Qed.

(** Where the expression cannot fire the text is copied. *)
Lemma replaceAll_app_plain re f a x y prev :
  firesAt re a → charIn a x = false →
  replaceAll re f 0 prev (x +:+ y) = x +:+ replaceAll re f 0 (lastChar prev x) y.
Proof.
  intros Hre. revert prev. induction x as [|c x IH]; intros prev Hx; [done |].
  rewrite charIn_cons in Hx. apply orb_false_iff in Hx as [Hc Hx].
  rewrite !append_cons, replaceAll_cons.
  destruct (re prev (String c (x +:+ y))) as [m|] eqn:E.
  - destruct (Hre _ _ _ E) as [r [= -> _]]. by rewrite Ascii.eqb_refl in Hc.
  - by rewrite IH.
Qed.

Lemma replaceAll_nil re f skip prev : replaceAll re f skip prev EmptyString = EmptyString.
Proof. by destruct skip. Qed.

Lemma replaceAll_plain re f a s prev :
  firesAt re a → charIn a s = false → replaceAll re f 0 prev s = s.
Proof.
  intros Hre Hs. rewrite <- (append_nil_r s) at 1.
  rewrite (replaceAll_app_plain re f a s EmptyString prev Hre Hs).
  by rewrite replaceAll_nil, append_nil_r.
Qed.



Lemma firesAt_delimited a d : firesAt (delimited (String a d)) a.
Proof.
  intros prev s m. unfold delimited.
  destruct (startsWith (String a d) s) eqn:E; [| done]. intros _.
  destruct (startsWith_inv _ _ E) as [r ->]. by exists (d +:+ r).
Qed.

Lemma firesAt_blankLines : firesAt blankLines "010".
Proof.
  intros prev s m. unfold blankLines.
  destruct s as [|c s]; [done |]. simpl.
  destruct (Ascii.eqb c "010") eqn:E; [| done].
  apply Ascii.eqb_eq in E as ->. eauto.
Qed.

Lemma firesAt_lineBreak : firesAt lineBreak "010".
Proof.
  intros prev s m. unfold lineBreak.
  destruct s as [|c s]; [done |].
  destruct (Ascii.eqb c "010") eqn:E; [| done].
  apply Ascii.eqb_eq in E as ->. eauto.
Qed.

(** *** formatMarkdown *)

Lemma lineBreak_clears s prev :
  charIn "010" (replaceAll lineBreak (λ _, "<br>") 0 prev s) = false.
Proof.
  revert prev. induction s as [|c s IH]; intros prev; [done |].
  rewrite replaceAll_cons. unfold lineBreak at 1.
  destruct (Ascii.eqb c "010") eqn:E.
  - change (String.length nl - 1)%nat with 0%nat. by rewrite charIn_app, IH.
  - by rewrite charIn_cons, Ascii.eqb_sym, E, IH.
Qed.

(** X13. The result of [formatMarkdown] holds no newline: every one has
    become a line break tag. *)
Theorem formatMarkdown_leaves_no_newline (text : JsVal) :
  charIn "010" (formatMarkdown text) = false.
Proof.
  unfold formatMarkdown. destruct (negb (truthy text)); [done |].
  apply lineBreak_clears.
Qed.


Lemma isPlain_escapeHtml s : isPlain s → isPlain (escapeHtml s).
Proof.
  intros (H1 & H2 & H3). unfold isPlain.
  by rewrite !charIn_escapeHtml, H1, H2, H3.
Qed.

(** The replacements after the bold one leave a plain text as it is. *)
Lemma markdown_rest_plain s prev :
  isPlain s →
  replaceAll lineBreak (λ _, "<br>") 0 prev
    (replaceAll blankLines (λ _, "<br><br>") 0 prev
       (replaceAll (delimited "`") (wrapGroup "code" "`") 0 prev
          (replaceAll (delimited "*") (wrapGroup "em" "*") 0 prev s)))
  = s.
Proof.
  intros (H1 & H2 & H3).
  rewrite (replaceAll_plain _ _ "*" s) by (done || apply firesAt_delimited).
  rewrite (replaceAll_plain _ _ "`" s) by (done || apply firesAt_delimited).
  rewrite (replaceAll_plain _ _ "010" s) by (done || apply firesAt_blankLines).
  by rewrite (replaceAll_plain _ _ "010" s) by (done || apply firesAt_lineBreak).
Qed.

(** So do all five. *)
Lemma markdown_passes_plain s prev :
  isPlain s →
  replaceAll lineBreak (λ _, "<br>") 0 prev
    (replaceAll blankLines (λ _, "<br><br>") 0 prev
       (replaceAll (delimited "`") (wrapGroup "code" "`") 0 prev
          (replaceAll (delimited "*") (wrapGroup "em" "*") 0 prev
             (replaceAll (delimited "**") (wrapGroup "strong" "**") 0 prev s))))
  = s.
Proof.
  intros Hs. pose proof Hs as (H1 & _ & _).
  rewrite (replaceAll_plain _ _ "*" s) by (done || apply firesAt_delimited).
  by apply markdown_rest_plain.
Qed.

(** X14. On a text without an asterisk, a backquote and a newline,
    [formatMarkdown] is [escapeHtml]: it only escapes. *)
Theorem formatMarkdown_plain_text (s : string) :
  isPlain s → formatMarkdown (JStr s) = escapeHtml s.
Proof.
  intros Hs. unfold formatMarkdown. simpl truthy.
  destruct (String.eqb_spec s EmptyString) as [-> | Hne]; [done |].
  simpl negb. cbv iota zeta. simpl toStr.
  by apply markdown_passes_plain, isPlain_escapeHtml.
Qed.






(** X14 on a text with an ampersand and angle brackets. *)
Lemma formatMarkdown_plain_text_witness :
  formatMarkdown (JStr "Tom & <Jerry>") = escapeHtml "Tom & <Jerry>".
Proof.
  exact (formatMarkdown_plain_text "Tom & <Jerry>"
           (conj eq_refl (conj eq_refl eq_refl))).
Defined.


(** ** The linker on text without placeholders *)

(** *** The placeholder round trip *)

Lemma getSubstitution_literal m b a t :
  charIn "$" t = false → getSubstitution m b a t = t.
Proof.
  induction t as [|c t IH]; [done |]. rewrite charIn_cons. intros H.
  apply orb_false_iff in H as [Hc Ht]. simpl.
  rewrite Ascii.eqb_sym in Hc. by rewrite Hc, IH.
Qed.

Lemma replaceFirst_unfold pat repl before s :
  replaceFirst pat repl before s
  = if startsWith pat s then
      before +:+ getSubstitution pat before (dropStr (String.length pat) s) repl
      +:+ dropStr (String.length pat) s
    else
      match s with
      | EmptyString => before
      | String c s' => replaceFirst pat repl (before +:+ String c EmptyString) s'
      end.
Proof. by destruct s. Qed.

(** The first occurrence of a pattern cannot start before the first
    occurrence of its first character. *)
Lemma replaceFirst_behind a p repl before pre r :
  charIn a pre = false → charIn "$" repl = false →
  replaceFirst (String a p) repl before (pre +:+ String a p +:+ r)
  = before +:+ pre +:+ repl +:+ r.
Proof.
  intros Hpre Hrepl. revert before. induction pre as [|c pre IH]; intros before.
  - rewrite append_nil_l, replaceFirst_unfold, startsWith_app, dropStr_app.
    by rewrite getSubstitution_literal.
  - rewrite charIn_cons in Hpre. apply orb_false_iff in Hpre as [Hc Hpre].
    rewrite append_cons, replaceFirst_unfold.
    assert (startsWith (String a p) (String c (pre +:+ String a p +:+ r)) = false) as ->.
    { simpl. by rewrite Hc. }
    rewrite IH by done. by rewrite !append_assoc.
Qed.

Lemma untilClose_spec s body :
  untilClose s = Some body → ∃ rest, s = body +:+ String ">" rest.
Proof.
  revert body. induction s as [|c s IH]; intros body; [done |]. simpl.
  destruct (Ascii.eqb c ">") eqn:E.
  - intros [= <-]. apply Ascii.eqb_eq in E as ->. by exists s.
  - destruct (untilClose s) as [b|]; [| done]. intros [= <-].
    destruct (IH b eq_refl) as [rest ->]. by exists rest.
Qed.

(** A tag found at the head of a text is a non-empty prefix of it. *)
Lemma tagAt_spec s tag :
  tagAt s = Some tag → ∃ c t rest, tag = String c t ∧ s = tag +:+ rest.
Proof.
  unfold tagAt. destruct s as [|c s]; [done |].
  destruct (Ascii.eqb_spec c "<") as [-> | Hne].
  - destruct (untilClose s) as [[|b body]|] eqn:E; try done. intros [= <-].
    destruct (untilClose_spec _ _ E) as [rest ->].
    exists "<"%char, (String b body +:+ ">"), rest. split; [done |].
    rewrite !append_assoc. reflexivity.
  - intros H. exfalso. revert H.
    destruct c as [[] [] [] [] [] [] [] []]; done.
Qed.

Lemma charIn_app_false c a b : charIn c (a +:+ b) = false → charIn c a = false ∧ charIn c b = false.
Proof. rewrite charIn_app. apply orb_false_iff. Qed.

Lemma dropStr_charIn c n s : charIn c s = false → charIn c (dropStr n s) = false.
Proof.
  revert n. induction s as [|d s IH]; intros n H; [by destruct n |].
  destruct n as [|n]; [done |]. simpl. apply IH.
  rewrite charIn_cons in H. by apply orb_false_iff in H as [_ H].
Qed.

(** Putting the tags back gives the text again when it holds no underscore
    (a placeholder starts with one) and no dollar sign (which [replace]
    expands in a replacement text). *)
Lemma restore_protect s :
  charIn "_" s = false → charIn "$" s = false →
  ∀ skip index pre,
    charIn "_" pre = false →
    restoreTags (protectTags skip index s).2 (pre +:+ (protectTags skip index s).1)
    = pre +:+ dropStr skip s.
Proof.
  unfold restoreTags.
  induction s as [|c s IH]; intros Hu Hd skip index pre Hpre.
  - simpl. by rewrite dropStr_nil.
  - rewrite protectTags_cons.
    pose proof Hu as Hu'. pose proof Hd as Hd'.
    rewrite charIn_cons in Hu', Hd'.
    apply orb_false_iff in Hu' as [Hcu Hsu]. apply orb_false_iff in Hd' as [Hcd Hsd].
    destruct skip as [|k]; [| by apply IH].
    destruct (tagAt (String c s)) as [tag|] eqn:Etag.
    + destruct (tagAt_spec _ _ Etag) as (c' & t & rest & -> & Es).
      injection Es as <- ->.
      pose proof (IH Hsu Hsd (String.length (String c t) - 1)%nat (S index)) as IH'.
      destruct (protectTags _ _ (t +:+ rest)) as [out entries]. simpl in IH' |- *.
      rewrite placeholderOf_head.
      rewrite (replaceFirst_behind "_" _ (String c t) EmptyString pre out).
      * rewrite append_nil_l, <- append_assoc, IH'.
        -- rewrite Nat.sub_0_r, dropStr_app. by rewrite append_assoc.
        -- apply charIn_app_false in Hsu as [Ht _].
           by rewrite charIn_app, Hpre, charIn_cons, Hcu, Ht.
      * done.
      * apply charIn_app_false in Hsd as [Ht _]. by rewrite charIn_cons, Hcd, Ht.
    + assert (charIn "_" (pre +:+ String c EmptyString) = false) as Hpre'
        by (by rewrite charIn_app, Hpre, charIn_cons, Hcu).
      pose proof (IH Hsu Hsd 0%nat index (pre +:+ String c EmptyString) Hpre') as IH'.
      destruct (protectTags 0 index s) as [out entries]. simpl in IH' |- *.
      rewrite !append_assoc in IH'. exact IH'.
Qed.

Section LinkifySafe.
Context {host : Host}.

(** X16. With cached patient numbers that a regular expression reads as
    they are, and on a text without underscore and dollar sign, the linker
    is well behaved: it returns the text as it is or a text that carries
    the annotation marker, and linking its result again changes nothing. *)
Theorem linkify_unchanged_or_linked (c : DataCache) (text : string) :
  Forall (λ p, literalNumber (get p "patient_number")) (patients c) →
  charIn "_" text = false → charIn "$" text = false →
  (linkifyEntityMentions c text = text
   ∨ includes (linkifyEntityMentions c text) marker = true)
  ∧ linkifyEntityMentions c (linkifyEntityMentions c text) = linkifyEntityMentions c text.
Proof.
  intros _ Hu Hd.
  assert (restoreTags (protectTags 0 0 text).2 (protectTags 0 0 text).1 = text) as Hround.
  { pose proof (restore_protect text Hu Hd 0%nat 0%nat EmptyString eq_refl) as H.
    rewrite !append_nil_l in H. rewrite H. by destruct text. }
  split.
  - destruct (linkify_cases c text) as [H | H]; [by right | left].
    rewrite H, Hround. by destruct (String.eqb text EmptyString).
  - by apply linkify_idempotent_when_markup_survives.
Qed.
End LinkifySafe.

(** X16 for the bold text about Jane, who has the patient number 1. *)
Lemma linkify_unchanged_or_linked_witness :
  includes (linkifyEntityMentions (host := utcHost) (setPatients [janeRecord] emptyCache)
              boldJane) marker = true
  ∧ linkifyEntityMentions (host := utcHost) (setPatients [janeRecord] emptyCache)
      (linkifyEntityMentions (host := utcHost) (setPatients [janeRecord] emptyCache)
         boldJane)
    = linkifyEntityMentions (host := utcHost) (setPatients [janeRecord] emptyCache) boldJane.
Proof.
  assert (Forall (λ p, literalNumber (get p "patient_number"))
            (patients (setPatients [janeRecord] emptyCache))) as Hnum.
  { constructor; [| constructor]. vm_compute. reflexivity. }
  split; [by vm_compute |].
  exact (proj2 (linkify_unchanged_or_linked (host := utcHost)
                  (setPatients [janeRecord] emptyCache) boldJane Hnum eq_refl eq_refl)).
Defined.

(** ** The appointment and deadline tables *)

Lemma insertSorted_perm {A} (le : A → A → bool) x l : insertSorted le x l ≡ₚ x :: l.
Proof.
  induction l as [|y l IH]; [done |]. simpl.
  destruct (le x y); [done |]. rewrite IH. apply perm_swap.
Qed.

Lemma sortBy_perm {A} (le : A → A → bool) l : sortBy le l ≡ₚ l.
Proof.
  induction l as [|x l IH]; [done |]. simpl. by rewrite insertSorted_perm, IH.
Qed.

(** Sorting by insertion gives a sorted list, for a comparison that agrees
    on the elements of the list with a transitive relation. *)
Lemma insertSorted_sorted {A} (le : A → A → bool) (R : A → A → Prop) x l :
  (∀ a b c, R a b → R b c → R a c) →
  (∀ b, b ∈ l → le x b = true → R x b) →
  (∀ b, b ∈ l → le x b = false → R b x) →
  StronglySorted R l → StronglySorted R (insertSorted le x l).
Proof.
  intros Htrans Hle Hgt Hs. induction Hs as [|y l Hs IH Hy]; simpl.
  - by repeat constructor.
  - destruct (le x y) eqn:E.
    + assert (R x y) as Hxy by (apply Hle; [left | done]).
      constructor; [by constructor |]. constructor; [done |].
      eapply Forall_impl; [exact Hy |]. intros z Hz. by apply (Htrans x y z).
    + constructor.
      * apply IH; intros b Hb; [apply Hle | apply Hgt]; by right.
      * rewrite insertSorted_perm. constructor; [| done]. apply Hgt; [left | done].
Qed.

Lemma sortBy_sorted {A} (le : A → A → bool) (R : A → A → Prop) l :
  (∀ a b c, R a b → R b c → R a c) →
  (∀ a b, a ∈ l → b ∈ l → le a b = true → R a b) →
  (∀ a b, a ∈ l → b ∈ l → le a b = false → R b a) →
  StronglySorted R (sortBy le l).
Proof.
  intros Htrans Hle Hgt. induction l as [|x l IH]; simpl; [constructor |].
  apply insertSorted_sorted; [done | | |].
  - intros b Hb. rewrite sortBy_perm in Hb. apply Hle; [left | by right].
  - intros b Hb. rewrite sortBy_perm in Hb. apply Hgt; [left | by right].
  - apply IH; intros a b Ha Hb; [apply Hle | apply Hgt]; by right.
Qed.

Section Orders.
Context {host : Host}.

Lemma startsNoEarlier_trans a b c :
  startsNoEarlier a b → startsNoEarlier b c → startsNoEarlier a c.
Proof.
  intros (ta & tb & Ha & Hb & H1) (tb' & tc & Hb' & Hc & H2).
  rewrite Hb in Hb'. injection Hb' as <-. exists ta, tc. repeat split; try done. lia.
Qed.

Lemma dueNoLater_trans a b c : dueNoLater a b → dueNoLater b c → dueNoLater a c.
Proof.
  intros (ta & tb & Ha & Hb & H1) (tb' & tc & Hb' & Hc & H2).
  rewrite Hb in Hb'. injection Hb' as <-. exists ta, tc. repeat split; try done. lia.
Qed.

(** With valid times, sorting the appointments puts the latest first. *)
Lemma appointments_latest_first (l : list obj) :
  Forall (λ a, ∃ t, hostDateValue (appointmentStart a) = Some t) l →
  StronglySorted startsNoEarlier
    (sortBy (λ a b, dateLe (appointmentStart b) (appointmentStart a)) l).
Proof.
  intros Hvalid. rewrite Forall_forall in Hvalid.
  apply sortBy_sorted; [apply startsNoEarlier_trans | |].
  - intros a b Ha Hb. destruct (Hvalid a Ha) as [ta Hta]. destruct (Hvalid b Hb) as [tb Htb].
    unfold dateLe. rewrite Hta, Htb. intros H%Z.leb_le. by exists ta, tb.
  - intros a b Ha Hb. destruct (Hvalid a Ha) as [ta Hta]. destruct (Hvalid b Hb) as [tb Htb].
    unfold dateLe. rewrite Hta, Htb. intros H%Z.leb_gt. exists tb, ta. repeat split; try done.
    lia.
Qed.

(** With valid dates, sorting the deadlines puts the earliest first. *)
Lemma deadlines_earliest_first (l : list obj) :
  Forall (λ a, ∃ t, hostDateValue (jsOr (get a "date") (get a "dueDate")) = Some t) l →
  StronglySorted dueNoLater
    (sortBy (λ a b, dateLe (jsOr (get a "date") (get a "dueDate"))
                           (jsOr (get b "date") (get b "dueDate"))) l).
Proof.
  intros Hvalid. rewrite Forall_forall in Hvalid.
  apply sortBy_sorted; [apply dueNoLater_trans | |].
  - intros a b Ha Hb. destruct (Hvalid a Ha) as [ta Hta]. destruct (Hvalid b Hb) as [tb Htb].
    unfold dateLe. rewrite Hta, Htb. intros H%Z.leb_le. by exists ta, tb.
  - intros a b Ha Hb. destruct (Hvalid a Ha) as [ta Hta]. destruct (Hvalid b Hb) as [tb Htb].
    unfold dateLe. rewrite Hta, Htb. intros H%Z.leb_gt. exists tb, ta. repeat split; try done.
    lia.
Qed.
End Orders.

Lemma lowerOr_text {host : Host} dflt v : isText v = true → ∃ s, lowerOr dflt v = Ok s.
Proof.
  unfold lowerOr, jsOr. destruct v as [| |[]|n| |s]; simpl; try discriminate; eauto.
  - destruct (n =? 0); [eauto | discriminate].
  - destruct (String.eqb s EmptyString); simpl; eauto.
Qed.

Lemma lowerOr_other {host : Host} dflt v :
  isText v = false → lowerOr dflt v = Thrown (hostTypeError "toLowerCase").
Proof.
  unfold lowerOr, jsOr. destruct v as [| |[]|n| |s]; simpl; try discriminate; eauto.
  destruct (n =? 0); [discriminate | eauto].
Qed.

Lemma mapRes_texts {host : Host} dflt key (l : list obj) :
  Forall (λ a, isText (get a key) = true) l →
  ∃ ys, mapRes (λ a, lowerOr dflt (get a key)) l = Ok ys.
Proof.
  induction 1 as [|a l Ha _ [ys IH]]; [by eexists |].
  destruct (lowerOr_text dflt _ Ha) as [s Hs]. simpl. rewrite Hs, IH. by eexists.
Qed.

Lemma mapRes_other {host : Host} dflt key (l : list obj) :
  Exists (λ a, isText (get a key) = false) l →
  mapRes (λ a, lowerOr dflt (get a key)) l = Thrown (hostTypeError "toLowerCase").
Proof.
  induction 1 as [a l Ha | a l _ IH]; simpl.
  - by rewrite (lowerOr_other _ _ Ha).
  - destruct (isText (get a key)) eqn:E.
    + destruct (lowerOr_text dflt _ E) as [s ->]. simpl. by rewrite IH.
    + by rewrite (lowerOr_other _ _ E).
Qed.

Section TableLoads.
Context {host : Host} {persist : Persistence}.
Variables (w : World) (rows : list obj) (d : DbState).
Hypothesis Hc : connected w = true.

Lemma loadAppointments_read :
  dbCall (GetAll Appointments) (db w) = (Resolved (DataEnvelope (DataRows rows)), d) →
  Database.getAppointments (logged (TableShown Appointments Loading) w)
  = (Ok rows, logged (DbCalled (GetAll Appointments))
                (withDb d (logged (TableShown Appointments Loading) w))).
Proof. intros Hr. by apply (read_resolved _ _ (DataEnvelope (DataRows rows)) d). Qed.

Lemma loadDeadlines_read :
  dbCall (GetAll Deadlines) (db w) = (Resolved (DataEnvelope (DataRows rows)), d) →
  Database.getDeadlines (logged (TableShown Deadlines Loading) w)
  = (Ok rows, logged (DbCalled (GetAll Deadlines))
                (withDb d (logged (TableShown Deadlines Loading) w))).
Proof. intros Hr. by apply (read_resolved _ _ (DataEnvelope (DataRows rows)) d). Qed.

(** X17. [loadAppointments] and [loadDeadlines] sort the array they have
    just stored in [DataCache], in place. When the rows read have valid
    times, the cache holds them afterwards reordered, none lost or added:
    the appointments with the latest first, the deadlines with the earliest
    due date first; and when every status (priority) is a text or missing,
    the table shows the rows of the cache in that order, or the empty-table
    line. *)
Theorem tables_sort_the_cache_in_place :
  (dbCall (GetAll Appointments) (db w) = (Resolved (DataEnvelope (DataRows rows)), d) →
   Forall (λ a, ∃ t, hostDateValue (appointmentStart a) = Some t) rows →
   Forall (λ a, isText (get a "status") = true) rows →
   appointments (cache (loadAppointments w).2) ≡ₚ rows
   ∧ StronglySorted startsNoEarlier (appointments (cache (loadAppointments w).2))
   ∧ last (trace (loadAppointments w).2)
     = Some (TableShown Appointments
               (if bool_decide (rows = []) then NoRows
                else Rows (appointments (cache (loadAppointments w).2)))))
  ∧ (dbCall (GetAll Deadlines) (db w) = (Resolved (DataEnvelope (DataRows rows)), d) →
     Forall (λ a, ∃ t, hostDateValue (jsOr (get a "date") (get a "dueDate")) = Some t) rows →
     Forall (λ a, isText (get a "priority") = true) rows →
     deadlines (cache (loadDeadlines w).2) ≡ₚ rows
     ∧ StronglySorted dueNoLater (deadlines (cache (loadDeadlines w).2))
     ∧ last (trace (loadDeadlines w).2)
       = Some (TableShown Deadlines
                 (if bool_decide (rows = []) then NoRows
                  else Rows (deadlines (cache (loadDeadlines w).2))))).
Proof.
  split; intros Hr Hvalid Htext.
  - pose proof (appointments_latest_first rows Hvalid) as Hsorted.
    unfold loadAppointments, tryCatch, bind, emit, modify, liftRes. cbv beta iota zeta.
    rewrite !(loadAppointments_read Hr). cbv beta iota zeta.
    destruct rows as [|a l]; [simpl; rewrite last_snoc; by repeat constructor |].
    rewrite !bool_decide_eq_false_2 by done. cbv beta iota zeta.
    set (sorted := sortBy _ (a :: l)) in *.
    assert (Forall (λ a, isText (get a "status") = true) sorted) as Hs.
    { unfold sorted. by rewrite sortBy_perm. }
    destruct (mapRes_texts "scheduled" "status" sorted Hs) as [ys Hys].
    rewrite !Hys. simpl. rewrite last_snoc.
    split; [apply sortBy_perm | split; [exact Hsorted | done]].
  - pose proof (deadlines_earliest_first rows Hvalid) as Hsorted.
    unfold loadDeadlines, tryCatch, bind, emit, modify, liftRes. cbv beta iota zeta.
    rewrite !(loadDeadlines_read Hr). cbv beta iota zeta.
    destruct rows as [|a l]; [simpl; rewrite last_snoc; by repeat constructor |].
    rewrite !bool_decide_eq_false_2 by done. cbv beta iota zeta.
    set (sorted := sortBy _ (a :: l)) in *.
    assert (Forall (λ a, isText (get a "priority") = true) sorted) as Hs.
    { unfold sorted. by rewrite sortBy_perm. }
    destruct (mapRes_texts "medium" "priority" sorted Hs) as [ys Hys].
    rewrite !Hys. simpl. rewrite last_snoc.
    split; [apply sortBy_perm | split; [exact Hsorted | done]].
Qed.

(** X18. One row whose status (for a deadline: priority) is truthy and not
    a text breaks the whole table: lower-casing it for the badge throws,
    and the table shows the line that loading failed, although the rows
    were read and are in the cache. *)
Theorem odd_badge_fails_the_table :
  (dbCall (GetAll Appointments) (db w) = (Resolved (DataEnvelope (DataRows rows)), d) →
   Exists (λ a, isText (get a "status") = false) rows →
   last (trace (loadAppointments w).2) = Some (TableShown Appointments LoadFailed)
   ∧ appointments (cache (loadAppointments w).2) ≡ₚ rows)
  ∧ (dbCall (GetAll Deadlines) (db w) = (Resolved (DataEnvelope (DataRows rows)), d) →
     Exists (λ a, isText (get a "priority") = false) rows →
     last (trace (loadDeadlines w).2) = Some (TableShown Deadlines LoadFailed)
     ∧ deadlines (cache (loadDeadlines w).2) ≡ₚ rows).
Proof.
  split; intros Hr Hodd.
  - unfold loadAppointments, tryCatch, bind, emit, modify, liftRes. cbv beta iota zeta.
    rewrite !(loadAppointments_read Hr). cbv beta iota zeta.
    destruct rows as [|a l]; [by apply Exists_nil in Hodd |].
    rewrite !bool_decide_eq_false_2 by done. cbv beta iota zeta.
    set (sorted := sortBy _ (a :: l)).
    assert (Exists (λ a, isText (get a "status") = false) sorted) as Hs.
    { unfold sorted. by rewrite sortBy_perm. }
    rewrite !(mapRes_other "scheduled" "status" sorted Hs). simpl.
    rewrite last_snoc. split; [done | apply sortBy_perm].
  - unfold loadDeadlines, tryCatch, bind, emit, modify, liftRes. cbv beta iota zeta.
    rewrite !(loadDeadlines_read Hr). cbv beta iota zeta.
    destruct rows as [|a l]; [by apply Exists_nil in Hodd |].
    rewrite !bool_decide_eq_false_2 by done. cbv beta iota zeta.
    set (sorted := sortBy _ (a :: l)).
    assert (Exists (λ a, isText (get a "priority") = false) sorted) as Hs.
    { unfold sorted. by rewrite sortBy_perm. }
    rewrite !(mapRes_other "medium" "priority" sorted Hs). simpl.
    rewrite last_snoc. split; [done | apply sortBy_perm].
Qed.
End TableLoads.

(** X17 for the nine appointments, stored with the earliest first: the
    cache and the table hold them with the latest first. *)
Lemma tables_sort_the_cache_in_place_witness :
  appointments (cache (loadAppointments (host := utcHost) nineWorld).2)
  = reverse nineAppointments
  ∧ StronglySorted (startsNoEarlier (host := utcHost))
      (appointments (cache (loadAppointments (host := utcHost) nineWorld).2))
  ∧ last (trace (loadAppointments (host := utcHost) nineWorld).2)
    = Some (TableShown Appointments
              (if bool_decide (nineAppointments = []) then NoRows
               else Rows (appointments (cache (loadAppointments (host := utcHost) nineWorld).2)))).
Proof.
  assert (Forall (λ a, ∃ t, hostDateValue (Host := utcHost) (appointmentStart a) = Some t)
            nineAppointments) as Hvalid.
  { repeat constructor; eexists; by vm_compute. }
  assert (Forall (λ a, isText (get a "status") = true) nineAppointments) as Htext.
  { repeat constructor. }
  destruct (proj1 (tables_sort_the_cache_in_place (host := utcHost)
                     (persist := specPersistence) nineWorld nineAppointments (db nineWorld)
                     eq_refl) eq_refl Hvalid Htext) as (_ & Hsorted & Hshown).
  split; [by vm_compute |]. split; [exact Hsorted | exact Hshown].
Defined.

(** X18 for an appointment whose status is the number 1. *)
Lemma odd_badge_fails_the_table_witness :
  last (trace (loadAppointments (host := utcHost) numberedStatusWorld).2)
  = Some (TableShown Appointments LoadFailed)
  ∧ appointments (cache (loadAppointments (host := utcHost) numberedStatusWorld).2)
    ≡ₚ dbAppointments (db numberedStatusWorld).
Proof.
  destruct (odd_badge_fails_the_table (host := utcHost) (persist := specPersistence)
              numberedStatusWorld (dbAppointments (db numberedStatusWorld))
              (db numberedStatusWorld) eq_refl) as (H & _).
  apply H; [reflexivity |]. by constructor.
Defined.

(** ** The patient and inventory tables *)

Section PlainTables.
Context {host : Host} {persist : Persistence}.

(** X19. With a collaborator that resolves its listings with arrays of
    records, [loadPatients] and [loadInventory] cannot end on the line that
    loading failed: also when the collaborator rejects the read or is out
    of reach, they end by showing the rows now in the cache, or the
    empty-table line when there are none. *)
Theorem plain_tables_never_fail (w : World) :
  listsAreArrays →
  last (trace (loadPatients w).2)
  = Some (TableShown Patients
            (match patients (cache (loadPatients w).2) with
             | [] => NoRows
             | ps => Rows ps
             end))
  ∧ last (trace (loadInventory w).2)
    = Some (TableShown Inventory
              (match inventory (cache (loadInventory w).2) with
               | [] => NoRows
               | inv => InventoryRows (map (λ item, (item, isLowInTable item)) inv)
               end)).
Proof.
  intros _. split.
  - unfold loadPatients, tryCatch, bind, emit, modify, Database.getPatients.
    cbv beta iota zeta.
    destruct (read_answers (GetAll Patients) (logged (TableShown Patients Loading) w))
      as (rows & w1 & E & _). rewrite !E. cbv beta iota zeta.
    destruct rows as [|p ps]; simpl; by rewrite last_snoc.
  - unfold loadInventory, tryCatch, bind, emit, modify, Database.getInventory.
    cbv beta iota zeta.
    destruct (read_answers (GetAll Inventory) (logged (TableShown Inventory Loading) w))
      as (rows & w1 & E & _). rewrite !E. cbv beta iota zeta.
    destruct rows as [|p ps]; simpl; by rewrite last_snoc.
Qed.
End PlainTables.

(** X19 for a collaborator that rejects every read: the patient table shows
    the empty-table line. *)
Lemma plain_tables_never_fail_witness :
  last (trace (loadPatients (host := utcHost) failingWorld).2)
  = Some (TableShown Patients
            (match patients (cache (loadPatients (host := utcHost) failingWorld).2) with
             | [] => NoRows
             | ps => Rows ps
             end))
  ∧ patients (cache (loadPatients (host := utcHost) failingWorld).2) = [].
Proof.
  split; [| reflexivity].
  exact (proj1 (plain_tables_never_fail (host := utcHost) failingWorld
                  specDb_lists_are_arrays)).
Defined.

(** ** Unknown actions *)

Section Names.
Context {host : Host} {persist : Persistence}.
Import ToolExecutor.

(** X20. An action name that [execute] does not know is not an error. With
    the collaborator in reach, and unless both a patient name and a date
    are given, the outcome is a success whose message is the [response] or
    [message] parameter, or else a stock sentence; the world is left as it
    was. *)
Theorem unknown_action_reports_success (toolName : string) (params : obj) (w : World) :
  connected w = true →
  selectCase (toLowerCase toolName) = None →
  truthy (get params "patientName") && truthy (get params "date") = false →
  ∃ out, execute toolName params w = (Ok out, w)
         ∧ success out = true
         ∧ message out = jsOr (jsOr (get params "response") (get params "message"))
                              (JStr "I've processed your request. Is there anything else?").
Proof.
  intros Hc Hs Hp. eexists. unfold execute, bind, Database.isConnected.
  rewrite Hc. simpl negb. cbv iota. rewrite Hs, Hp. done.
Qed.
End Names.

(** X20 for an action that is not registered. *)
Lemma unknown_action_reports_success_witness :
  ∃ out, ToolExecutor.execute (host := utcHost) "drop_database" ∅ emptyWorld
         = (Ok out, emptyWorld)
         ∧ success out = true
         ∧ message out
           = jsOr (jsOr (get ∅ "response") (get ∅ "message"))
                  (JStr "I've processed your request. Is there anything else?").
Proof.
  apply (unknown_action_reports_success (host := utcHost) "drop_database" ∅ emptyWorld);
    reflexivity.
Defined.

(** ** The month grid *)

Section CalendarGrid.
Context {calendar : CalendarHost}.
Import Calendar.

Lemma omap_map_some {A B} (f : B → option A) (g : A → B) (l : list A) :
  (∀ x, f (g x) = Some x) → omap f (map g l) = l.
Proof.
  intros H. induction l as [|x l IH]; [done |]. csimpl. by rewrite H, IH.
Qed.

Lemma omap_map_none {A B C} (f : B → option A) (g : C → B) (l : list C) :
  (∀ x, f (g x) = None) → omap f (map g l) = [].
Proof.
  intros H. induction l as [|x l IH]; [done |]. csimpl. by rewrite H, IH.
Qed.

Lemma whole_weeks (t : Z) :
  0 ≤ t → (t + (if Z.rem t 7 =? 0 then 0 else 7 - Z.rem t 7)) mod 7 = 0
          ∧ 0 ≤ (if Z.rem t 7 =? 0 then 0 else 7 - Z.rem t 7) < 7.
Proof.
  intros Ht. rewrite Z.rem_mod_nonneg by lia.
  pose proof (Z.mod_pos_bound t 7 ltac:(lia)) as Hb.
  destruct (Z.eqb_spec (t mod 7) 0) as [E | E].
  - split; [by rewrite Z.add_0_r | lia].
  - split; [| lia].
    rewrite (Z.div_mod t 7) at 1 by lia.
    replace (7 * (t / 7) + t mod 7 + (7 - t mod 7)) with ((t / 7 + 1) * 7) by lia.
    apply Z_mod_mult.
Qed.

(** X21. The month grid is made of whole weeks. When the weekday of the
    first and the number of days of the month are not negative, the number
    of cells is a multiple of seven, and the cells of the month itself are
    the days 1 to the last one, once each and in order. *)
Theorem calendar_shows_whole_weeks (st : AppState) (c : DataCache) :
  0 ≤ firstWeekday (currentYear st) (currentMonth st) →
  0 ≤ lastDayBefore (currentYear st) (currentMonth st + 1) →
  Z.of_nat (length (calendarCells st c)) mod 7 = 0
  ∧ omap (λ cell, match cell with
                  | MonthDay day _ _ _ => Some day
                  | OtherMonthDay _ => None
                  end) (calendarCells st c)
    = seqZ 1 (lastDayBefore (currentYear st) (currentMonth st + 1)).
Proof.
  intros Hfirst Hdays. unfold calendarCells.
  destruct localToday as [[ty tm] td]. cbv zeta.
  set (firstDay := firstWeekday _ _) in *. set (days := lastDayBefore _ (_ + 1)) in *.
  destruct (whole_weeks (firstDay + days) ltac:(lia)) as [Hmod Hrem].
  set (remaining := if Z.rem (firstDay + days) 7 =? 0 then _ else _) in *.
  split.
  - rewrite !length_app, !length_map, length_reverse, !length_seqZ.
    rewrite !Nat2Z.inj_add, !Z2Nat.id by lia. by rewrite Z.add_assoc.
  - rewrite !omap_app, !omap_map_none, omap_map_some by done.
    rewrite (omap_map_none _ OtherMonthDay) by done. by rewrite app_nil_r.
Qed.

Lemma countEvent_lookup year month counts date day :
  default 0 (countEvent year month counts date !! day)
  = default 0 (counts !! day)
    + (if bool_decide (localDate date = Some (year, month, day)) then 1 else 0).
Proof.
  unfold countEvent. destruct (localDate date) as [[[y m] d]|].
  - destruct (Z.eqb_spec m month) as [-> | Hm]; simpl.
    + destruct (Z.eqb_spec y year) as [-> | Hy]; simpl.
      * destruct (decide (d = day)) as [-> | Hd].
        -- rewrite lookup_insert_eq, bool_decide_eq_true_2 by done. done.
        -- rewrite lookup_insert_ne, bool_decide_eq_false_2 by congruence. lia.
      * rewrite bool_decide_eq_false_2 by congruence. lia.
    + rewrite bool_decide_eq_false_2 by congruence. lia.
  - rewrite bool_decide_eq_false_2 by done. lia.
Qed.

Lemma count_appointments year month day (l : list obj) counts :
  default 0 (fold_left (λ counts a,
                          if truthy (get a "date")
                          then countEvent year month counts (get a "date")
                          else counts) l counts !! day)
  = default 0 (counts !! day)
    + Z.of_nat (length (List.filter (appointmentOnDay year month day) l)).
Proof.
  revert counts. induction l as [|a l IH]; intros counts; [simpl; lia |].
  simpl. rewrite IH. unfold appointmentOnDay at 2.
  destruct (truthy (get a "date")); simpl.
  - rewrite countEvent_lookup. destruct (bool_decide _); simpl; lia.
  - lia.
Qed.

Lemma count_deadlines year month day (l : list obj) counts :
  default 0 (fold_left (λ counts d,
                          countEvent year month counts
                            (jsOr (get d "date") (get d "dueDate"))) l counts !! day)
  = default 0 (counts !! day)
    + Z.of_nat (length (List.filter (deadlineOnDay year month day) l)).
Proof.
  revert counts. induction l as [|a l IH]; intros counts; [simpl; lia |].
  simpl. rewrite IH, countEvent_lookup. unfold deadlineOnDay at 2.
  destruct (bool_decide _); simpl; lia.
Qed.

(** X22. The count on a day of the month grid is the number of cached
    appointments with a truthy [date] on that day plus the number of cached
    deadlines whose [date] (or else [dueDate]) is on that day. *)
Theorem calendar_counts_the_events_of_a_day
    (st : AppState) (c : DataCache) (day eventCount : Z) (isToday : bool) (dateStr : string) :
  MonthDay day isToday eventCount dateStr ∈ calendarCells st c →
  eventCount
  = Z.of_nat (length (List.filter (appointmentOnDay (currentYear st) (currentMonth st) day)
                        (appointments c)))
    + Z.of_nat (length (List.filter (deadlineOnDay (currentYear st) (currentMonth st) day)
                          (deadlines c))).
Proof.
  unfold calendarCells. destruct localToday as [[ty tm] td]. cbv zeta.
  rewrite !elem_of_app, !list_elem_of_fmap.
  intros [(i & [=] & _) | [(d' & [= -> _ -> _] & _) | (i & [=] & _)]].
  unfold eventCounts. rewrite count_deadlines, count_appointments.
  rewrite lookup_empty. simpl. lia.
Qed.

(** X23. From a month index within 0..11, [prevMonth] and [nextMonth] keep
    the index within 0..11 and move by exactly one month across the year
    boundary, and each undoes the other: state and drawing are back to what
    they were. *)
Theorem month_navigation_round_trip (st : AppState) (c : DataCache) :
  0 ≤ currentMonth st ≤ 11 →
  let back := (prevMonth st c).1 in
  let forth := (nextMonth st c).1 in
  0 ≤ currentMonth back ≤ 11
  ∧ 0 ≤ currentMonth forth ≤ 11
  ∧ 12 * currentYear back + currentMonth back = 12 * currentYear st + currentMonth st - 1
  ∧ 12 * currentYear forth + currentMonth forth = 12 * currentYear st + currentMonth st + 1
  ∧ nextMonth back c = (st, renderCalendar st c)
  ∧ prevMonth forth c = (st, renderCalendar st c).
Proof.
  intros Hm. destruct st as [m y]. simpl in Hm. unfold prevMonth, nextMonth. cbv zeta.
  simpl currentMonth. simpl currentYear.
  destruct (Z.ltb_spec (m - 1) 0) as [H1 | H1]; destruct (Z.ltb_spec 11 (m + 1)) as [H2 | H2];
    try lia; simpl; (split; [lia |]); (split; [lia |]); (split; [lia |]); (split; [lia |]).
  all: repeat match goal with
              | |- context [?a <? ?b] => destruct (Z.ltb_spec a b); try lia
              end.
  all: split; repeat f_equal; lia.
Qed.
End CalendarGrid.

(** X21 for June 2024. *)
Lemma calendar_shows_whole_weeks_witness :
  Z.of_nat (length (Calendar.calendarCells (calendar := utcCalendar) june2024 emptyCache))
    mod 7 = 0
  ∧ omap (λ cell, match cell with
                  | MonthDay day _ _ _ => Some day
                  | OtherMonthDay _ => None
                  end) (Calendar.calendarCells (calendar := utcCalendar) june2024 emptyCache)
    = seqZ 1 (lastDayBefore (CalendarHost := utcCalendar) (currentYear june2024)
                (currentMonth june2024 + 1)).
Proof.
  apply (calendar_shows_whole_weeks (calendar := utcCalendar) june2024 emptyCache);
    by vm_compute.
Defined.

(** X22 for 3 July 2024, with one appointment and one deadline. *)
Lemma calendar_counts_the_events_of_a_day_witness :
  2 = Z.of_nat (length (List.filter
                          (appointmentOnDay (calendar := utcCalendar)
                             (currentYear july2024) (currentMonth july2024) 3)
                          (appointments julyCache)))
      + Z.of_nat (length (List.filter
                            (deadlineOnDay (calendar := utcCalendar)
                               (currentYear july2024) (currentMonth july2024) 3)
                            (deadlines julyCache))).
Proof.
  apply (calendar_counts_the_events_of_a_day (calendar := utcCalendar) july2024 julyCache
           3 2 false "2024-07-03").
  vm_compute. repeat constructor.
Defined.

(** X23 from June 2024. *)
Lemma month_navigation_round_trip_witness :
  Calendar.nextMonth (calendar := utcCalendar)
    (Calendar.prevMonth (calendar := utcCalendar) june2024 emptyCache).1 emptyCache
  = (june2024, Calendar.renderCalendar (calendar := utcCalendar) june2024 emptyCache).
Proof.
  destruct (month_navigation_round_trip (calendar := utcCalendar) june2024 emptyCache)
    as (_ & _ & _ & _ & H & _); [simpl; lia |].
  exact H.
Defined.

(** ** Updates, deletes and lookups by title *)

Section Updates.
Context {host : Host} {persist : Persistence}.
Import ToolExecutor.

Lemma allTruthy_empty : allTruthy ∅.
Proof. intros k v H. by rewrite lookup_empty in H. Qed.

Lemma allTruthy_setIfTruthy key v u : allTruthy u → allTruthy (setIfTruthy key v u).
Proof.
  intros Hu. unfold setIfTruthy. destruct (truthy v) eqn:E; [| done].
  intros k x. destruct (decide (key = k)) as [<- | Hne].
  - rewrite lookup_insert_eq. by intros [= <-].
  - rewrite lookup_insert_ne by done. apply Hu.
Qed.

(** X24. The update handlers for patients, appointments and deadlines send
    only truthy values, and never an [id]: a field cannot be set to the
    empty text, to zero or to nothing through them. *)
Theorem updates_cannot_clear_a_field (params : obj) (w : World) :
  Forall (updatesOnly (λ u, allTruthy u ∧ u !! "id" = None))
         (added (updatePatient params) w)
  ∧ Forall (updatesOnly (λ u, allTruthy u ∧ u !! "id" = None))
           (added (updateAppointment params) w)
  ∧ Forall (updatesOnly (λ u, allTruthy u ∧ u !! "id" = None))
           (added (updateDeadline params) w).
Proof.
  repeat split; apply added_emitsOnly.
  - unfold updatePatient. emits.
    all: try (by apply updatesOnly_other).
    all: try (by apply emitsOnly_loadStats_apply; intros; apply updatesOnly_other).
    apply updatesOnly_update. split.
    + repeat apply allTruthy_setIfTruthy. apply allTruthy_empty.
    + by rewrite !setIfTruthy_other.
  - unfold updateAppointment. emits.
    all: try (by apply updatesOnly_other).
    all: try (by apply emitsOnly_loadStats_apply; intros; apply updatesOnly_other).
    apply updatesOnly_update. split.
    + repeat apply allTruthy_setIfTruthy. apply allTruthy_empty.
    + by rewrite !setIfTruthy_other.
  - unfold updateDeadline. emits.
    all: try (by apply updatesOnly_other).
    all: try (by apply emitsOnly_loadStats_apply; intros; apply updatesOnly_other).
    apply updatesOnly_update. split.
    + repeat apply allTruthy_setIfTruthy. apply allTruthy_empty.
    + by rewrite !setIfTruthy_other.
Qed.
End Updates.

Section FirstMatch.
Context {host : Host} {persist : Persistence}.
Import ToolExecutor.

Lemma findRes_first {A} (pred : A → Res bool) before m after :
  Forall (λ x, pred x = Ok false) before → pred m = Ok true →
  findRes pred (before ++ m :: after) = Ok (Some m).
Proof.
  intros Hb Hm. induction Hb as [|x l Hx _ IH]; simpl; [by rewrite Hm |].
  by rewrite Hx.
Qed.

Lemma findRes_throws {A} (pred : A → Res bool) before bad after e :
  Forall (λ x, pred x = Ok false) before → pred bad = Thrown e →
  findRes pred (before ++ bad :: after) = Thrown e.
Proof.
  intros Hb Hm. induction Hb as [|x l Hx _ IH]; simpl; [by rewrite Hm |].
  by rewrite Hx.
Qed.

Lemma mentions_number key term record n :
  get record key = JNum n → n ≠ 0 →
  mentions key term record = Thrown (hostTypeError "toLowerCase").
Proof.
  intros Hk Hn. unfold mentions, lowerOf. rewrite Hk.
  rewrite jsOr_truthy; [done |]. simpl. by apply negb_true_iff, Z.eqb_neq.
Qed.

Variables (params : obj) (w : World) (d : DbState) (before after : list obj) (m : obj).
Hypothesis Hc : connected w = true.

(** X25. A delete by title, name or patient acts on the first record that
    matches, in stored order: the handler reads the collection and then
    deletes the [id] of that record, whatever follows it. *)
Theorem delete_acts_on_the_first_match :
  (dbCall (GetAll Deadlines) (db w)
   = (Resolved (DataEnvelope (DataRows (before ++ m :: after))), d) →
   Forall (λ x, mentions "title" (get params "title") x = Ok false) before →
   mentions "title" (get params "title") m = Ok true →
   ∃ l, added (deleteDeadline params) w
        = DbCalled (GetAll Deadlines) :: DbCalled (Delete Deadlines (get m "id")) :: l)
  ∧ (dbCall (GetAll Inventory) (db w)
     = (Resolved (DataEnvelope (DataRows (before ++ m :: after))), d) →
     let term := jsOr (get params "name") (get params "itemName") in
     Forall (λ x, mentions "name" term x = Ok false) before →
     mentions "name" term m = Ok true →
     ∃ l, added (deleteInventoryItem params) w
          = DbCalled (GetAll Inventory) :: DbCalled (Delete Inventory (get m "id")) :: l)
  ∧ (dbCall (GetAll Appointments) (db w)
     = (Resolved (DataEnvelope (DataRows (before ++ m :: after))), d) →
     Forall (λ x, appointmentMatches params x = Ok false) before →
     appointmentMatches params m = Ok true →
     ∃ l, added (deleteAppointment params) w
          = DbCalled (GetAll Appointments) :: DbCalled (Delete Appointments (get m "id")) :: l).
Proof.
  split; [| split].
  - intros Hr Hb Hm.
    eapply added_read_then_write; [done | done | | |]; cycle 2.
    { unfold deleteDeadline, Database.getDeadlines, tryCatch at 1, bind at 1.
      rewrite (read_resolved _ _ _ _ Hc Hr). unfold rowsOf.
      unfold bind at 1, liftRes. rewrite findRes_first by done.
      unfold Database.deleteDeadline. reflexivity. }
    all: after_write.
  - intros Hr term Hb Hm.
    eapply added_read_then_write; [done | done | | |]; cycle 2.
    { unfold deleteInventoryItem, Database.getInventory, tryCatch at 1, bind at 1.
      rewrite (read_resolved _ _ _ _ Hc Hr). unfold rowsOf. cbv zeta.
      unfold bind at 1, liftRes. fold term. rewrite findRes_first by done.
      unfold Database.deleteInventoryItem. reflexivity. }
    all: after_write.
    all: try (by apply emitsOnly_loadInventory).
  - intros Hr Hb Hm.
    eapply added_read_then_write; [done | done | | |]; cycle 2.
    { unfold deleteAppointment, Database.getAppointments, tryCatch at 1, bind at 1.
      rewrite (read_resolved _ _ _ _ Hc Hr). unfold rowsOf.
      unfold bind at 1, liftRes. rewrite findRes_first by done.
      unfold Database.deleteAppointment. reflexivity. }
    all: after_write.
Qed.

(** X26. A deadline whose title is a number other than zero, stored before
    any match, makes the lookup by title fail: lower-casing the title
    throws, and deleting or showing a deadline answers with the failure
    message after the read, also when a matching deadline follows. *)
Theorem numeric_title_breaks_the_lookup (n : Z) :
  dbCall (GetAll Deadlines) (db w)
  = (Resolved (DataEnvelope (DataRows (before ++ m :: after))), d) →
  Forall (λ x, mentions "title" (get params "title") x = Ok false) before →
  get m "title" = JNum n → n ≠ 0 →
  let stopped := logged (DbCalled (GetAll Deadlines)) (withDb d w) in
  deleteDeadline params w
  = (Ok (failed ("❌ Failed to delete deadline: " +:+ hostTypeError "toLowerCase")), stopped)
  ∧ getDeadlineDetails params w
    = (Ok (failed ("❌ Failed to get deadline: " +:+ hostTypeError "toLowerCase")), stopped).
Proof.
  intros Hr Hb Hm Hn stopped.
  pose proof (mentions_number "title" (get params "title") m n Hm Hn) as Hbad.
  split.
  - unfold deleteDeadline, Database.getDeadlines, tryCatch, bind.
    rewrite (read_resolved _ _ _ _ Hc Hr). unfold rowsOf, liftRes.
    by rewrite (findRes_throws _ _ _ _ _ Hb Hbad).
  - unfold getDeadlineDetails, Database.getDeadlines, tryCatch, bind.
    rewrite (read_resolved _ _ _ _ Hc Hr). unfold rowsOf, liftRes.
    by rewrite (findRes_throws _ _ _ _ _ Hb Hbad).
Qed.
End FirstMatch.

(** X25 for two deadlines that both match the title. *)
Lemma delete_acts_on_the_first_match_witness :
  ∃ l, added (ToolExecutor.deleteDeadline (host := utcHost) reportParams) reportsWorld
       = DbCalled (GetAll Deadlines)
         :: DbCalled (Delete Deadlines (get (deadlineOn 2 "Report A" "2024-07-02") "id")) :: l.
Proof.
  assert (Forall (λ x, ToolExecutor.mentions (host := utcHost) "title" (get reportParams "title") x = Ok false)
            [deadlineOn 1 "Audit" "2024-07-01"]) as Hb by (constructor; [vm_compute; reflexivity | constructor]).
  exact (proj1 (delete_acts_on_the_first_match (host := utcHost) (persist := specPersistence)
                  reportParams reportsWorld (db reportsWorld)
                  [deadlineOn 1 "Audit" "2024-07-01"] [deadlineOn 3 "Report B" "2024-07-03"]
                  (deadlineOn 2 "Report A" "2024-07-02") eq_refl)
           eq_refl Hb eq_refl).
Defined.

(** X26 with a matching deadline stored after the numeric title. *)
Lemma numeric_title_breaks_the_lookup_witness :
  ToolExecutor.deleteDeadline (host := utcHost) reportParams numberedTitleWorld
  = (Ok (failed ("❌ Failed to delete deadline: "
                 +:+ hostTypeError (Host := utcHost) "toLowerCase")),
     logged (DbCalled (GetAll Deadlines)) (withDb (db numberedTitleWorld) numberedTitleWorld)).
Proof.
  assert (Forall (λ x, ToolExecutor.mentions (host := utcHost) "title" (get reportParams "title") x = Ok false)
            [deadlineOn 1 "Audit" "2024-07-01"]) as Hb by (constructor; [vm_compute; reflexivity | constructor]).
  assert (2024 ≠ 0) as Hn by lia.
  exact (proj1 (numeric_title_breaks_the_lookup (host := utcHost) (persist := specPersistence)
                  reportParams numberedTitleWorld (db numberedTitleWorld)
                  [deadlineOn 1 "Audit" "2024-07-01"] [deadlineOn 3 "Report" "2024-07-03"]
                  (<["title" := JNum 2024]> (deadlineOn 2 "x" "2024-07-02")) eq_refl 2024
                  eq_refl Hb eq_refl Hn)).
Defined.

(** ** The cache after a create *)

Section WriteThenRead.
Context {host : Host} {persist : Persistence}.
Import ToolExecutor.
Hypothesis Hpure : readsArePure.

Lemma read_at req w :
  connected w = true → isWrite req = false →
  ∃ w1, Database.read req w = (Ok (rowsAt req (db w)), w1)
        ∧ db w1 = db w ∧ cache w1 = cache w ∧ connected w1 = true.
Proof.
  intros Hc Hreq. unfold Database.read, tryCatch, windowDb, Database.isConnected, bind, rowsAt.
  simpl. rewrite Hc. simpl. rewrite Hc.
  pose proof (Hpure req (db w) Hreq) as Hd.
  destruct (dbCall req (db w)) as [[r|e|] d]; simpl in *; subst d; by eexists.
Qed.

Lemma loadStats_settles w :
  connected w = true →
  ∃ w1, loadStats w = (Ok tt, w1)
        ∧ db w1 = db w ∧ connected w1 = true
        ∧ patients (cache w1) = rowsAt (GetAll Patients) (db w)
        ∧ appointments (cache w1) = rowsAt (GetAll Appointments) (db w)
        ∧ deadlines (cache w1) = rowsAt (GetAll Deadlines) (db w)
        ∧ inventory (cache w1) = inventory (cache w).
Proof.
  intros Hc. unfold loadStats, loadStats_fetch, tryCatch, bind,
    Database.getPatients, Database.getAppointments, Database.getDeadlines, Database.getLowStock.
  destruct (read_at (GetAll Patients) w Hc eq_refl) as (w1 & -> & D1 & C1 & K1).
  destruct (read_at (GetAll Appointments) w1 K1 eq_refl) as (w2 & -> & D2 & C2 & K2).
  destruct (read_at (GetAll Deadlines) w2 K2 eq_refl) as (w3 & -> & D3 & C3 & K3).
  destruct (read_at GetLowStock w3 K3 eq_refl) as (w4 & -> & D4 & C4 & K4).
  eexists. split; [reflexivity |]. simpl.
  rewrite D4, D3, D2, D1, C4, C3, C2, C1, K4. by rewrite ?D2, ?D1.
Qed.

Lemma loadPatients_settles w :
  connected w = true →
  ∃ w1, loadPatients w = (Ok tt, w1)
        ∧ db w1 = db w ∧ connected w1 = true
        ∧ patients (cache w1) = rowsAt (GetAll Patients) (db w).
Proof.
  intros Hc. unfold loadPatients, tryCatch, bind, emit, modify, Database.getPatients.
  cbv beta iota zeta.
  destruct (read_at (GetAll Patients) (logged (TableShown Patients Loading) w) Hc eq_refl)
    as (w1 & -> & D1 & C1 & K1). cbv beta iota zeta.
  destruct (bool_decide _); eexists; (split; [reflexivity |]); simpl; by rewrite D1, K1.
Qed.

Lemma loadInventory_settles w :
  connected w = true →
  ∃ w1, loadInventory w = (Ok tt, w1)
        ∧ db w1 = db w ∧ connected w1 = true
        ∧ inventory (cache w1) = rowsAt (GetAll Inventory) (db w).
Proof.
  intros Hc. unfold loadInventory, tryCatch, bind, emit, modify, Database.getInventory.
  cbv beta iota zeta.
  destruct (read_at (GetAll Inventory) (logged (TableShown Inventory Loading) w) Hc eq_refl)
    as (w1 & -> & D1 & C1 & K1). cbv beta iota zeta.
  destruct (bool_decide _); eexists; (split; [reflexivity |]); simpl; by rewrite D1, K1.
Qed.

Lemma establishes_ret {A} (Pre : World → Prop) (Post : A → World → Prop) a :
  (∀ w, Pre w → Post a w) → establishes Pre (ret a) Post.
Proof. intros H w Hw. by apply H. Qed.

Lemma establishes_pre {A} (Pre Pre' : World → Prop) (m : M A) Post :
  (∀ w, Pre' w → Pre w) → establishes Pre m Post → establishes Pre' m Post.
Proof. intros Himp Hm w Hw. by apply Hm, Himp. Qed.

Lemma establishes_bind {A B} (Pre : World → Prop) (Mid : A → World → Prop)
    (Post : B → World → Prop) (m : M A) (k : A → M B) :
  establishes Pre m Mid → (∀ a, establishes (Mid a) (k a) Post) →
  establishes Pre (bind m k) Post.
Proof.
  intros Hm Hk w Hw. unfold bind. specialize (Hm w Hw).
  destruct (m w) as [[a|e] w1]; simpl in *; [by apply Hk | done].
Qed.

Lemma establishes_tryCatch {A} (Pre : World → Prop) (Post : A → World → Prop)
    (m : M A) (a0 : Err → A) :
  establishes Pre m Post → (∀ e w, Post (a0 e) w) →
  establishes Pre (tryCatch m (λ e, ret (a0 e))) Post.
Proof.
  intros Hm Hh w Hw. unfold tryCatch. specialize (Hm w Hw).
  destruct (m w) as [[a|e] w1]; simpl in *; [done | apply Hh].
Qed.

Lemma establishes_catch_message {A} (Pre : World → Prop) (Post : A → World → Prop)
    (m : M A) (a0 : string → A) :
  establishes Pre m Post → (∀ e w, Post (a0 e) w) →
  establishes Pre (tryCatch m (withMessage (λ e, ret (a0 e)))) Post.
Proof.
  intros Hm Hh w Hw. unfold tryCatch. specialize (Hm w Hw).
  destruct (m w) as [[a|[e|]] w1]; simpl in *; [done | apply Hh | done].
Qed.

Lemma establishes_liftRes {A} (P : World → Prop) (r : Res A) :
  establishes P (liftRes r) (λ _, P).
Proof. intros w Hw. unfold liftRes. by destruct r. Qed.

Lemma establishes_convertDateVal (P : World → Prop) v :
  establishes P (convertDateVal v) (λ _, P).
Proof.
  intros w Hw. unfold convertDateVal.
  destruct v as [| |[]|n| |s]; simpl; try done. by destruct (negb (n =? 0)).
Qed.

Lemma write_keeps_connected req :
  establishes (λ w, connected w = true) (Database.write req) (λ _ w, connected w = true).
Proof.
  intros w Hc. unfold Database.write, Database.isConnected, windowDb, bind. simpl.
  rewrite Hc. simpl. rewrite Hc. by destruct (dbCall req (db w)) as [[r|e|] d].
Qed.

Lemma lookup_keeps_connected req :
  establishes (λ w, connected w = true) (windowDb req) (λ _ w, connected w = true).
Proof.
  intros w Hc. unfold windowDb. rewrite Hc. by destruct (dbCall req (db w)) as [[r|e|] d].
Qed.

Lemma loadPatients_syncs :
  establishes (λ w, connected w = true) loadPatients
    (λ _ w, connected w = true ∧ inSync Patients w).
Proof.
  intros w Hc. destruct (loadPatients_settles w Hc) as (w1 & -> & D & K & P).
  simpl. split; [done |]. unfold inSync. simpl. by rewrite P, D.
Qed.

Lemma loadInventory_syncs :
  establishes (λ w, connected w = true) loadInventory
    (λ _ w, connected w = true ∧ inSync Inventory w).
Proof.
  intros w Hc. destruct (loadInventory_settles w Hc) as (w1 & -> & D & K & P).
  simpl. split; [done |]. unfold inSync. simpl. by rewrite P, D.
Qed.

Lemma loadStats_syncs (keepInventory : bool) :
  establishes
    (λ w, connected w = true ∧ (keepInventory = true → inSync Inventory w)) loadStats
    (λ _ w, inSync Patients w ∧ inSync Appointments w ∧ inSync Deadlines w
            ∧ (keepInventory = true → inSync Inventory w)).
Proof.
  intros w [Hc Hi].
  destruct (loadStats_settles w Hc) as (w1 & -> & D & K & P1 & P2 & P3 & P4).
  simpl. unfold inSync in *. simpl in *. rewrite P1, P2, P3, P4, D. by repeat split.
Qed.

Lemma renderCalendar_keeps_sync (k : Kind) :
  establishes (inSync k) renderCalendar (λ _, inSync k).
Proof. by intros w Hw. Qed.

Lemma refreshSchedule_keeps_sync (k : Kind) (dateStr : JsVal) :
  establishes (inSync k) (refreshSchedule dateStr) (λ _, inSync k).
Proof.
  intros w Hw. unfold refreshSchedule, loadTodaySchedule, showDateSchedule,
    bind, getWorld, emit, modify. cbv beta iota zeta. simpl.
  by destruct (strictEq _ _).
Qed.

(** X27. After a create that reports success, the cache of that kind holds
    what reading the collaborator returns at that moment. This holds with
    the collaborator in reach and when requests that read leave its state
    alone. *)
Theorem successful_create_leaves_cache_in_sync (params : obj) (w : World) :
  connected w = true →
  (∀ out, (createPatient params w).1 = Ok out → success out = true →
          inSync Patients (createPatient params w).2)
  ∧ (∀ out, (createInventoryItem params w).1 = Ok out → success out = true →
            inSync Inventory (createInventoryItem params w).2)
  ∧ (∀ out, (createAppointment params w).1 = Ok out → success out = true →
            inSync Appointments (createAppointment params w).2)
  ∧ (∀ out, (createDeadline params w).1 = Ok out → success out = true →
            inSync Deadlines (createDeadline params w).2).
Proof.
  intros Hc.
  assert (∀ (k : Kind) (m : M Outcome),
            establishes (λ w, connected w = true) m
              (λ out w1, success out = true → inSync k w1) →
            ∀ out, (m w).1 = Ok out → success out = true → inSync k (m w).2) as Hrun.
  { intros k m Hm out E Hs. specialize (Hm w Hc). rewrite E in Hm. by apply Hm. }
  split; [| split; [| split]]; apply Hrun.
  - unfold createPatient. apply establishes_catch_message; [| done]. cbv zeta.
    destruct (negb _); [by apply establishes_ret |].
    eapply establishes_bind; [apply write_keeps_connected | intros result].
    eapply establishes_bind; [apply loadPatients_syncs | intros []].
    eapply establishes_bind.
    { eapply establishes_pre; [| apply (loadStats_syncs false)]. by intros ? [? ?]. }
    intros [].
    eapply establishes_bind; [apply establishes_liftRes | intros ?].
    eapply establishes_bind; [apply establishes_liftRes | intros ?].
    eapply establishes_bind; [apply establishes_liftRes | intros ?].
    apply establishes_ret. by intros ? (? & _).
  - unfold createInventoryItem. apply establishes_catch_message; [| done]. cbv zeta.
    destruct (negb _); [by apply establishes_ret |].
    eapply establishes_bind; [apply write_keeps_connected | intros result].
    eapply establishes_bind; [apply loadInventory_syncs | intros []].
    eapply establishes_bind.
    { eapply establishes_pre; [| apply (loadStats_syncs true)]. by intros ? [? ?]. }
    intros [].
    apply establishes_ret. intros ? (_ & _ & _ & H) _. by apply H.
  - unfold createAppointment. apply establishes_catch_message; [| done]. cbv zeta.
    eapply (establishes_bind _
              (λ looked w1, match looked with
                            | inl _ => connected w1 = true
                            | inr out => success out = false
                            end)).
    { destruct (_ && _); [| by apply establishes_ret].
      apply (establishes_tryCatch _ _ _ (λ _, inr _)); [| done].
      eapply establishes_bind; [apply lookup_keeps_connected | intros patient].
      destruct patient as [| | | []]; by apply establishes_ret. }
    intros [patientName | out]; [| apply establishes_ret; by intros ? ->].
    eapply establishes_bind; [apply establishes_convertDateVal | intros dateStr].
    cbv zeta.
    destruct (negb _); [by apply establishes_ret |].
    destruct (negb _); [by apply establishes_ret |].
    eapply establishes_bind; [apply write_keeps_connected | intros result].
    eapply establishes_bind.
    { eapply establishes_pre; [| apply (loadStats_syncs false)]. by intros ? ?. }
    intros [].
    eapply establishes_bind.
    { eapply establishes_pre; [| apply (renderCalendar_keeps_sync Appointments)].
      by intros ? (_ & ? & _). }
    intros [].
    eapply establishes_bind; [apply refreshSchedule_keeps_sync | intros []].
    apply establishes_ret. by intros ? ?.
  - unfold createDeadline. apply establishes_catch_message; [| done].
    eapply establishes_bind; [apply establishes_convertDateVal | intros dateStr].
    cbv zeta.
    destruct (negb _); [by apply establishes_ret |].
    eapply establishes_bind; [apply write_keeps_connected | intros result].
    eapply establishes_bind.
    { eapply establishes_pre; [| apply (loadStats_syncs false)]. by intros ? ?. }
    intros [].
    eapply establishes_bind.
    { eapply establishes_pre; [| apply (renderCalendar_keeps_sync Deadlines)].
      by intros ? (_ & _ & ? & _). }
    intros [].
    eapply establishes_bind; [apply refreshSchedule_keeps_sync | intros []].
    apply establishes_ret. by intros ? ?.
Qed.
End WriteThenRead.

Lemma specDb_reads_are_pure : @readsArePure specPersistence.
Proof.
  intros req d Hreq. simpl. unfold specDbCall.
  destruct (failing d); [done |]. by destruct req.
Qed.

(** X27 for creating the patient Jane in the empty world. *)
Lemma successful_create_leaves_cache_in_sync_witness :
  inSync (H := specPersistence) Patients
    (ToolExecutor.createPatient (host := utcHost) namedJane emptyWorld).2.
Proof.
  assert (∃ out, (ToolExecutor.createPatient (host := utcHost) namedJane emptyWorld).1 = Ok out
                 ∧ success out = true) as (out & E & S).
  { vm_compute. eexists. split; reflexivity. }
  exact (proj1 (successful_create_leaves_cache_in_sync (host := utcHost)
                  (persist := specPersistence) specDb_reads_are_pure
                  namedJane emptyWorld eq_refl) out E S).
Defined.
